(** * wheelmaker: a shallow embedding of [tools/wheelmaker.py]

    The development follows the Python source top to bottom.  Python values
    are represented as follows.

    - [str] is [string]; a character is read as a code point below 256
      (Latin-1), and the character tables below ([is_space], [is_word],
      [lower]) are those of CPython for that range.
    - [bytes] is [list byte].
    - [int] is [N] (sizes, version numbers) or [Z] (header words), without
      bound: the limit an interpreter may put on the digits of a number
      converted from or to text ([sys.set_int_max_str_digits], 4300 by
      default from CPython 3.11 on) is not modelled.
    - [None]-able values are [option]; exceptions are the [Raise] branch of
      [result].
    - the [dict] of [get_files_to_package] is a [gmap string string].
    - [os.path.sep] is ["/"] and [os.path.altsep] is [None] (POSIX host).
    - the operating system can refuse to open the archive file, to write
      the name file and to close the archive ([os_error] of the [world]);
      a member written to an open archive is written: the limits of
      [zipfile] (a name of more than 65535 bytes, a streamed member of
      more than 2 GiB), a source file that cannot be read to its end and
      a failing write are not modelled, so what is said about members is
      said of calls that return.

    Library code the tool calls ([re], [packaging.version], [hashlib],
    [base64], [zipfile]) is modelled in the modules [Py], [Re], [Packaging],
    [Hashlib], [Base64] and [Zipfile], after CPython 3.11; everything
    after them is the tool.  The module [Wide] embeds [normalize_pep440]
    a second time, on lists of code points, for text beyond Latin-1. *)

From Stdlib Require Import ZArith NArith List String Ascii Bool Lia.
From Stdlib Require Import Strings.Byte DecimalString DecimalN DecimalPos.
From stdpp Require Import gmap strings sorting.
Import ListNotations.
Open Scope string_scope.
Open Scope list_scope.

Set Implicit Arguments.
Set Warnings "-register-all".

(* ===================================================================== *)
(** ** Exceptions and results                                             *)
(* ===================================================================== *)

Inductive exn : Type :=
| InvalidVersion      (* packaging.version.InvalidVersion *)
| ValueError          (* wrong arity when unpacking, closed archive *)
| FileNotFoundError   (* open() of a path that does not exist *)
| TypeError           (* open(None) *)
| AttributeError      (* method call on None *)
| TemplateError       (* re.error, IndexError: bad replacement template *)
| OSError.            (* the operating system refuses a call *)

Inductive result (A : Type) : Type :=
| Ok (a : A)
| Raise (e : exn).
Arguments Ok {A} a.
Arguments Raise {A} e.

Definition bind {A B : Type} (x : result A) (f : A -> result B) : result B :=
  match x with
  | Ok a => f a
  | Raise e => Raise e
  end.

Notation "'let!' x ':=' e 'in' k" := (bind e (fun x => k))
  (at level 10, x pattern, e at level 100, k at level 200).

Fixpoint mapM {A B : Type} (f : A -> result B) (l : list A)
  : result (list B) :=
  match l with
  | [] => Ok []
  | a :: l' =>
      let! b := f a in
      let! bs := mapM f l' in
      Ok (b :: bs)
  end.

(* ===================================================================== *)
(** ** Python [str] and [bytes] builtins                                  *)
(* ===================================================================== *)

Module Py.

Definition code (c : ascii) : N := N_of_ascii c.

Definition in_range (lo hi : N) (c : ascii) : bool :=
  (lo <=? code c)%N && (code c <=? hi)%N.

(** [[0-9]] *)
Definition is_digit (c : ascii) : bool := in_range 48 57 c.
(** [[a-z]] *)
Definition is_lower_az (c : ascii) : bool := in_range 97 122 c.
(** [[A-Z]] *)
Definition is_upper_az (c : ascii) : bool := in_range 65 90 c.

(** [str.isalnum] on one character: ASCII letters and digits, and in the
    upper half the letters (170, 181, 186, 192-214, 216-246, 248-255)
    and the numeric characters (178, 179, 185, 188-190). *)
Definition is_alnum (c : ascii) : bool :=
  is_digit c || is_lower_az c || is_upper_az c
  || (code c =? 170)%N || (code c =? 178)%N || (code c =? 179)%N
  || (code c =? 181)%N || (code c =? 185)%N || (code c =? 186)%N
  || in_range 188 190 c
  || in_range 192 214 c || in_range 216 246 c || in_range 248 255 c.

(** [\w] of a [str] pattern: alphanumeric or underscore. *)
Definition is_word (c : ascii) : bool := is_alnum c || (code c =? 95)%N.

(** [\s] of a [str] pattern (also [str.isspace]). *)
Definition is_space (c : ascii) : bool :=
  in_range 9 13 c || in_range 28 32 c
  || (code c =? 133)%N || (code c =? 160)%N.

(** [str.lower] on one character: A-Z, and 192-222 except 215. *)
Definition lower_char (c : ascii) : ascii :=
  if is_upper_az c
     || (in_range 192 222 c && negb (code c =? 215)%N)
  then ascii_of_N (code c + 32)
  else c.

Fixpoint lower (s : string) : string :=
  match s with
  | EmptyString => EmptyString
  | String c s' => String (lower_char c) (lower s')
  end.

Definition eqc (a b : ascii) : bool := Ascii.eqb a b.

(** [c in chars] for a one-character [c]. *)
Fixpoint mem (c : ascii) (chars : string) : bool :=
  match chars with
  | EmptyString => false
  | String d chars' => eqc c d || mem c chars'
  end.

(** [s.startswith(p)] *)
Definition startswith (s p : string) : bool := String.prefix p s.

(** [s[n:]] *)
Fixpoint drop (n : nat) (s : string) : string :=
  match n, s with
  | O, _ => s
  | S _, EmptyString => EmptyString
  | S n', String _ s' => drop n' s'
  end.

(** [s[:n]] *)
Fixpoint take (n : nat) (s : string) : string :=
  match n, s with
  | O, _ => EmptyString
  | S _, EmptyString => EmptyString
  | S n', String c s' => String c (take n' s')
  end.

(** [s.lstrip(chars)] *)
Fixpoint lstrip (chars : string) (s : string) : string :=
  match s with
  | EmptyString => EmptyString
  | String c s' => if mem c chars then lstrip chars s' else s
  end.

(** [s.rstrip(chars)] *)
Fixpoint rstrip (chars : string) (s : string) : string :=
  match s with
  | EmptyString => EmptyString
  | String c s' =>
      match rstrip chars s' with
      | EmptyString => if mem c chars then EmptyString else String c EmptyString
      | t => String c t
      end
  end.

(** [s.strip(chars)] *)
Definition strip (chars : string) (s : string) : string :=
  rstrip chars (lstrip chars s).

(** [s.replace(old, new)] for a one-character [old]. *)
Fixpoint replace (old : ascii) (new : string) (s : string) : string :=
  match s with
  | EmptyString => EmptyString
  | String c s' =>
      if eqc c old then new +:+ replace old new s'
      else String c (replace old new s')
  end.

(** [sep.join(parts)] *)
Fixpoint join (sep : string) (parts : list string) : string :=
  match parts with
  | [] => EmptyString
  | [p] => p
  | p :: rest => p +:+ sep +:+ join sep rest
  end.

(** [re.split] on a one-character class, equally [s.split(c)] when the
    class is a single character: the pieces between separators, empty
    pieces kept. *)
Fixpoint split_on (is_sep : ascii -> bool) (s : string) : list string :=
  match s with
  | EmptyString => [EmptyString]
  | String c s' =>
      if is_sep c then EmptyString :: split_on is_sep s'
      else match split_on is_sep s' with
           | [] => [String c EmptyString]
           | p :: ps => String c p :: ps
           end
  end.

Fixpoint all (f : ascii -> bool) (s : string) : bool :=
  match s with
  | EmptyString => true
  | String c s' => f c && all f s'
  end.

(** [s.isdigit()] for a string of ASCII letters and digits. *)
Definition isdigit (s : string) : bool :=
  match s with
  | EmptyString => false
  | _ => all is_digit s
  end.

(** [str(n)] for a non-negative [int]. *)
Definition str_of_int (n : N) : string :=
  NilZero.string_of_uint (N.to_uint n).

(** [int(s)] for a string of decimal digits; anything else is a
    [ValueError]. *)
Definition int_of_str (s : string) : option N :=
  option_map N.of_uint (NilZero.uint_of_string s).

(** [s.encode("utf-8", "surrogateescape")]: one byte below 128, two
    bytes from 128 to 255. *)
Fixpoint encode (s : string) : list byte :=
  match s with
  | EmptyString => []
  | String c s' =>
      (if (code c <? 128)%N then [byte_of_ascii c]
       else [byte_of_ascii (ascii_of_N (192 + code c / 64));
             byte_of_ascii (ascii_of_N (128 + code c mod 64))])
      ++ encode s'
  end.

(** A [bytes] literal. *)
Definition b (s : string) : list byte := list_byte_of_string s.

End Py.

(* ===================================================================== *)
(** ** Python [re]: a backtracking matcher                                *)
(* ===================================================================== *)

Module Re.

(** The fragment of pattern syntax the tool and [packaging] use.
    Alternation is ordered and repetition greedy, as in [re]. *)
Inductive regex : Type :=
| Eps
| Cls (f : ascii -> bool)            (* one character of a class *)
| Seq (r1 r2 : regex)
| Alt (r1 r2 : regex)                (* r1|r2, r1 tried first *)
| Star (r : regex)                   (* r*, greedy *)
| Grp (name : string) (r : regex)    (* (?P<name>r) *)
| Bol (multiline : bool)             (* ^ *)
| Eol (multiline : bool).            (* $ *)

(** [r+], [r?] and literals. *)
Definition Plus (r : regex) : regex := Seq r (Star r).
Definition Opt (r : regex) : regex := Alt r Eps.
Definition Chr (c : ascii) : regex := Cls (Py.eqc c).
(** One literal character under [re.IGNORECASE]. *)
Definition ChrI (c : ascii) : regex :=
  Cls (fun x => Py.eqc (Py.lower_char x) (Py.lower_char c)).

Fixpoint Lit (s : string) : regex :=
  match s with
  | EmptyString => Eps
  | String c EmptyString => Chr c
  | String c s' => Seq (Chr c) (Lit s')
  end.

Fixpoint LitI (s : string) : regex :=
  match s with
  | EmptyString => Eps
  | String c EmptyString => ChrI c
  | String c s' => Seq (ChrI c) (LitI s')
  end.

(** Captured groups, most recent first; a group that did not take part
    in the match is absent ([None] in Python). *)
Definition groups : Type := list (string * string).

Fixpoint group (name : string) (g : groups) : option string :=
  match g with
  | [] => None
  | (n, t) :: g' => if String.eqb n name then Some t else group name g'
  end.

Definition newline : ascii := ascii_of_N 10.

(** [^]: at the start of the string, and with [re.MULTILINE] also after
    a newline.  [prev] is the character before the position. *)
Definition at_bol (multiline : bool) (prev : option ascii) : bool :=
  match prev with
  | None => true
  | Some c => multiline && Py.eqc c newline
  end.

(** [$]: at the end of the string or before a final newline, and with
    [re.MULTILINE] before any newline. *)
Definition at_eol (multiline : bool) (s : string) : bool :=
  match s with
  | EmptyString => true
  | String c s' =>
      Py.eqc c newline
      && (multiline || match s' with EmptyString => true | _ => false end)
  end.

Section Exec.
Context {R : Type}.

(** A continuation receives the character before the position, the
    rest of the subject and the groups captured so far. *)
Definition cont : Type := option ascii -> string -> groups -> option R.

(** The loop of a greedy repetition: try one more [body], then the
    rest of the loop; when that fails, leave the loop.  An iteration
    has to consume a character. *)
Fixpoint star_loop
         (body : option ascii -> string -> groups -> cont -> option R)
         (k : cont) (n : nat) (prev : option ascii) (s : string)
         (g : groups) {struct n} : option R :=
  match n with
  | O => k prev s g
  | S n' =>
      match body prev s g
              (fun p' s' g' =>
                 if (String.length s' <? String.length s)%nat
                 then star_loop body k n' p' s' g' else None) with
      | Some x => Some x
      | None => k prev s g
      end
  end.

(** [exec r prev s g k]: match [r] at the front of [s], then [k]; on
    failure of [k] the next alternative of [r] is tried.  A repetition
    runs at most [length s] times, as every iteration consumes a
    character. *)
Fixpoint exec (r : regex) (prev : option ascii) (s : string)
         (g : groups) (k : cont) {struct r} : option R :=
  match r with
  | Eps => k prev s g
  | Cls f =>
      match s with
      | String c s' => if f c then k (Some c) s' g else None
      | EmptyString => None
      end
  | Seq r1 r2 => exec r1 prev s g (fun p' s' g' => exec r2 p' s' g' k)
  | Alt r1 r2 =>
      match exec r1 prev s g k with
      | Some x => Some x
      | None => exec r2 prev s g k
      end
  | Star r1 => star_loop (exec r1) k (String.length s) prev s g
  | Grp name r1 =>
      exec r1 prev s g
        (fun p' s' g' =>
           k p' s'
             ((name, Py.take (String.length s - String.length s') s) :: g'))
  | Bol m => if at_bol m prev then k prev s g else None
  | Eol m => if at_eol m s then k prev s g else None
  end.
End Exec.

(** [pattern.match] at one position: the groups and the unmatched rest. *)
Definition match_at (r : regex) (prev : option ascii) (s : string)
  : option (groups * string) :=
  exec r prev s [] (fun _ s' g => Some (g, s')).

(** [pattern.search(s)]: the first position, left to right, at which the
    pattern matches. *)
Fixpoint search_from (r : regex) (prev : option ascii) (s : string)
  : option groups :=
  match match_at r prev s with
  | Some (g, _) => Some g
  | None =>
      match s with
      | EmptyString => None
      | String c s' => search_from r (Some c) s'
      end
  end.

Definition search (r : regex) (s : string) : option groups :=
  search_from r None s.

(** The scan of [re.sub]: [skip] characters of the current match are
    still to be dropped; [left] is the number of replacements still
    allowed ([None]: no limit).  The patterns of this program never match
    the empty string, so a match has at least one character. *)
Fixpoint sub_scan (r : regex) (repl : string -> string)
         (left : option nat) (skip : nat) (prev : option ascii)
         (s : string) {struct s} : string :=
  match s with
  | EmptyString => EmptyString
  | String c s' =>
      match skip with
      | S k => sub_scan r repl left k (Some c) s'
      | O =>
          match left with
          | Some O => s
          | _ =>
              match match_at r prev s with
              | Some (_, rest) =>
                  let n := (String.length s - String.length rest)%nat in
                  match n with
                  | O => String c (sub_scan r repl left O (Some c) s')
                  | S k =>
                      repl (Py.take n s)
                      +:+ sub_scan r repl (option_map Nat.pred left) k
                            (Some c) s'
                  end
              | None => String c (sub_scan r repl left O (Some c) s')
              end
          end
      end
  end.

(** [re.sub(pattern, repl, string, count)]; [count = 0] replaces every
    occurrence.  [repl] maps the matched text to its replacement. *)
Definition sub (r : regex) (repl : string -> string) (s : string)
           (count : nat) : string :=
  sub_scan r repl (match count with O => None | _ => Some count end)
    O None s.

(** Flag values of the [re] module. *)
Definition UNICODE : nat := 32.
Definition MULTILINE : nat := 8.

End Re.

(* ===================================================================== *)
(** ** Name escaping and normalisation (source lines 38-61)               *)
(* ===================================================================== *)

Definition dot : ascii := ascii_of_N 46.
Definition hyphen : ascii := ascii_of_N 45.
Definition underscore : ascii := ascii_of_N 95.

(** [[^\w\d.]]: [\d] adds nothing to [\w]. *)
Definition not_word_digit_dot (c : ascii) : bool :=
  negb (Py.is_word c || Py.is_digit c || Py.eqc c dot).

(** [re.sub(r"[^\w\d.]+", "_", segment, re.UNICODE)]: the fourth
    positional parameter of [re.sub] is [count], so [re.UNICODE] is the
    replacement limit. *)
Definition escape_filename_segment (segment : string) : string :=
  Re.sub (Re.Plus (Re.Cls not_word_digit_dot)) (fun _ => "_") segment
    Re.UNICODE.

(** [[-_.]] *)
Definition is_name_sep (c : ascii) : bool := Py.mem c "-_.".

(** [re.sub(r"[-_.]+", "-", name).lower()] *)
Definition normalize_package_name (name : string) : string :=
  Py.lower (Re.sub (Re.Plus (Re.Cls is_name_sep)) (fun _ => "-") name 0).

(** [normalize_package_name(name).replace("-", "_")] *)
Definition escape_filename_distribution_name (name : string) : string :=
  Py.replace hyphen "_" (normalize_package_name name).

(* ===================================================================== *)
(** ** [packaging.version]: PEP 440 versions                              *)
(* ===================================================================== *)

(** [packaging] is a library the tool imports.  The module follows its
    [version.py]: [VERSION_PATTERN] (the pattern of PEP 440, appendix B),
    [Version.__init__] with [_parse_letter_version] and
    [_parse_local_version], and [Version.__str__]. *)

Module Packaging.
Import Re.

Definition D : regex := Cls Py.is_digit.                 (* [0-9] *)
Definition SEP : regex := Cls is_name_sep.               (* [-_\.] *)
(** [[a-z0-9]] under [re.IGNORECASE] *)
Definition is_alnum_i (c : ascii) : bool :=
  Py.is_lower_az (Py.lower_char c) || Py.is_digit c.
Definition AN : regex := Cls is_alnum_i.
Definition WS : regex := Cls Py.is_space.                (* \s *)

Definition re_epoch : regex :=
  Opt (Seq (Grp "epoch" (Plus D)) (Chr "!")).
Definition re_release : regex :=
  Grp "release" (Seq (Plus D) (Star (Seq (Chr ".") (Plus D)))).
Definition re_pre_l : regex :=
  Alt (LitI "a") (Alt (LitI "b") (Alt (LitI "c") (Alt (LitI "rc")
    (Alt (LitI "alpha") (Alt (LitI "beta") (Alt (LitI "pre")
      (LitI "preview"))))))).
Definition re_pre : regex :=
  Opt (Grp "pre"
         (Seq (Opt SEP) (Seq (Grp "pre_l" re_pre_l)
            (Seq (Opt SEP) (Opt (Grp "pre_n" (Plus D))))))).
Definition re_post_l : regex :=
  Alt (LitI "post") (Alt (LitI "rev") (LitI "r")).
Definition re_post : regex :=
  Opt (Grp "post"
         (Alt (Seq (Chr "-") (Grp "post_n1" (Plus D)))
              (Seq (Opt SEP) (Seq (Grp "post_l" re_post_l)
                 (Seq (Opt SEP) (Opt (Grp "post_n2" (Plus D)))))))).
Definition re_dev : regex :=
  Opt (Grp "dev"
         (Seq (Opt SEP) (Seq (Grp "dev_l" (LitI "dev"))
            (Seq (Opt SEP) (Opt (Grp "dev_n" (Plus D))))))).
Definition re_local_body : regex :=
  Seq (Plus AN) (Star (Seq SEP (Plus AN))).
Definition re_local : regex :=
  Opt (Seq (Chr "+") (Grp "local" re_local_body)).

(** [VERSION_PATTERN], compiled with [re.VERBOSE | re.IGNORECASE]. *)
Definition VERSION_PATTERN : regex :=
  Seq (Opt (ChrI "v"))
    (Seq (Seq re_epoch (Seq re_release (Seq re_pre (Seq re_post re_dev))))
       re_local).

(** [r"^\s*" + VERSION_PATTERN + r"\s*$"] *)
Definition _regex : regex :=
  Seq (Bol false) (Seq (Star WS) (Seq VERSION_PATTERN
    (Seq (Star WS) (Eol false)))).

(** A local-version part is an [int] when it is all digits, else a
    lower-cased [str]. *)
Inductive local_part : Type :=
| LInt (n : N)
| LStr (s : string).

Record _Version : Type := mkVersion {
  epoch : N;
  release : list N;
  pre : option (string * N);
  post : option (string * N);
  dev : option (string * N);
  local : option (list local_part)
}.

Definition int (s : string) : result N :=
  match Py.int_of_str s with
  | Some n => Ok n
  | None => Raise ValueError
  end.

(** Truthiness of an optional string: not [None] and not empty. *)
Definition truthy (o : option string) : bool :=
  match o with
  | Some (String _ _) => true
  | _ => false
  end.

Definition _parse_letter_version (letter number : option string)
  : result (option (string * N)) :=
  match letter with
  | Some (String _ _ as l) =>
      let number := match number with None => "0" | Some n => n end in
      let l := Py.lower l in
      let l :=
        if String.eqb l "alpha" then "a"
        else if String.eqb l "beta" then "b"
        else if String.eqb l "c" || String.eqb l "pre"
                || String.eqb l "preview" then "rc"
        else if String.eqb l "rev" || String.eqb l "r" then "post"
        else l in
      let! n := int number in
      Ok (Some (l, n))
  | _ =>
      match number with
      | Some (String _ _ as n) =>
          let! n := int n in
          Ok (Some ("post", n))
      | _ => Ok None
      end
  end.

Definition _parse_local_version (local : option string)
  : result (option (list local_part)) :=
  match local with
  | Some l =>
      let! parts :=
        mapM (fun part =>
                if negb (Py.isdigit part) then Ok (LStr (Py.lower part))
                else let! n := int part in Ok (LInt n))
             (Py.split_on is_name_sep l) in
      Ok (Some parts)
  | None => Ok None
  end.

(** [a or b] on optional strings. *)
Definition or_ (a b : option string) : option string :=
  if truthy a then a else b.

(** [Version(version)] *)
Definition Version (version : string) : result _Version :=
  match search _regex version with
  | None => Raise InvalidVersion
  | Some m =>
      let! e := (if truthy (group "epoch" m)
                 then int (match group "epoch" m with
                           | Some t => t | None => "" end)
                 else Ok 0%N) in
      let! r := mapM int
                  (Py.split_on (Py.eqc dot)
                     (match group "release" m with
                      | Some t => t | None => "" end)) in
      let! p := _parse_letter_version (group "pre_l" m) (group "pre_n" m) in
      let! po := _parse_letter_version (group "post_l" m)
                   (or_ (group "post_n1" m) (group "post_n2" m)) in
      let! d := _parse_letter_version (group "dev_l" m) (group "dev_n" m) in
      let! l := _parse_local_version (group "local" m) in
      Ok (mkVersion e r p po d l)
  end.

Definition str_local_part (p : local_part) : string :=
  match p with
  | LInt n => Py.str_of_int n
  | LStr s => s
  end.

(** [Version.__str__] *)
Definition str (v : _Version) : string :=
  (if (epoch v =? 0)%N then "" else Py.str_of_int (epoch v) +:+ "!")
  +:+ Py.join "." (map Py.str_of_int (release v))
  +:+ match pre v with
      | Some (l, n) => l +:+ Py.str_of_int n
      | None => ""
      end
  +:+ match post v with
      | Some (_, n) => ".post" +:+ Py.str_of_int n
      | None => ""
      end
  +:+ match dev v with
      | Some (_, n) => ".dev" +:+ Py.str_of_int n
      | None => ""
      end
  +:+ match local v with
      | Some parts => "+" +:+ Py.join "." (map str_local_part parts)
      | None => ""
      end.

End Packaging.

(* ===================================================================== *)
(** ** [normalize_pep440] (source lines 64-95)                            *)
(* ===================================================================== *)

(** [str(packaging.version.Version(v))] *)
Definition str_Version (v : string) : result string :=
  let! x := Packaging.Version v in Ok (Packaging.str x).

(** [[^a-z0-9]] *)
Definition not_az09 (c : ascii) : bool :=
  negb (Py.is_lower_az c || Py.is_digit c).

(** [\{\w+\}] *)
Definition re_placeholder : Re.regex :=
  Re.Seq (Re.Chr "{") (Re.Seq (Re.Plus (Re.Cls Py.is_word)) (Re.Chr "}")).

Definition sanitize (version : string) : string :=
  Py.strip "."
    (Re.sub (Re.Plus (Re.Cls not_az09)) (fun _ => ".") (Py.lower version) 0).

Definition substitute (version : string) : string :=
  Re.sub re_placeholder (fun _ => "0") version 0.

Definition normalize_pep440 (version : string) : result string :=
  match str_Version version with
  | Raise InvalidVersion =>
      let sanitized := sanitize version in
      let substituted := substitute version in
      let delimiter := if Py.mem "+" substituted then "." else "+" in
      match str_Version (substituted +:+ delimiter +:+ sanitized) with
      | Raise InvalidVersion => str_Version ("0+" +:+ sanitized)
      | r => r
      end
  | r => r
  end.

(* ===================================================================== *)
(** ** [normalize_pep440] beyond code point 255                           *)
(* ===================================================================== *)

(** The functions of the two sections above once more, on strings of
    code points ([list N]), to see what [normalize_pep440] does with
    characters that the type [string] cannot hold.  The code is the
    same; what changes is the character tables:

    - [str.lower] can give two characters for one: U+0130 becomes
      U+0069 U+0307;
    - [re.IGNORECASE] compares the simple lowercase of the character
      read ([tolower]; U+0130 gives U+0069, U+212A gives U+006B) with the
      lowercase of the pattern's character and its extra cases
      (U+0131 for [i], U+017F for [s]).

    The tables are those of CPython 3.11 (Unicode 14.0) for the
    characters [supported]: the code points below 384 (Basic Latin,
    Latin-1, Latin Extended-A), U+0307 and U+212A.  This set has every
    character the version pattern accepts and is closed under
    [str.lower]; [normalize_pep440] gives [None] for a string with any
    other character. *)
Module Wide.

Definition wstr : Type := list N.

(** A [string] as code points. *)
Definition w (s : string) : wstr := map Py.code (list_ascii_of_string s).

(** A character of a literal. *)
Definition chr (c : ascii) : N := Py.code c.

Definition in_range (lo hi c : N) : bool := (lo <=? c)%N && (c <=? hi)%N.

Definition supported (c : N) : bool :=
  (c <? 384)%N || (c =? 775)%N || (c =? 8490)%N.

Definition is_digit (c : N) : bool := in_range 48 57 c.       (* [0-9] *)
Definition is_lower_az (c : N) : bool := in_range 97 122 c.   (* [a-z] *)
Definition is_upper_az (c : N) : bool := in_range 65 90 c.    (* [A-Z] *)

(** [str.isdigit] on one character: the digits and the superscripts
    1, 2 and 3. *)
Definition is_digit_char (c : N) : bool :=
  is_digit c || in_range 178 179 c || (c =? 185)%N.

(** [\w] of a [str] pattern. *)
Definition is_word (c : N) : bool :=
  is_digit c || is_upper_az c || (c =? 95)%N || is_lower_az c
  || (c =? 170)%N || in_range 178 179 c || (c =? 181)%N
  || in_range 185 186 c || in_range 188 190 c
  || in_range 192 214 c || in_range 216 246 c || in_range 248 383 c
  || (c =? 8490)%N.

(** [\s] of a [str] pattern. *)
Definition is_space (c : N) : bool :=
  in_range 9 13 c || in_range 28 32 c || (c =? 133)%N || (c =? 160)%N.

(** The simple lowercase mapping, one character for one. *)
Definition tolower (c : N) : N :=
  if is_upper_az c || (in_range 192 222 c && negb (c =? 215)%N)
  then (c + 32)%N
  else if (c =? 304)%N then 105%N
  else if (c =? 376)%N then 255%N
  else if (c =? 8490)%N then 107%N
  else if (in_range 256 303 c || in_range 306 311 c || in_range 330 375 c)
          && N.even c
  then (c + 1)%N
  else if (in_range 313 328 c || in_range 377 382 c) && N.odd c
  then (c + 1)%N
  else c.

(** [str.lower] on one character. *)
Definition lower_char (c : N) : wstr :=
  if (c =? 304)%N then [105; 775]%N else [tolower c].

Definition lower (s : wstr) : wstr := flat_map lower_char s.

(** The lowercase characters that [re.IGNORECASE] takes for [lo]
    besides [lo] itself ([re._casefix]). *)
Definition extra_cases (lo : N) : list N :=
  if (lo =? 105)%N then [305%N]
  else if (lo =? 115)%N then [383%N]
  else if (lo =? 305)%N then [105%N]
  else if (lo =? 383)%N then [115%N]
  else if (lo =? 181)%N then [956%N]
  else [].

(** [a == b] *)
Fixpoint eqs (a b : wstr) : bool :=
  match a, b with
  | [], [] => true
  | x :: a', y :: b' => (x =? y)%N && eqs a' b'
  | _, _ => false
  end.

Definition mem (c : N) (chars : wstr) : bool := existsb (N.eqb c) chars.

(** [s.lstrip(chars)], [s.rstrip(chars)], [s.strip(chars)] *)
Fixpoint lstrip (chars : wstr) (s : wstr) : wstr :=
  match s with
  | [] => []
  | c :: s' => if mem c chars then lstrip chars s' else s
  end.

Fixpoint rstrip (chars : wstr) (s : wstr) : wstr :=
  match s with
  | [] => []
  | c :: s' =>
      match rstrip chars s' with
      | [] => if mem c chars then [] else [c]
      | t => c :: t
      end
  end.

Definition strip (chars : wstr) (s : wstr) : wstr :=
  rstrip chars (lstrip chars s).

(** [sep.join(parts)] *)
Fixpoint join (sep : wstr) (parts : list wstr) : wstr :=
  match parts with
  | [] => []
  | [p] => p
  | p :: rest => p ++ sep ++ join sep rest
  end.

(** [re.split] on a one-character class. *)
Fixpoint split_on (is_sep : N -> bool) (s : wstr) : list wstr :=
  match s with
  | [] => [[]]
  | c :: s' =>
      if is_sep c then [] :: split_on is_sep s'
      else match split_on is_sep s' with
           | [] => [[c]]
           | p :: ps => (c :: p) :: ps
           end
  end.

(** [s.isdigit()] *)
Definition isdigit (s : wstr) : bool :=
  match s with
  | [] => false
  | _ => forallb is_digit_char s
  end.

(** [str(n)] *)
Definition str_of_int (n : N) : wstr := w (Py.str_of_int n).

(** [int(s)] for a string of the digits 0 to 9; anything else is a
    [ValueError]. *)
Definition int (s : wstr) : result N :=
  if forallb is_digit s
  then match Py.int_of_str
               (string_of_list_ascii (map ascii_of_N s)) with
       | Some n => Ok n
       | None => Raise ValueError
       end
  else Raise ValueError.

(** *** [re] *)

Inductive regex : Type :=
| Eps
| Cls (f : N -> bool)
| Seq (r1 r2 : regex)
| Alt (r1 r2 : regex)
| Star (r : regex)
| Grp (name : string) (r : regex)
| Bol (multiline : bool)
| Eol (multiline : bool).

Definition Plus (r : regex) : regex := Seq r (Star r).
Definition Opt (r : regex) : regex := Alt r Eps.
Definition Chr (c : ascii) : regex := Cls (N.eqb (chr c)).

(** One literal character under [re.IGNORECASE]: the lowercase of the
    character read is the lowercase of [c] or one of its extra
    cases. *)
Definition ChrI (c : ascii) : regex :=
  Cls (fun x =>
         let lo := tolower (chr c) in
         mem (tolower x) (lo :: extra_cases lo)).

Fixpoint LitI (s : string) : regex :=
  match s with
  | EmptyString => Eps
  | String c EmptyString => ChrI c
  | String c s' => Seq (ChrI c) (LitI s')
  end.

Definition groups : Type := list (string * wstr).

Fixpoint group (name : string) (g : groups) : option wstr :=
  match g with
  | [] => None
  | (n, t) :: g' => if String.eqb n name then Some t else group name g'
  end.

Definition newline : N := 10%N.

Definition at_bol (multiline : bool) (prev : option N) : bool :=
  match prev with
  | None => true
  | Some c => multiline && (c =? newline)%N
  end.

Definition at_eol (multiline : bool) (s : wstr) : bool :=
  match s with
  | [] => true
  | c :: s' =>
      (c =? newline)%N
      && (multiline || match s' with [] => true | _ => false end)
  end.

Section Exec.
Context {R : Type}.

Definition cont : Type := option N -> wstr -> groups -> option R.

Fixpoint star_loop
         (body : option N -> wstr -> groups -> cont -> option R)
         (k : cont) (n : nat) (prev : option N) (s : wstr)
         (g : groups) {struct n} : option R :=
  match n with
  | O => k prev s g
  | S n' =>
      match body prev s g
              (fun p' s' g' =>
                 if (length s' <? length s)%nat
                 then star_loop body k n' p' s' g' else None) with
      | Some x => Some x
      | None => k prev s g
      end
  end.

Fixpoint exec (r : regex) (prev : option N) (s : wstr)
         (g : groups) (k : cont) {struct r} : option R :=
  match r with
  | Eps => k prev s g
  | Cls f =>
      match s with
      | c :: s' => if f c then k (Some c) s' g else None
      | [] => None
      end
  | Seq r1 r2 => exec r1 prev s g (fun p' s' g' => exec r2 p' s' g' k)
  | Alt r1 r2 =>
      match exec r1 prev s g k with
      | Some x => Some x
      | None => exec r2 prev s g k
      end
  | Star r1 => star_loop (exec r1) k (length s) prev s g
  | Grp name r1 =>
      exec r1 prev s g
        (fun p' s' g' =>
           k p' s' ((name, firstn (length s - length s') s) :: g'))
  | Bol m => if at_bol m prev then k prev s g else None
  | Eol m => if at_eol m s then k prev s g else None
  end.
End Exec.

Definition match_at (r : regex) (prev : option N) (s : wstr)
  : option (groups * wstr) :=
  exec r prev s [] (fun _ s' g => Some (g, s')).

Fixpoint search_from (r : regex) (prev : option N) (s : wstr)
  : option groups :=
  match match_at r prev s with
  | Some (g, _) => Some g
  | None =>
      match s with
      | [] => None
      | c :: s' => search_from r (Some c) s'
      end
  end.

Definition search (r : regex) (s : wstr) : option groups :=
  search_from r None s.

(** [re.sub] without a count, for a pattern that matches no empty
    string. *)
Fixpoint sub_scan (r : regex) (repl : wstr -> wstr) (skip : nat)
         (prev : option N) (s : wstr) {struct s} : wstr :=
  match s with
  | [] => []
  | c :: s' =>
      match skip with
      | S k => sub_scan r repl k (Some c) s'
      | O =>
          match match_at r prev s with
          | Some (_, rest) =>
              let n := (length s - length rest)%nat in
              match n with
              | O => c :: sub_scan r repl O (Some c) s'
              | S k => repl (firstn n s) ++ sub_scan r repl k (Some c) s'
              end
          | None => c :: sub_scan r repl O (Some c) s'
          end
      end
  end.

Definition sub (r : regex) (repl : wstr -> wstr) (s : wstr) : wstr :=
  sub_scan r repl O None s.

(** *** [packaging.version] *)

Definition is_name_sep (c : N) : bool := mem c (w "-_.").

Definition D : regex := Cls is_digit.                    (* [0-9] *)
Definition SEP : regex := Cls is_name_sep.               (* [-_\.] *)
(** [[a-z0-9]] under [re.IGNORECASE]: the lowercase of the character
    read is in [a-z], or an extra case of one of these, or the
    character is a digit. *)
Definition is_alnum_i (c : N) : bool :=
  is_lower_az (tolower c) || (tolower c =? 305)%N || (tolower c =? 383)%N
  || is_digit c.
Definition AN : regex := Cls is_alnum_i.
Definition WS : regex := Cls is_space.                   (* \s *)

Definition re_epoch : regex :=
  Opt (Seq (Grp "epoch" (Plus D)) (Chr "!")).
Definition re_release : regex :=
  Grp "release" (Seq (Plus D) (Star (Seq (Chr ".") (Plus D)))).
Definition re_pre_l : regex :=
  Alt (LitI "a") (Alt (LitI "b") (Alt (LitI "c") (Alt (LitI "rc")
    (Alt (LitI "alpha") (Alt (LitI "beta") (Alt (LitI "pre")
      (LitI "preview"))))))).
Definition re_pre : regex :=
  Opt (Grp "pre"
         (Seq (Opt SEP) (Seq (Grp "pre_l" re_pre_l)
            (Seq (Opt SEP) (Opt (Grp "pre_n" (Plus D))))))).
Definition re_post_l : regex :=
  Alt (LitI "post") (Alt (LitI "rev") (LitI "r")).
Definition re_post : regex :=
  Opt (Grp "post"
         (Alt (Seq (Chr "-") (Grp "post_n1" (Plus D)))
              (Seq (Opt SEP) (Seq (Grp "post_l" re_post_l)
                 (Seq (Opt SEP) (Opt (Grp "post_n2" (Plus D)))))))).
Definition re_dev : regex :=
  Opt (Grp "dev"
         (Seq (Opt SEP) (Seq (Grp "dev_l" (LitI "dev"))
            (Seq (Opt SEP) (Opt (Grp "dev_n" (Plus D))))))).
Definition re_local_body : regex :=
  Seq (Plus AN) (Star (Seq SEP (Plus AN))).
Definition re_local : regex :=
  Opt (Seq (Chr "+") (Grp "local" re_local_body)).

Definition VERSION_PATTERN : regex :=
  Seq (Opt (ChrI "v"))
    (Seq (Seq re_epoch (Seq re_release (Seq re_pre (Seq re_post re_dev))))
       re_local).

Definition _regex : regex :=
  Seq (Bol false) (Seq (Star WS) (Seq VERSION_PATTERN
    (Seq (Star WS) (Eol false)))).

Inductive local_part : Type :=
| LInt (n : N)
| LStr (s : wstr).

Record _Version : Type := mkVersion {
  epoch : N;
  release : list N;
  pre : option (wstr * N);
  post : option (wstr * N);
  dev : option (wstr * N);
  local : option (list local_part)
}.

Definition truthy (o : option wstr) : bool :=
  match o with
  | Some (_ :: _) => true
  | _ => false
  end.

Definition _parse_letter_version (letter number : option wstr)
  : result (option (wstr * N)) :=
  match letter with
  | Some ((_ :: _) as l) =>
      let number := match number with None => w "0" | Some n => n end in
      let l := lower l in
      let l :=
        if eqs l (w "alpha") then w "a"
        else if eqs l (w "beta") then w "b"
        else if eqs l (w "c") || eqs l (w "pre") || eqs l (w "preview")
        then w "rc"
        else if eqs l (w "rev") || eqs l (w "r") then w "post"
        else l in
      let! n := int number in
      Ok (Some (l, n))
  | _ =>
      match number with
      | Some ((_ :: _) as n) =>
          let! n := int n in
          Ok (Some (w "post", n))
      | _ => Ok None
      end
  end.

Definition _parse_local_version (local : option wstr)
  : result (option (list local_part)) :=
  match local with
  | Some l =>
      let! parts :=
        mapM (fun part =>
                if negb (isdigit part) then Ok (LStr (lower part))
                else let! n := int part in Ok (LInt n))
             (split_on is_name_sep l) in
      Ok (Some parts)
  | None => Ok None
  end.

Definition or_ (a b : option wstr) : option wstr :=
  if truthy a then a else b.

Definition Version (version : wstr) : result _Version :=
  match search _regex version with
  | None => Raise InvalidVersion
  | Some m =>
      let! e := (if truthy (group "epoch" m)
                 then int (match group "epoch" m with
                           | Some t => t | None => [] end)
                 else Ok 0%N) in
      let! r := mapM int
                  (split_on (N.eqb (chr "."))
                     (match group "release" m with
                      | Some t => t | None => [] end)) in
      let! p := _parse_letter_version (group "pre_l" m) (group "pre_n" m) in
      let! po := _parse_letter_version (group "post_l" m)
                   (or_ (group "post_n1" m) (group "post_n2" m)) in
      let! d := _parse_letter_version (group "dev_l" m) (group "dev_n" m) in
      let! l := _parse_local_version (group "local" m) in
      Ok (mkVersion e r p po d l)
  end.

Definition str_local_part (p : local_part) : wstr :=
  match p with
  | LInt n => str_of_int n
  | LStr s => s
  end.

Definition str (v : _Version) : wstr :=
  (if (epoch v =? 0)%N then [] else str_of_int (epoch v) ++ w "!")
  ++ join (w ".") (map str_of_int (release v))
  ++ match pre v with
     | Some (l, n) => l ++ str_of_int n
     | None => []
     end
  ++ match post v with
     | Some (_, n) => w ".post" ++ str_of_int n
     | None => []
     end
  ++ match dev v with
     | Some (_, n) => w ".dev" ++ str_of_int n
     | None => []
     end
  ++ match local v with
     | Some parts => w "+" ++ join (w ".") (map str_local_part parts)
     | None => []
     end.

(** *** [normalize_pep440] (source lines 64-95) *)

Definition str_Version (v : wstr) : result wstr :=
  let! x := Version v in Ok (str x).

(** [[^a-z0-9]] *)
Definition not_az09 (c : N) : bool := negb (is_lower_az c || is_digit c).

(** [\{\w+\}] *)
Definition re_placeholder : regex :=
  Seq (Chr "{") (Seq (Plus (Cls is_word)) (Chr "}")).

Definition sanitize (version : wstr) : wstr :=
  strip (w ".")
    (sub (Plus (Cls not_az09)) (fun _ => w ".") (lower version)).

Definition substitute (version : wstr) : wstr :=
  sub re_placeholder (fun _ => w "0") version.

Definition normalize_pep440_supported (version : wstr) : result wstr :=
  match str_Version version with
  | Raise InvalidVersion =>
      let sanitized := sanitize version in
      let substituted := substitute version in
      let delimiter :=
        if mem (chr "+") substituted then w "." else w "+" in
      match str_Version (substituted ++ delimiter ++ sanitized) with
      | Raise InvalidVersion => str_Version (w "0+" ++ sanitized)
      | r => r
      end
  | r => r
  end.

(** [normalize_pep440], where the tables reach. *)
Definition normalize_pep440 (version : wstr) : option (result wstr) :=
  if forallb supported version
  then Some (normalize_pep440_supported version)
  else None.

End Wide.

(* ===================================================================== *)
(** ** [hashlib.sha256] (FIPS 180-4) and [base64.urlsafe_b64encode]       *)
(* ===================================================================== *)

Definition byte_of_Z (x : Z) : byte :=
  byte_of_ascii (ascii_of_N (Z.to_N (x mod 256))).
Definition Z_of_byte (x : byte) : Z := Z.of_N (Byte.to_N x).

Module Hashlib.
Local Open Scope Z_scope.

(** Words are 32-bit: additions wrap. *)
Definition w32 (x : Z) : Z := x mod 2 ^ 32.
Definition rotr (n x : Z) : Z :=
  Z.lor (Z.shiftr x n) (w32 (Z.shiftl x (32 - n))).
Definition Ch (x y z : Z) : Z :=
  Z.lxor (Z.land x y) (Z.land (Z.lxor x 4294967295) z).
Definition Maj (x y z : Z) : Z :=
  Z.lxor (Z.lxor (Z.land x y) (Z.land x z)) (Z.land y z).
Definition Sigma0 (x : Z) : Z :=
  Z.lxor (Z.lxor (rotr 2 x) (rotr 13 x)) (rotr 22 x).
Definition Sigma1 (x : Z) : Z :=
  Z.lxor (Z.lxor (rotr 6 x) (rotr 11 x)) (rotr 25 x).
Definition sigma0 (x : Z) : Z :=
  Z.lxor (Z.lxor (rotr 7 x) (rotr 18 x)) (Z.shiftr x 3).
Definition sigma1 (x : Z) : Z :=
  Z.lxor (Z.lxor (rotr 17 x) (rotr 19 x)) (Z.shiftr x 10).

Definition K : list Z :=
  [1116352408; 1899447441; 3049323471; 3921009573; 961987163; 1508970993;
   2453635748; 2870763221; 3624381080; 310598401; 607225278; 1426881987;
   1925078388; 2162078206; 2614888103; 3248222580; 3835390401; 4022224774;
   264347078; 604807628; 770255983; 1249150122; 1555081692; 1996064986;
   2554220882; 2821834349; 2952996808; 3210313671; 3336571891; 3584528711;
   113926993; 338241895; 666307205; 773529912; 1294757372; 1396182291;
   1695183700; 1986661051; 2177026350; 2456956037; 2730485921; 2820302411;
   3259730800; 3345764771; 3516065817; 3600352804; 4094571909; 275423344;
   430227734; 506948616; 659060556; 883997877; 958139571; 1322822218;
   1537002063; 1747873779; 1955562222; 2024104815; 2227730452; 2361852424;
   2428436474; 2756734187; 3204031479; 3329325298].

Record regs : Type := mkRegs {
  ra : Z; rb : Z; rc : Z; rd : Z; re : Z; rf : Z; rg : Z; rh : Z
}.

Definition H0 : regs :=
  mkRegs 1779033703 3144134277 1013904242 2773480762
         1359893119 2600822924 528734635 1541459225.

(** Big-endian word of four bytes, and back. *)
Definition word_of_bytes (bs : list byte) : Z :=
  fold_left (fun acc x => acc * 256 + Z_of_byte x) bs 0.
Definition bytes_of_word (x : Z) : list byte :=
  [byte_of_Z (Z.shiftr x 24); byte_of_Z (Z.shiftr x 16);
   byte_of_Z (Z.shiftr x 8); byte_of_Z x].

Fixpoint chunks (fuel n : nat) (l : list byte) : list (list byte) :=
  match fuel, l with
  | _, [] => []
  | O, _ => []
  | S fuel', _ => firstn n l :: chunks fuel' n (skipn n l)
  end.

(** The message schedule: [w] holds W_0..W_{t-1}; [n] more to compute. *)
Fixpoint schedule (n : nat) (w : list Z) : list Z :=
  match n with
  | O => w
  | S n' =>
      let t := length w in
      let x :=
        w32 (sigma1 (nth (t - 2) w 0) + nth (t - 7) w 0
             + sigma0 (nth (t - 15) w 0) + nth (t - 16) w 0) in
      schedule n' (w ++ [x])
  end.

Definition round (s : regs) (kw : Z * Z) : regs :=
  let t1 := rh s + Sigma1 (re s) + Ch (re s) (rf s) (rg s)
            + fst kw + snd kw in
  let t2 := Sigma0 (ra s) + Maj (ra s) (rb s) (rc s) in
  mkRegs (w32 (t1 + t2)) (ra s) (rb s) (rc s)
         (w32 (rd s + t1)) (re s) (rf s) (rg s).

Definition compress (h : regs) (block : list byte) : regs :=
  let w := schedule 48 (map word_of_bytes (chunks 16 4 block)) in
  let s := fold_left round (combine K w) h in
  mkRegs (w32 (ra h + ra s)) (w32 (rb h + rb s)) (w32 (rc h + rc s))
         (w32 (rd h + rd s)) (w32 (re h + re s)) (w32 (rf h + rf s))
         (w32 (rg h + rg s)) (w32 (rh h + rh s)).

(** Padding: one [0x80] byte, zeros up to 56 mod 64, then the bit length
    as a big-endian 64-bit integer. *)
Definition pad (msg : list byte) : list byte :=
  let len := Z.of_nat (length msg) in
  let zeros := Z.to_nat ((55 - len) mod 64) in
  let bits := 8 * len in
  msg ++ [byte_of_Z 128] ++ repeat (byte_of_Z 0) zeros
      ++ bytes_of_word (Z.shiftr bits 32) ++ bytes_of_word bits.

Definition sha256_digest (msg : list byte) : list byte :=
  let p := pad msg in
  let h := fold_left compress (chunks (length p) 64 p) H0 in
  bytes_of_word (ra h) ++ bytes_of_word (rb h) ++ bytes_of_word (rc h)
  ++ bytes_of_word (rd h) ++ bytes_of_word (re h) ++ bytes_of_word (rf h)
  ++ bytes_of_word (rg h) ++ bytes_of_word (rh h).

(** A hash object is the bytes fed to it so far: [update] appends, and
    [digest] hashes what was fed. *)
Record sha256_obj : Type := { fed : list byte }.
Definition sha256 : sha256_obj := {| fed := [] |}.
Definition update (h : sha256_obj) (data : list byte) : sha256_obj :=
  {| fed := fed h ++ data |}.
Definition digest (h : sha256_obj) : list byte := sha256_digest (fed h).

End Hashlib.

Module Base64.

Definition urlsafe_alphabet : string :=
  "ABCDEFGHIJKLMNOPQRSTUVWXYZabcdefghijklmnopqrstuvwxyz0123456789-_".

(** The character of a 6-bit value. *)
Definition sextet (x : Z) : byte :=
  match String.get (Z.to_nat (x mod 64)) urlsafe_alphabet with
  | Some c => byte_of_ascii c
  | None => byte_of_Z 0
  end.

Definition pad_char : byte := byte_of_Z 61.   (* = *)

Fixpoint urlsafe_b64encode (data : list byte) : list byte :=
  match data with
  | [] => []
  | [x] =>
      let n := (Z_of_byte x * 65536)%Z in
      [sextet (Z.shiftr n 18); sextet (Z.shiftr n 12); pad_char; pad_char]
  | [x; y] =>
      let n := (Z_of_byte x * 65536 + Z_of_byte y * 256)%Z in
      [sextet (Z.shiftr n 18); sextet (Z.shiftr n 12);
       sextet (Z.shiftr n 6); pad_char]
  | x :: y :: z :: rest =>
      let n := (Z_of_byte x * 65536 + Z_of_byte y * 256 + Z_of_byte z)%Z in
      [sextet (Z.shiftr n 18); sextet (Z.shiftr n 12);
       sextet (Z.shiftr n 6); sextet n] ++ urlsafe_b64encode rest
  end.

End Base64.

(** [bytes.rstrip(chars)] *)
Fixpoint bytes_rstrip (chars : list byte) (l : list byte) : list byte :=
  match l with
  | [] => []
  | x :: l' =>
      match bytes_rstrip chars l' with
      | [] => if existsb (Byte.eqb x) chars then [] else [x]
      | t => x :: t
      end
  end.

(** [f.read(n)]: the block read and what is left of the file. *)
Fixpoint read (n : N) (src : list byte) : list byte * list byte :=
  match src with
  | [] => ([], [])
  | x :: src' =>
      if (n =? 0)%N then ([], src)
      else let (blk, rest) := read (N.pred n) src' in (x :: blk, rest)
  end.

(* ===================================================================== *)
(** ** [zipfile]                                                          *)
(* ===================================================================== *)

Module Zipfile.

Definition ZIP_STORED : Z := 0.
Definition ZIP_DEFLATED : Z := 8.

Record ZipInfo : Type := mkZipInfo {
  filename : string;
  date_time : Z * Z * Z * Z * Z * Z;
  create_system : Z;
  external_attr : Z;
  compress_type : Z
}.

Definition nul : ascii := ascii_of_N 0.

(** The part of a name before its first NUL character. *)
Fixpoint until_nul (s : string) : string :=
  match s with
  | EmptyString => EmptyString
  | String c s' => if Py.eqc c nul then EmptyString else String c (until_nul s')
  end.

(** [ZipInfo(filename, date_time)]: the name is cut at a NUL, years
    before 1980 are refused, and the other header fields get their
    defaults ([create_system] is 3 off Windows). *)
Definition ZipInfo_init (filename : string)
           (date_time : Z * Z * Z * Z * Z * Z) : result ZipInfo :=
  let '(year, _, _, _, _, _) := date_time in
  if (year <? 1980)%Z then Raise ValueError
  else Ok (mkZipInfo (until_nul filename) date_time 3 0 ZIP_STORED).

End Zipfile.

(* ===================================================================== *)
(** ** The file system the tool reads                                     *)
(* ===================================================================== *)

(** A path names a regular file, with its bytes, modification time and
    mode, or a directory with its entries, in [os.listdir] order. *)
Inductive node : Type :=
| File (content : list byte) (st_mtime st_mode : Z)
| Dir (children : list (string * node)).

(** The calls on the files the tool writes. *)
Inductive os_call : Type :=
| OpenArchive       (* ZipFile(filename, mode="w") *)
| WriteNameFile     (* Path.write_text *)
| CloseArchive.     (* ZipFile.close *)

(** What the tool can read: [fs] for paths opened in binary mode or
    listed, [texts] for files read in text mode (already decoded); and
    [os_error], the exception a call on an output file meets, if any. *)
Record world : Type := mkWorld {
  fs : string -> option node;
  texts : string -> option string;
  os_error : os_call -> option exn
}.

(* ===================================================================== *)
(** ** [_WhlFile] (source lines 98-207)                                   *)
(* ===================================================================== *)

Definition _ZIP_EPOCH : Z * Z * Z * Z * Z * Z := (1980, 1, 1, 0, 0, 0)%Z.

Definition os_path_sep : ascii := ascii_of_N 47.     (* "/" *)
Definition os_path_altsep : option ascii := None.

(** [Path(p).name]: the last component of [p], components that are empty
    or ["."] being dropped; empty when there is none. *)
Definition Path_name (p : string) : string :=
  List.last (filter (fun c => negb (String.eqb c "" || String.eqb c "."))
          (Py.split_on (Py.eqc os_path_sep) p)) "".

Module WhlFile.

Record _WhlFile : Type := mkWhlFile {
  zf_filename : string;                         (* ZipFile.filename *)
  compression : Z;                              (* ZipFile.compression *)
  filelist : list (Zipfile.ZipInfo * list byte);(* members written, in order *)
  closed : bool;                                (* ZipFile.fp is None *)
  _distinfo_dir : string;
  _strip_path_prefixes : list string;
  _record : list (string * list byte * list byte)
}.

(** Methods of [_WhlFile] run on the archive object and may raise. *)
Definition W (A : Type) : Type := _WhlFile -> result A * _WhlFile.

Definition __init__ (filename : string) (distinfo_dir : string)
           (strip_path_prefixes : option (list string)) : _WhlFile :=
  mkWhlFile filename Zipfile.ZIP_DEFLATED [] false
    (Path_name distinfo_dir)
    (match strip_path_prefixes with
     | None | Some [] => []
     | Some l => l
     end)
    [].

Definition distinfo_path (self : _WhlFile) (basename : string) : string :=
  _distinfo_dir self +:+ "/" +:+ basename.

(** The prefix loop of [arcname_from]. *)
Fixpoint strip_first (prefixes : list string) (normalized_arcname : string)
  : string :=
  match prefixes with
  | [] => normalized_arcname
  | prefix :: rest =>
      if Py.startswith normalized_arcname prefix
      then Py.drop (String.length prefix) normalized_arcname
      else strip_first rest normalized_arcname
  end.

Definition arcname_from (self : _WhlFile) (name : string) : string :=
  let normalized_arcname := Py.replace os_path_sep "/" name in
  if Py.startswith normalized_arcname (_distinfo_dir self)
  then normalized_arcname
  else strip_first (_strip_path_prefixes self) normalized_arcname.

(** [_zipinfo]: the deterministic header of a member. *)
Definition _zipinfo (self : _WhlFile) (filename : string)
  : result Zipfile.ZipInfo :=
  let separators :=
    String os_path_sep
      (match os_path_altsep with
       | Some a => String a EmptyString
       | None => EmptyString
       end) in
  let arcname := Py.lstrip separators filename in
  let! zinfo := Zipfile.ZipInfo_init arcname _ZIP_EPOCH in
  Ok (Zipfile.mkZipInfo (Zipfile.filename zinfo) (Zipfile.date_time zinfo)
        3
        (Z.shiftl 511 16)             (* 0o777 << 16 *)
        (compression self)).

Definition _serialize_digest (hash : Hashlib.sha256_obj) : list byte :=
  let digest := Base64.urlsafe_b64encode (Hashlib.digest hash) in
  Py.b "sha256=" ++ bytes_rstrip (Py.b "=") digest.

Definition _add_to_record (filename : string) (hash : list byte) (size : N)
  : W unit :=
  fun self =>
    let size := Py.b (Py.str_of_int size) in
    (Ok tt,
     mkWhlFile (zf_filename self) (compression self) (filelist self)
       (closed self) (_distinfo_dir self) (_strip_path_prefixes self)
       (_record self ++ [(filename, hash, size)])).

(** Writing one member ([ZipFile.open(zinfo, "w")] then writes, or
    [ZipFile.writestr]): refused on a closed archive. *)
Definition write_member (zinfo : Zipfile.ZipInfo) (data : list byte)
  : W unit :=
  fun self =>
    if closed self then (Raise ValueError, self)
    else
      (Ok tt,
       mkWhlFile (zf_filename self) (compression self)
         (filelist self ++ [(zinfo, data)])
         (closed self) (_distinfo_dir self) (_strip_path_prefixes self)
         (_record self)).

(** The copy loop of [add_file]: blocks of 2**20 bytes are written,
    hashed and counted until [read] returns nothing.  [fuel] bounds the
    number of iterations. *)
Fixpoint copy_blocks (fuel : nat) (fsrc fdst : list byte)
         (hash : Hashlib.sha256_obj) (size : N)
  : list byte * Hashlib.sha256_obj * N :=
  match fuel with
  | O => (fdst, hash, size)
  | S fuel' =>
      match read (2 ^ 20) fsrc with
      | ([], _) => (fdst, hash, size)
      | (block, rest) =>
          copy_blocks fuel' rest (fdst ++ block) (Hashlib.update hash block)
            (size + N.of_nat (length block))
      end
  end.

(** The leaf case of [add_file]; [content] is what [open(real_filename,
    "rb")] gives, [None] when the path does not exist. *)
Definition add_leaf (package_filename : string) (content : option (list byte))
  : W unit :=
  fun self =>
    let arcname := arcname_from self package_filename in
    match _zipinfo self arcname with
    | Raise e => (Raise e, self)
    | Ok zinfo =>
        match content with
        | None => (Raise FileNotFoundError, self)
        | Some fsrc =>
            let '(fdst, hash, size) :=
              copy_blocks (S (length fsrc)) fsrc [] Hashlib.sha256 0 in
            match write_member zinfo fdst self with
            | (Raise e, self') => (Raise e, self')
            | (Ok _, self') =>
                _add_to_record arcname (_serialize_digest hash) size self'
            end
        end
    end.

(** [add_file] on a path that exists: a directory is walked, its own name
    giving no member. *)
Fixpoint add_node (package_filename : string) (n : node) : W unit :=
  match n with
  | File content _ _ => add_leaf package_filename (Some content)
  | Dir children =>
      (fix each (l : list (string * node)) : W unit :=
         match l with
         | [] => fun self => (Ok tt, self)
         | (file_, child) :: l' =>
             fun self =>
               match add_node (package_filename +:+ "/" +:+ file_) child self with
               | (Raise e, self') => (Raise e, self')
               | (Ok _, self') => each l' self'
               end
         end) children
  end.

Definition add_file (w : world) (package_filename real_filename : string)
  : W unit :=
  match fs w real_filename with
  | Some n => add_node package_filename n
  | None => add_leaf package_filename None
  end.

(** The [contents] argument of [add_string] is a [str] or a [bytes]. *)
Inductive contents : Type :=
| Text (s : string)
| Bytes (b : list byte).

Definition add_string (filename : string) (c : contents) : W unit :=
  fun self =>
    let data := match c with Text s => Py.encode s | Bytes b => b end in
    match _zipinfo self filename with
    | Raise e => (Raise e, self)
    | Ok zinfo =>
        match write_member zinfo data self with
        | (Raise e, self') => (Raise e, self')
        | (Ok _, self') =>
            let hash := Hashlib.update Hashlib.sha256 data in
            _add_to_record filename (_serialize_digest hash)
              (N.of_nat (length data)) self'
        end
    end.

(** One line of RECORD: [b"%s,%s,%s\n" % (filename, digest, size)]. *)
Definition record_line (e : string * list byte * list byte) : list byte :=
  let '(filename, digest, size) := e in
  Py.encode (Py.lstrip "/" filename) ++ Py.b "," ++ digest ++ Py.b ","
    ++ size ++ [byte_of_Z 10].

Definition add_recordfile : W (list byte) :=
  fun self =>
    let record_path := distinfo_path self "RECORD" in
    let entries := _record self ++ [(record_path, [], [])] in
    let contents := flat_map record_line entries in
    match add_string record_path (Bytes contents) self with
    | (Raise e, self') => (Raise e, self')
    | (Ok _, self') => (Ok contents, self')
    end.

(** [ZipFile.close] *)
Definition close (self : _WhlFile) : _WhlFile :=
  mkWhlFile (zf_filename self) (compression self) (filelist self) true
    (_distinfo_dir self) (_strip_path_prefixes self) (_record self).

End WhlFile.

(* ===================================================================== *)
(** ** Replacement templates of [re.sub]                                  *)
(* ===================================================================== *)

(** A replacement string is parsed once, before any matching: a backslash
    introduces an escape.  The patterns this is used with have no capture
    group, so the only valid reference is [\g<0>], the whole match; group
    ids are decimal digits. *)
Module Template.

Inductive item : Type :=
| Lit (c : string)
| Group0.

Definition is_octdigit (c : ascii) : bool := Py.in_range 48 55 c.
Definition is_ascii_letter (c : ascii) : bool :=
  Py.is_lower_az c || Py.is_upper_az c.
Definition digit_val (c : ascii) : N := (Py.code c - 48)%N.
Definition chr (n : N) : string := String (ascii_of_N n) EmptyString.

(** [ESCAPES]: a b f n r t v and the backslash itself. *)
Definition escape_of (c : ascii) : option N :=
  match Py.code c with
  | 97 => Some 7 | 98 => Some 8 | 102 => Some 12 | 110 => Some 10
  | 114 => Some 13 | 116 => Some 9 | 118 => Some 11 | 92 => Some 92
  | _ => None
  end%N.

(** [int(name)] for a group name that is not an identifier: white space
    around the number is dropped, one sign may come first, and single
    underscores may stand between digits.  [None] is the
    [ValueError]; the sign is dropped, as the only value the caller
    accepts is 0. *)
Definition int_spaces : string :=
  string_of_list_ascii
    (map ascii_of_N [9; 10; 11; 12; 13; 32; 133; 160]%N).

Fixpoint digits_value (acc : N) (after_digit : bool) (s : string)
  : option N :=
  match s with
  | EmptyString => if after_digit then Some acc else None
  | String c s' =>
      if Py.is_digit c
      then digits_value (acc * 10 + digit_val c) true s'
      else if Py.eqc c "_" && after_digit
           then digits_value acc false s'
           else None
  end.

Definition int_of_name (name : string) : option N :=
  match Py.strip int_spaces name with
  | String c s' =>
      if Py.eqc c "+" || Py.eqc c "-" then digits_value 0 false s'
      else digits_value 0 false (String c s')
  | EmptyString => None
  end.

(** The group name up to [>]: the name and what follows. *)
Fixpoint getuntil_gt (s : string) : option (string * string) :=
  match s with
  | EmptyString => None
  | String c s' =>
      if Py.eqc c ">" then Some (EmptyString, s')
      else match getuntil_gt s' with
           | Some (name, rest) => Some (String c name, rest)
           | None => None
           end
  end.

Fixpoint parse (fuel : nat) (s : string) : option (list item) :=
  match fuel with
  | O => None
  | S fuel' =>
      match s with
      | EmptyString => Some []
      | String c s1 =>
          if negb (Py.eqc c "\") then
            option_map (cons (Lit (String c EmptyString))) (parse fuel' s1)
          else
            match s1 with
            | EmptyString => None             (* bad escape (end of pattern) *)
            | String e s2 =>
                if Py.eqc e "g" then
                  match s2 with
                  | String "<" s3 =>
                      match getuntil_gt s3 with
                      | Some (name, rest) =>
                          match int_of_name name with
                          | Some 0%N =>
                              option_map (cons Group0) (parse fuel' rest)
                          | _ => None   (* bad name, or no such group *)
                          end
                      | None => None
                      end
                  | _ => None                 (* missing < *)
                  end
                else if Py.eqc e "0" then
                  match s2 with
                  | String d1 s3 =>
                      if is_octdigit d1 then
                        match s3 with
                        | String d2 s4 =>
                            if is_octdigit d2 then
                              option_map
                                (cons (Lit (chr ((digit_val d1 * 8
                                                  + digit_val d2) mod 256))))
                                (parse fuel' s4)
                            else
                              option_map (cons (Lit (chr (digit_val d1))))
                                (parse fuel' s3)
                        | EmptyString =>
                            option_map (cons (Lit (chr (digit_val d1))))
                              (parse fuel' s3)
                        end
                      else option_map (cons (Lit (chr 0))) (parse fuel' s2)
                  | EmptyString => Some [Lit (chr 0)]
                  end
                else if Py.is_digit e then
                  match s2 with
                  | String d1 (String d2 s4) =>
                      if is_octdigit e && is_octdigit d1 && is_octdigit d2
                      then
                        let v := (digit_val e * 64 + digit_val d1 * 8
                                  + digit_val d2)%N in
                        if (255 <? v)%N then None
                        else option_map (cons (Lit (chr v))) (parse fuel' s4)
                      else None               (* invalid group reference *)
                  | _ => None                 (* invalid group reference *)
                  end
                else
                  match escape_of e with
                  | Some n => option_map (cons (Lit (chr n))) (parse fuel' s2)
                  | None =>
                      if is_ascii_letter e then None   (* bad escape *)
                      else option_map
                             (cons (Lit (String c (String e EmptyString))))
                             (parse fuel' s2)
                  end
            end
      end
  end.

Definition parse_template (repl : string) : option (list item) :=
  parse (S (String.length repl)) repl.

Fixpoint expand (t : list item) (matched : string) : string :=
  match t with
  | [] => EmptyString
  | Lit c :: t' => c +:+ expand t' matched
  | Group0 :: t' => matched +:+ expand t' matched
  end.

End Template.

(* ===================================================================== *)
(** ** [WheelMaker] (source lines 210-325)                                *)
(* ===================================================================== *)

(** What the run does to the files it writes, in the order it does it. *)
Inductive event : Type :=
| EvOpen (filename : string)            (* the archive file is opened *)
| EvMember (arcname : string)           (* a member is written to it *)
| EvClose (filename : string)           (* the archive is closed *)
| EvWriteText (path text : string).     (* Path.write_text *)

(** The string ["\n"]. *)
Definition nl : string := String Re.newline EmptyString.

Module Maker.

Record WheelMaker : Type := mkWheelMaker {
  _name : string;
  _version : string;
  _build_tag : string;
  _python_tag : string;
  _abi : string;
  _platform : string;
  _outfile : option string;
  _strip_path_prefixes : option (list string);
  _escaped_version : string;
  _distinfo_dir : string;
  _wheelname_fragment_distribution_name : string
}.

(** The mutable part of a run: [self._whlfile], the archive left on disk
    by [close], and the events so far, oldest first. *)
Record state : Type := mkState {
  _whlfile : option WhlFile._WhlFile;
  on_disk : option WhlFile._WhlFile;
  log : list event
}.

Definition M (A : Type) : Type := state -> result A * state.

Definition ret {A : Type} (a : A) : M A := fun st => (Ok a, st).
Definition raise {A : Type} (e : exn) : M A := fun st => (Raise e, st).
Definition then_ {A B : Type} (m : M A) (k : A -> M B) : M B :=
  fun st =>
    match m st with
    | (Ok a, st') => k a st'
    | (Raise e, st') => (Raise e, st')
    end.
Definition lift {A : Type} (r : result A) : M A := fun st => (r, st).

(** The members a method call added to the archive, as events. *)
Definition written (before after : WhlFile._WhlFile) : list event :=
  map (fun m => EvMember (Zipfile.filename (fst m)))
    (skipn (length (WhlFile.filelist before)) (WhlFile.filelist after)).

(** A method call on [self._whlfile]. *)
Definition on_whlfile {A : Type} (m : WhlFile.W A) : M A :=
  fun st =>
    match _whlfile st with
    | None => (Raise AttributeError, st)
    | Some f =>
        let (r, f') := m f in
        (r, mkState (Some f') (on_disk st) (log st ++ written f f'))
    end.

Definition emit (e : event) : M unit :=
  fun st => (Ok tt, mkState (_whlfile st) (on_disk st) (log st ++ [e])).

(** Truthiness of a string and of an optional string. *)
Definition nonempty (s : string) : bool :=
  match s with EmptyString => false | _ => true end.
Definition truthy (o : option string) : bool :=
  match o with Some s => nonempty s | None => false end.

Definition __init__ (name version build_tag python_tag abi platform : string)
           (outfile : option string)
           (strip_path_prefixes : option (list string))
           (incompatible_normalize_name incompatible_normalize_version : bool)
  : result WheelMaker :=
  let! (version, escaped_version) :=
    (if incompatible_normalize_version
     then let! v := normalize_pep440 version in Ok (v, v)
     else Ok (version, escape_filename_segment version)) in
  let (distinfo_dir, fragment) :=
    if incompatible_normalize_name
    then
      let escaped_name := escape_filename_distribution_name name in
      (escaped_name +:+ "-" +:+ escaped_version +:+ ".dist-info/",
       escaped_name)
    else
      (escape_filename_segment name +:+ "-" +:+ escaped_version
         +:+ ".dist-info/",
       name) in
  Ok (mkWheelMaker name version build_tag python_tag abi platform outfile
        strip_path_prefixes escaped_version distinfo_dir fragment).

Definition wheelname (self : WheelMaker) : string :=
  let components :=
    [_wheelname_fragment_distribution_name self; _version self]
    ++ (if nonempty (_build_tag self) then [_build_tag self] else [])
    ++ [_python_tag self; _abi self; _platform self] in
  Py.join "-" components +:+ ".whl".

Definition filename (self : WheelMaker) : string :=
  if truthy (_outfile self)
  then match _outfile self with Some o => o | None => "" end
  else wheelname self.

Definition disttags (self : WheelMaker) : list string :=
  [Py.join "-" [_python_tag self; _abi self; _platform self]].

(** [_WhlFile(...)] opens the archive file; when that fails there is
    no archive object. *)
Definition __enter__ (w : world) (self : WheelMaker) : M unit :=
  fun st =>
    match os_error w OpenArchive with
    | Some e => (Raise e, st)
    | None =>
        (Ok tt,
         mkState
           (Some (WhlFile.__init__ (filename self) (_distinfo_dir self)
                    (_strip_path_prefixes self)))
           (on_disk st)
           (log st ++ [EvOpen (filename self)]))
    end.

(** [self._whlfile.close()], then [self._whlfile = None].  When
    [close] raises, the archive object is closed all the same, no
    complete archive is on disk and the assignment is not reached. *)
Definition __exit__ (w : world) (self : WheelMaker) : M unit :=
  fun st =>
    match _whlfile st with
    | None => (Raise AttributeError, st)
    | Some f =>
        match os_error w CloseArchive with
        | Some e =>
            (Raise e,
             mkState (Some (WhlFile.close f)) (on_disk st) (log st))
        | None =>
            (Ok tt,
             mkState None (Some (WhlFile.close f))
               (log st ++ [EvClose (WhlFile.zf_filename f)]))
        end
    end.

Definition distinfo_path (basename : string) : M string :=
  on_whlfile (fun f => (Ok (WhlFile.distinfo_path f basename), f)).

Definition add_file (w : world) (package_filename real_filename : string)
  : M unit :=
  on_whlfile (WhlFile.add_file w package_filename real_filename).

Definition add_wheelfile (self : WheelMaker) : M unit :=
  let wheel_contents :=
    "Wheel-Version: 1.0" +:+ nl +:+ "Generator: bazel-wheelmaker 1.0" +:+ nl
      +:+ "Root-Is-Purelib: "
      +:+ (if String.eqb (_platform self) "any" then "true" else "false")
      +:+ nl in
  let wheel_contents :=
    fold_left (fun acc tag => acc +:+ "Tag: " +:+ tag +:+ nl)
      (disttags self) wheel_contents in
  then_ (distinfo_path "WHEEL")
    (fun p => on_whlfile (WhlFile.add_string p (WhlFile.Text wheel_contents))).

(** [.] of a pattern: anything but a newline. *)
Definition not_newline (c : ascii) : bool := negb (Py.eqc c Re.newline).

(** [^Name: .*$] with [re.MULTILINE] *)
Definition re_name_line : Re.regex :=
  Re.Seq (Re.Bol true)
    (Re.Seq (Re.Lit "Name: ")
       (Re.Seq (Re.Star (Re.Cls not_newline)) (Re.Eol true))).

(** The text of METADATA. *)
Definition metadata_text (metadata name : string)
           (description : option string) (version : string)
  : result string :=
  match Template.parse_template ("Name: " +:+ name) with
  | None => Raise TemplateError
  | Some t =>
      let metadata := Re.sub re_name_line (Template.expand t) metadata 0 in
      let metadata := metadata +:+ "Version: " +:+ version +:+ nl +:+ nl in
      let metadata :=
        metadata +:+ (if truthy description
                      then match description with
                           | Some d => d | None => "" end
                      else "UNKNOWN") in
      Ok (metadata +:+ nl)
  end.

Definition add_metadata (metadata name : string)
           (description : option string) (version : string) : M unit :=
  then_ (lift (metadata_text metadata name description version))
    (fun text =>
       then_ (distinfo_path "METADATA")
         (fun p => on_whlfile (WhlFile.add_string p (WhlFile.Text text)))).

Definition add_recordfile : M unit :=
  then_ (on_whlfile WhlFile.add_recordfile) (fun _ => ret tt).

End Maker.

(* ===================================================================== *)
(** ** [get_files_to_package] and [main] (source lines 328-576)           *)
(* ===================================================================== *)

(** [for package_path, real_path in input_files: files[package_path] =
    real_path]; an element that is not a pair cannot be unpacked. *)
Fixpoint fill_files (input_files : list (list string))
         (files : gmap string string) : result (gmap string string) :=
  match input_files with
  | [] => Ok files
  | [package_path; real_path] :: rest =>
      fill_files rest (<[package_path := real_path]> files)
  | _ :: _ => Raise ValueError
  end.

Definition get_files_to_package (input_files : list (list string))
  : result (gmap string string) :=
  fill_files input_files ∅.

(** Order of [str] (by code point), of pairs and of lists, as [sorted]
    uses them. *)
Definition str_lt (a b : string) : bool :=
  match String.compare a b with Lt => true | _ => false end.

Definition item_leb (a b : string * string) : bool :=
  str_lt (fst a) (fst b)
  || (String.eqb (fst a) (fst b) && String.leb (snd a) (snd b)).

Fixpoint list_leb (a b : list string) : bool :=
  match a, b with
  | [], _ => true
  | _ :: _, [] => false
  | x :: a', y :: b' =>
      str_lt x y || (String.eqb x y && list_leb a' b')
  end.

Definition sorted_items (l : list (string * string))
  : list (string * string) :=
  merge_sort (fun a b => Is_true (item_leb a b)) l.

Definition sorted_lists (l : list (list string)) : list (list string) :=
  merge_sort (fun a b => Is_true (list_leb a b)) l.

(** The values [main] works from once the command line is read: [name]
    and [version] with build stamps resolved, [input_files] and
    [extra_distinfo_file] split at [";"], list files included. *)
Record arguments : Type := mkArguments {
  name : string;
  version : string;
  build_tag : string;
  python_tag : string;
  abi : string;
  platform : string;
  out : option string;
  name_file : option string;
  strip_path_prefix : list string;
  metadata_file : option string;
  description_file : option string;
  entry_points_file : option string;
  input_files : list (list string);
  extra_distinfo_file : list (list string);
  noincompatible_normalize_name : bool;
  noincompatible_normalize_version : bool
}.

(** [open(path, "rt").read()] *)
Definition read_text (w : world) (path : option string) : result string :=
  match path with
  | None => Raise TypeError
  | Some p =>
      match texts w p with
      | Some t => Ok t
      | None => Raise FileNotFoundError
      end
  end.

Fixpoint add_all_files (w : world) (all_files : list (string * string))
  : Maker.M unit :=
  match all_files with
  | [] => Maker.ret tt
  | (package_filename, real_filename) :: rest =>
      Maker.then_ (Maker.add_file w package_filename real_filename)
        (fun _ => add_all_files w rest)
  end.

Fixpoint add_extra_distinfo (w : world) (extra : list (list string))
  : Maker.M unit :=
  match extra with
  | [] => Maker.ret tt
  | [filename; real_path] :: rest =>
      Maker.then_ (Maker.distinfo_path filename)
        (fun p => Maker.then_ (Maker.add_file w p real_path)
                    (fun _ => add_extra_distinfo w rest))
  | _ :: _ => Maker.raise ValueError
  end.

(** The body of the [with] statement (source lines 527-576). *)
Definition with_body (a : arguments) (w : world) (maker : Maker.WheelMaker)
           (all_files : list (string * string)) : Maker.M unit :=
  Maker.then_ (add_all_files w all_files) (fun _ =>
  Maker.then_ (Maker.add_wheelfile maker) (fun _ =>
  Maker.then_
    (if Maker.truthy (description_file a)
     then Maker.then_ (Maker.lift (read_text w (description_file a)))
            (fun d => Maker.ret (Some d))
     else Maker.ret None) (fun description =>
  Maker.then_ (Maker.lift (read_text w (metadata_file a))) (fun metadata =>
  Maker.then_
    (if noincompatible_normalize_version a
     then Maker.ret (version a)
     else Maker.lift (normalize_pep440 (version a)))
    (fun version_in_metadata =>
  Maker.then_
    (Maker.add_metadata metadata (name a) description version_in_metadata)
    (fun _ =>
  Maker.then_
    (if Maker.truthy (entry_points_file a)
     then Maker.then_ (Maker.distinfo_path "entry_points.txt")
            (fun p => Maker.add_file w p
                        (match entry_points_file a with
                         | Some f => f | None => "" end))
     else Maker.ret tt) (fun _ =>
  Maker.then_ (add_extra_distinfo w (sorted_lists (extra_distinfo_file a)))
    (fun _ =>
  Maker.then_ Maker.add_recordfile (fun _ =>
  match name_file a with
  | None => Maker.raise AttributeError
  | Some p =>
      match os_error w WriteNameFile with
      | Some e => Maker.raise e
      | None => Maker.emit (EvWriteText p (Maker.wheelname maker))
      end
  end))))))))).

(** Nothing opened, nothing on disk, nothing written. *)
Definition initial : Maker.state := Maker.mkState None None [].

(** [main]: the result of the run and the state it leaves.  When
    [__enter__] raises, the body and [__exit__] do not run.  Otherwise
    the [with] statement calls [__exit__] whether or not its body
    raised, and an exception of [__exit__] replaces that of the body. *)
Definition main (a : arguments) (w : world) : result unit * Maker.state :=
  match get_files_to_package (input_files a) with
  | Raise e => (Raise e, initial)
  | Ok files =>
      let all_files := sorted_items (map_to_list files) in
      let strip_prefixes := strip_path_prefix a in
      match Maker.__init__ (name a) (version a) (build_tag a) (python_tag a)
              (abi a) (platform a) (out a) (Some strip_prefixes)
              (negb (noincompatible_normalize_name a))
              (negb (noincompatible_normalize_version a)) with
      | Raise e => (Raise e, initial)
      | Ok maker =>
          match Maker.__enter__ w maker initial with
          | (Raise e, st1) => (Raise e, st1)
          | (Ok _, st1) =>
              let (r, st2) := with_body a w maker all_files st1 in
              match Maker.__exit__ w maker st2 with
              | (Ok _, st3) => (r, st3)
              | (Raise e, st3) => (Raise e, st3)
              end
          end
      end
  end.

(* ===================================================================== *)
(** ** [commonpath], build stamps and the command line
       (source lines 29-35, 339-362 and 475-525)                          *)
(* ===================================================================== *)

(** The loop of [commonpath]: the components two lists share at their
    front. *)
Fixpoint common_components (l1 l2 : list string) : list string :=
  match l1, l2 with
  | a :: l1', b :: l2' =>
      if String.eqb a b then a :: common_components l1' l2' else []
  | _, _ => []
  end.

Definition commonpath (path1 path2 : string) : string :=
  Py.join (String os_path_sep EmptyString)
    (common_components (Py.split_on (Py.eqc os_path_sep) path1)
       (Py.split_on (Py.eqc os_path_sep) path2)).

(** The line boundaries of [str.splitlines] below code point 256: LF, VT,
    FF, CR, FS, GS, RS and NEL. *)
Definition is_linebreak (c : ascii) : bool :=
  Py.in_range 10 13 c || Py.in_range 28 30 c || (Py.code c =? 133)%N.

Definition carriage_return : ascii := ascii_of_N 13.

(** [s.splitlines()]: the lines without their boundaries.  The result
    for the rest of the text starts with the rest of the current line.
    A line feed right after a carriage return ([after_cr]) belongs to
    the same boundary; a final boundary opens no empty line. *)
Fixpoint splitlines_from (after_cr : bool) (s : string) : list string :=
  match s with
  | EmptyString => []
  | String c s' =>
      if after_cr && Py.eqc c Re.newline then splitlines_from false s'
      else if is_linebreak c
      then EmptyString :: splitlines_from (Py.eqc c carriage_return) s'
      else match splitlines_from false s' with
           | [] => [String c EmptyString]
           | l :: ls => String c l :: ls
           end
  end.

Definition splitlines (s : string) : list string := splitlines_from false s.

(** [s.split(sep, maxsplit=1)] for a one-character [sep]. *)
Fixpoint split_once (sep : ascii) (s : string) : list string :=
  match s with
  | EmptyString => [EmptyString]
  | String c s' =>
      if Py.eqc c sep then [EmptyString; s']
      else match split_once sep s' with
           | [] => [String c EmptyString]
           | a :: rest => String c a :: rest
           end
  end.

(** [s.replace(old, new)] for any [old]: occurrences are replaced left
    to right and do not overlap ([skip] characters of the occurrence
    just replaced are still to be dropped); an empty [old] matches
    before every character and at the end. *)
Fixpoint str_replace_from (old new : string) (skip : nat) (s : string)
  : string :=
  match s with
  | EmptyString => EmptyString
  | String c s' =>
      match skip with
      | S k => str_replace_from old new k s'
      | O =>
          if String.prefix old s
          then new +:+ str_replace_from old new (String.length old - 1) s'
          else String c (str_replace_from old new O s')
      end
  end.

Fixpoint str_interleave (new s : string) : string :=
  match s with
  | EmptyString => new
  | String c s' => new +:+ String c (str_interleave new s')
  end.

Definition str_replace (old new s : string) : string :=
  match old with
  | EmptyString => str_interleave new s
  | _ => str_replace_from old new O s
  end.

(** The loop of [resolve_argument_stamp]: empty lines are skipped; a
    line without a space cannot be unpacked into [key, value]. *)
Fixpoint stamp_lines (lines : list string) (argument : string)
  : result string :=
  match lines with
  | [] => Ok argument
  | line :: rest =>
      if negb (Maker.nonempty line) then stamp_lines rest argument
      else
        match split_once " " line with
        | [key; value] =>
            let stamp := "{" +:+ key +:+ "}" in
            stamp_lines rest (str_replace stamp value argument)
        | _ => Raise ValueError
        end
  end.

Definition resolve_argument_stamp (w : world) (argument : string)
           (volatile_status_stamp stable_status_stamp : string)
  : result string :=
  let! volatile := read_text w (Some volatile_status_stamp) in
  let! stable := read_text w (Some stable_status_stamp) in
  stamp_lines (splitlines volatile ++ splitlines stable) argument.

(** The namespace [parse_args] returns: an option given several times
    is a list, an option not given is [None] unless it has a default. *)
Module Argparse.

Record Namespace : Type := mkNamespace {
  name : string;
  version : string;
  build_tag : string;
  python_tag : string;
  abi : string;
  platform : string;
  out : option string;
  name_file : option string;
  strip_path_prefix : list string;
  metadata_file : option string;
  description_file : option string;
  description_content_type : option string;
  entry_points_file : option string;
  input_file : option (list string);
  input_file_list : option (list string);
  extra_distinfo_file : option (list string);
  volatile_status_file : option string;
  stable_status_file : option string;
  noincompatible_normalize_name : bool;
  noincompatible_normalize_version : bool
}.

End Argparse.

(** [i.split(";")] *)
Definition split_semicolon (i : string) : list string :=
  Py.split_on (Py.eqc ";") i.

(** [[i.split(";") for i in option]], and [[]] when the option was not
    given. *)
Definition split_pairs (option_ : option (list string))
  : list (list string) :=
  match option_ with
  | Some l => map split_semicolon l
  | None => []
  end.

(** The loop over [--input_file_list]: the lines of each file, in turn,
    are split and appended. *)
Fixpoint read_input_file_lists (w : world) (lists : list string)
  : result (list (list string)) :=
  match lists with
  | [] => Ok []
  | input_file :: rest =>
      let! text := read_text w (Some input_file) in
      let! more := read_input_file_lists w rest in
      Ok (map split_semicolon (splitlines text) ++ more)
  end.

Definition input_files_of (ns : Argparse.Namespace) (w : world)
  : result (list (list string)) :=
  let input_files := split_pairs (Argparse.input_file ns) in
  match Argparse.input_file_list ns with
  | Some lists =>
      let! more := read_input_file_lists w lists in
      Ok (input_files ++ more)
  | None => Ok input_files
  end.

(** A name or version with its stamps resolved, when both status files
    are given. *)
Definition stamped (ns : Argparse.Namespace) (w : world) (argument : string)
  : result string :=
  match Argparse.volatile_status_file ns, Argparse.stable_status_file ns with
  | Some volatile, Some stable =>
      resolve_argument_stamp w argument volatile stable
  | _, _ => Ok argument
  end.

(** [main] from the namespace on (source lines 475-525, then [main]
    above): the input files are collected and checked first, then the
    name and the version are stamped. *)
Definition main_from_namespace (ns : Argparse.Namespace) (w : world)
  : result unit * Maker.state :=
  match input_files_of ns w with
  | Raise e => (Raise e, initial)
  | Ok input_files =>
      match get_files_to_package input_files with
      | Raise e => (Raise e, initial)
      | Ok _ =>
          match stamped ns w (Argparse.name ns) with
          | Raise e => (Raise e, initial)
          | Ok name =>
              match stamped ns w (Argparse.version ns) with
              | Raise e => (Raise e, initial)
              | Ok version =>
                  main (mkArguments name version (Argparse.build_tag ns)
                          (Argparse.python_tag ns) (Argparse.abi ns)
                          (Argparse.platform ns) (Argparse.out ns)
                          (Argparse.name_file ns)
                          (Argparse.strip_path_prefix ns)
                          (Argparse.metadata_file ns)
                          (Argparse.description_file ns)
                          (Argparse.entry_points_file ns) input_files
                          (split_pairs (Argparse.extra_distinfo_file ns))
                          (Argparse.noincompatible_normalize_name ns)
                          (Argparse.noincompatible_normalize_version ns))
                    w
              end
          end
      end
  end.

(* ===================================================================== *)
(** ** Reference definitions                                              *)
(* ===================================================================== *)

(** What the code is compared with: plain recursive descriptions of the
    results, the language of a pattern, and the invariants of the
    archive.  Nothing below is part of the tool. *)

Unset Implicit Arguments.

(** *** Runs of characters *)

(** [s] without its longest prefix of characters satisfying [f], and the
    length of that prefix. *)
Fixpoint dropwhile (f : ascii -> bool) (s : string) : string :=
  match s with
  | EmptyString => EmptyString
  | String c s' => if f c then dropwhile f s' else s
  end.

Fixpoint span (f : ascii -> bool) (s : string) : nat :=
  match s with
  | EmptyString => O
  | String c s' => if f c then S (span f s') else O
  end.

(** Every maximal run of characters satisfying [bad] is replaced by one
    copy of [r]; [in_run] tells whether the previous character was bad. *)
Fixpoint replace_runs (bad : ascii -> bool) (r : string) (in_run : bool)
         (s : string) : string :=
  match s with
  | EmptyString => EmptyString
  | String c s' =>
      if bad c
      then (if in_run then replace_runs bad r true s'
            else r +:+ replace_runs bad r true s')
      else String c (replace_runs bad r false s')
  end.

(** The number of maximal runs of bad characters that start in [s]. *)
Fixpoint count_runs (bad : ascii -> bool) (in_run : bool) (s : string) : nat :=
  match s with
  | EmptyString => O
  | String c s' =>
      if bad c
      then (if in_run then count_runs bad true s'
            else S (count_runs bad true s'))
      else count_runs bad false s'
  end.

(** The replacements still allowed cover [n] runs. *)
Definition fits (left : option nat) (n : nat) : Prop :=
  match left with
  | None => True
  | Some m => n <= m
  end.

(** *** The language of a pattern *)

(** [lang r t g]: the pattern [r] can match the text [t], capturing the
    groups [g] (most recent first); anchors aside. *)
Inductive lang : Re.regex -> string -> Re.groups -> Prop :=
| lang_eps : lang Re.Eps "" []
| lang_cls f c : f c = true -> lang (Re.Cls f) (String c "") []
| lang_seq r1 r2 a b ga gb :
    lang r1 a ga -> lang r2 b gb -> lang (Re.Seq r1 r2) (a +:+ b) (gb ++ ga)
| lang_alt_l r1 r2 a g : lang r1 a g -> lang (Re.Alt r1 r2) a g
| lang_alt_r r1 r2 a g : lang r2 a g -> lang (Re.Alt r1 r2) a g
| lang_star_nil r : lang (Re.Star r) "" []
| lang_star_cons r a b ga gb :
    lang r a ga -> lang (Re.Star r) b gb ->
    lang (Re.Star r) (a +:+ b) (gb ++ ga)
| lang_grp n r a g : lang r a g -> lang (Re.Grp n r) a ((n, a) :: g)
| lang_bol m : lang (Re.Bol m) "" []
| lang_eol m : lang (Re.Eol m) "" [].

(** *** Parts of a version text *)

(** Splitting a text made of separator-free chunks. *)
Definition chunk_ok (f : ascii -> bool) (p : string) : Prop :=
  p <> "" /\ Py.all f p = true.

(** The groups of an optional numeric group: none, or [name] with a
    string of digits. *)
Definition num_group (name : string) (gn : Re.groups) : Prop :=
  gn = [] \/ exists d, gn = [(name, d)] /\ Py.isdigit d = true.

(** A keyword out of [words], in any letter case. *)
Definition letter_in (words : list string) (l : string) : Prop :=
  In (Py.lower l) words.

(** *** Canonical versions *)

(** [[a-z0-9]] *)
Definition az09 (c : ascii) : bool := Py.is_lower_az c || Py.is_digit c.

(** The versions [Version] produces: what [str] prints of them reads back
    as the same version. *)
Definition canonical_part (p : Packaging.local_part) : bool :=
  match p with
  | Packaging.LInt _ => true
  | Packaging.LStr s =>
      Maker.nonempty s && Py.all az09 s && negb (Py.isdigit s)
  end.

(** The letter of a pre-, post- or dev-release, when there is one, is
    one of [words]. *)
Definition letter_is (words : list string) (x : option (string * N)) : bool :=
  match x with
  | Some (l, _) => existsb (String.eqb l) words
  | None => true
  end.

Definition canonical (v : Packaging._Version) : bool :=
  match Packaging.release v with [] => false | _ => true end
  && letter_is ["a"; "b"; "rc"] (Packaging.pre v)
  && letter_is ["post"] (Packaging.post v)
  && letter_is ["dev"] (Packaging.dev v)
  && match Packaging.local v with
     | Some [] => false
     | Some parts => forallb canonical_part parts
     | None => true
     end.

(** All groups of [g] have their names in [ns]. *)
Definition names_in (ns : list string) (g : Re.groups) : Prop :=
  forall n t, In (n, t) g -> In n ns.

(** One part of a local version, as [_parse_local_version] converts
    it. *)
Definition local_conv (part : string) : result Packaging.local_part :=
  if negb (Py.isdigit part) then Ok (Packaging.LStr (Py.lower part))
  else let! n := Packaging.int part in Ok (Packaging.LInt n).

(** *** Paths of the matcher *)

(** [matches C r t gX]: in front of any rest satisfying [C], the first
    successful path of [r] consumes exactly [t] and captures [gX]. *)
Definition matches (C : string -> Prop) (r : Re.regex) (t : string)
           (gX : Re.groups) : Prop :=
  forall (R : Type) (p : option ascii) (s' : string) (g : Re.groups)
         (k : @Re.cont R) (res : R),
    C s' ->
    (forall p', k p' s' (gX ++ g) = Some res) ->
    Re.exec r p (t +:+ s') g k = Some res.

(** [fails r s]: no path of [r] gets through on [s], whatever follows. *)
Definition fails (r : Re.regex) (s : string) : Prop :=
  forall (R : Type) (p : option ascii) (g : Re.groups) (k : @Re.cont R),
    Re.exec r p s g k = None.

(** The text is empty or starts with a character outside [f]. *)
Definition head_not (f : ascii -> bool) (s : string) : Prop :=
  match s with
  | EmptyString => True
  | String c _ => f c = false
  end.

(** Chunks joined by one separator character. *)
Fixpoint sep_chunks (c : ascii) (chunks : list string) : string :=
  match chunks with
  | [] => ""
  | ch :: rest => String c ch +:+ sep_chunks c rest
  end.

(** A separator and a chunk: the body of the repetitions in [release]
    and [local]. *)
Definition chunk_body (sep f : ascii -> bool) : Re.regex :=
  Re.Seq (Re.Cls sep) (Re.Plus (Re.Cls f)).

(** *** The text and the groups of a canonical version *)

(** The text [Version.__str__] prints for each field: epoch, release,
    pre, post, dev and local. *)
Definition txtE (e : N) : string :=
  if (e =? 0)%N then "" else Py.str_of_int e +:+ "!".

Definition txtR (rel : list N) : string :=
  Py.join "." (map Py.str_of_int rel).

Definition txtP (pre : option (string * N)) : string :=
  match pre with Some (l, n) => l +:+ Py.str_of_int n | None => "" end.

Definition txtPO (post : option N) : string :=
  match post with Some n => ".post" +:+ Py.str_of_int n | None => "" end.

Definition txtD (dev : option N) : string :=
  match dev with Some n => ".dev" +:+ Py.str_of_int n | None => "" end.

Definition txtL (loc : option (list string)) : string :=
  match loc with Some parts => "+" +:+ Py.join "." parts | None => "" end.

(** The groups the pattern captures on these texts. *)
Definition gE (e : N) : Re.groups :=
  if (e =? 0)%N then [] else [("epoch", Py.str_of_int e)].

Definition gR (rel : list N) : Re.groups := [("release", txtR rel)].

Definition gP (pre : option (string * N)) : Re.groups :=
  match pre with
  | Some (l, n) =>
      [("pre", l +:+ Py.str_of_int n); ("pre_n", Py.str_of_int n); ("pre_l", l)]
  | None => []
  end.

Definition gPO (post : option N) : Re.groups :=
  match post with
  | Some n =>
      [("post", ".post" +:+ Py.str_of_int n); ("post_n2", Py.str_of_int n);
       ("post_l", "post")]
  | None => []
  end.

Definition gD (dev : option N) : Re.groups :=
  match dev with
  | Some n =>
      [("dev", ".dev" +:+ Py.str_of_int n); ("dev_n", Py.str_of_int n);
       ("dev_l", "dev")]
  | None => []
  end.

Definition gL (loc : option (list string)) : Re.groups :=
  match loc with
  | Some parts => [("local", Py.join "." parts)]
  | None => []
  end.

(** The rest of the subject is exactly [s0]. *)
Definition rest_is (s0 : string) : string -> Prop := fun s' => s' = s0.

(** What may follow each part. *)
Definition tail1 (s : string) : Prop :=
  s = "" \/ exists x, s = "+" +:+ x.

Definition tail2 (s : string) : Prop :=
  tail1 s \/ exists x, s = ".dev" +:+ x.

Definition tail3 (s : string) : Prop :=
  tail2 s \/ exists x, s = ".post" +:+ x.

Definition tail4 (s : string) : Prop :=
  tail3 s \/ (exists x, s = "a" +:+ x) \/ (exists x, s = "b" +:+ x)
  \/ exists x, s = "rc" +:+ x.

(** The groups [pre], [post], [dev] and [local] of the pattern, without
    the [?] around them. *)
Definition pre_group : Re.regex :=
  Re.Grp "pre"
    (Re.Seq (Re.Opt Packaging.SEP) (Re.Seq (Re.Grp "pre_l" Packaging.re_pre_l)
       (Re.Seq (Re.Opt Packaging.SEP)
          (Re.Opt (Re.Grp "pre_n" (Re.Plus Packaging.D)))))).

Definition post_group : Re.regex :=
  Re.Grp "post"
    (Re.Alt (Re.Seq (Re.Chr "-") (Re.Grp "post_n1" (Re.Plus Packaging.D)))
       (Re.Seq (Re.Opt Packaging.SEP) (Re.Seq (Re.Grp "post_l" Packaging.re_post_l)
          (Re.Seq (Re.Opt Packaging.SEP)
             (Re.Opt (Re.Grp "post_n2" (Re.Plus Packaging.D))))))).

Definition dev_group : Re.regex :=
  Re.Grp "dev"
    (Re.Seq (Re.Opt Packaging.SEP) (Re.Seq (Re.Grp "dev_l" (Re.LitI "dev"))
       (Re.Seq (Re.Opt Packaging.SEP)
          (Re.Opt (Re.Grp "dev_n" (Re.Plus Packaging.D)))))).

Definition local_group : Re.regex :=
  Re.Seq (Re.Chr "+") (Re.Grp "local" Packaging.re_local_body).

(** A text that starts with a decimal numeral. *)
Definition digit_head (s : string) : Prop :=
  exists c x, s = String c x /\ Py.is_digit c = true.

(** Letters and local parts as a canonical version has them. *)
Definition pre_ok (pre : option (string * N)) : Prop :=
  match pre with
  | Some (l, _) => l = "a" \/ l = "b" \/ l = "rc"
  | None => True
  end.

Definition local_ok (loc : option (list string)) : Prop :=
  match loc with
  | Some parts => parts <> [] /\ Forall (chunk_ok Packaging.is_alnum_i) parts
  | None => True
  end.

(** The text [str] prints, part by part. *)
Definition loc_texts (v : Packaging._Version) : option (list string) :=
  option_map (map Packaging.str_local_part) (Packaging.local v).

(** *** Dot-separated alphanumerics *)

(** Dot-separated alphanumerics: chunks of [[a-z0-9]] with single dots
    between them.  [after_dot] tells whether a chunk has to start here. *)
Fixpoint dotted (after_dot : bool) (s : string) : bool :=
  match s with
  | EmptyString => negb after_dot
  | String c s' =>
      if Py.eqc c dot then negb after_dot && dotted true s'
      else az09 c && dotted false s'
  end.

(** No two dots in a row, nothing but dots and [[a-z0-9]]. *)
Fixpoint no_dd (after_dot : bool) (s : string) : bool :=
  match s with
  | EmptyString => true
  | String c s' =>
      if Py.eqc c dot then negb after_dot && no_dd true s'
      else az09 c && no_dd false s'
  end.

(** The separator of the sanitized text. *)
Definition is_dot (c : ascii) : bool := Py.eqc c dot.

(** *** Invariants of the archive *)

(** The header every member is written with: the date 1980-01-01
    00:00:00, [create_system] 3 (Unix), and [0o777 << 16] as external
    attributes, whose upper half is the Unix mode [rwxrwxrwx]. *)
Definition header_fixed (zi : Zipfile.ZipInfo) : Prop :=
  Zipfile.date_time zi = (1980, 1, 1, 0, 0, 0)%Z
  /\ Zipfile.create_system zi = 3%Z
  /\ Zipfile.external_attr zi = Z.shiftl 511 16
  /\ Z.shiftr (Zipfile.external_attr zi) 16 = 511%Z.

(** The RECORD entry of a member: the digest of the bytes written and
    their number. *)
Definition recorded (m : Zipfile.ZipInfo * list byte)
           (r : string * list byte * list byte) : Prop :=
  snd (fst r)
  = Py.b "sha256="
    ++ bytes_rstrip (Py.b "=")
         (Base64.urlsafe_b64encode (Hashlib.sha256_digest (snd m)))
  /\ snd r = Py.b (Py.str_of_int (N.of_nat (length (snd m)))).

(** A name that does not begin with ["/"]. *)
Definition no_leading_slash (s : string) : Prop :=
  match s with
  | String c _ => c <> "/"%char
  | EmptyString => True
  end.

(** What a method added to the archive: members and RECORD entries, in
    step. *)
Definition extends (P : Zipfile.ZipInfo * list byte ->
                        string * list byte * list byte -> Prop)
           (self self' : WhlFile._WhlFile) : Prop :=
  exists ms rs,
    WhlFile.filelist self' = WhlFile.filelist self ++ ms
    /\ WhlFile._record self' = WhlFile._record self ++ rs
    /\ Forall2 P ms rs
    /\ WhlFile.closed self' = WhlFile.closed self
    /\ WhlFile._distinfo_dir self' = WhlFile._distinfo_dir self
    /\ WhlFile._strip_path_prefixes self' = WhlFile._strip_path_prefixes self
    /\ WhlFile.zf_filename self' = WhlFile.zf_filename self
    /\ WhlFile.compression self' = WhlFile.compression self.

(** A member as the methods write it. *)
Definition well_written (m : Zipfile.ZipInfo * list byte)
           (r : string * list byte * list byte) : Prop :=
  header_fixed (fst m)
  /\ recorded m r
  /\ no_leading_slash (Zipfile.filename (fst m))
  /\ Zipfile.filename (fst m)
     = Zipfile.until_nul (Py.lstrip "/" (fst (fst r))).

(** *** Shapes of a run *)

(** The events of members written, in order. *)
Definition member_events (ms : list (Zipfile.ZipInfo * list byte))
  : list event :=
  map (fun m => EvMember (Zipfile.filename (fst m))) ms.

(** The [WheelMaker] that [main] builds from the command line. *)
Definition maker_of (a : arguments) : result Maker.WheelMaker :=
  Maker.__init__ (name a) (version a) (build_tag a) (python_tag a)
    (abi a) (platform a) (out a) (Some (strip_path_prefix a))
    (negb (noincompatible_normalize_name a))
    (negb (noincompatible_normalize_version a)).

(** A step that works on the open archive and does nothing else: the
    members it adds are the events it logs. *)
Definition archive_step {A : Type} (m : Maker.M A) : Prop :=
  forall st f,
    Maker._whlfile st = Some f ->
    exists f',
      Maker._whlfile (snd (m st)) = Some f'
      /\ extends well_written f f'
      /\ Maker.log (snd (m st)) = Maker.log st ++ Maker.written f f'
      /\ Maker.on_disk (snd (m st)) = Maker.on_disk st.

(** The body of the [with] statement: archive steps, then the name file
    as the last effect of a run that did not fail. *)
Definition body_step (w : world) (m : Maker.M unit)
           (name_file : option string) (n : string) : Prop :=
  forall st f,
    Maker._whlfile st = Some f ->
    exists f',
      Maker._whlfile (snd (m st)) = Some f'
      /\ extends well_written f f'
      /\ Maker.on_disk (snd (m st)) = Maker.on_disk st
      /\ ((exists p, fst (m st) = Ok tt /\ name_file = Some p
                       /\ os_error w WriteNameFile = None
                       /\ Maker.log (snd (m st))
                          = Maker.log st ++ Maker.written f f'
                            ++ [EvWriteText p n])
          \/ (exists e, fst (m st) = Raise e
                        /\ Maker.log (snd (m st))
                           = Maker.log st ++ Maker.written f f')).

(** The shapes a run can take.  The members logged are those of the
    archive, in order. *)
Inductive run_shape (a : arguments) (w : world)
  : result unit * Maker.state -> Prop :=
| run_not_started e :
    run_shape a w (Raise e, initial)
| run_failed e maker f :
    maker_of a = Ok maker ->
    WhlFile.closed f = true ->
    Forall2 well_written (WhlFile.filelist f) (WhlFile._record f) ->
    run_shape a w
      (Raise e,
       Maker.mkState None (Some f)
         ([EvOpen (Maker.filename maker)]
          ++ member_events (WhlFile.filelist f)
          ++ [EvClose (Maker.filename maker)]))
| run_completed maker p f :
    maker_of a = Ok maker ->
    name_file a = Some p ->
    WhlFile.closed f = true ->
    Forall2 well_written (WhlFile.filelist f) (WhlFile._record f) ->
    run_shape a w
      (Ok tt,
       Maker.mkState None (Some f)
         ([EvOpen (Maker.filename maker)]
          ++ member_events (WhlFile.filelist f)
          ++ [EvWriteText p (Maker.wheelname maker);
              EvClose (Maker.filename maker)]))
| run_not_closed e maker f written_name :
    maker_of a = Ok maker ->
    os_error w CloseArchive = Some e ->
    written_name = []
    \/ (exists p, name_file a = Some p
                  /\ written_name = [EvWriteText p (Maker.wheelname maker)]) ->
    run_shape a w
      (Raise e,
       Maker.mkState (Some f) None
         ([EvOpen (Maker.filename maker)]
          ++ member_events (WhlFile.filelist f) ++ written_name)).

(** *** The input file list *)

(** The input file list as [main] has it: one two-element list per
    [package_path;real_path] argument. *)
Definition input_pairs (l : list (string * string)) : list (list string) :=
  map (fun pr => [fst pr; snd pr]) l.

(** The source path the last entry for [package_path] gives. *)
Fixpoint last_source (package_path : string) (l : list (string * string))
  : option string :=
  match l with
  | [] => None
  | (p, r) :: l' =>
      match last_source package_path l' with
      | Some x => Some x
      | None => if String.eqb p package_path then Some r else None
      end
  end.

(** *** The lines of METADATA *)

(** The lines of a text, cut at every newline. *)
Definition lines (s : string) : list string :=
  Py.split_on (Py.eqc Re.newline) s.

(** Every line that starts with ["Name: "] becomes ["Name: " + name]; the
    other lines and the line breaks stay. *)
Definition rewrite_name_line (name line : string) : string :=
  if Py.startswith line "Name: " then "Name: " +:+ name else line.

Definition rewrite_name_lines (name metadata : string) : string :=
  Py.join nl (map (rewrite_name_line name) (lines metadata)).

(** Only the first such line is rewritten. *)
Fixpoint rewrite_first (name : string) (ls : list string) : list string :=
  match ls with
  | [] => []
  | l :: ls' =>
      if Py.startswith l "Name: " then ("Name: " +:+ name) :: ls'
      else l :: rewrite_first name ls'
  end.

Definition rewrite_first_name_line (name metadata : string) : string :=
  Py.join nl (rewrite_first name (lines metadata)).

(** The escape character of replacement templates. *)
Definition backslash : ascii := ascii_of_N 92.

(** The template of a replacement text without escapes: its characters,
    one by one. *)
Fixpoint lits (s : string) : list Template.item :=
  match s with
  | EmptyString => []
  | String c s' => Template.Lit (String c "") :: lits s'
  end.

(** At the end of a line: nothing follows, or a newline does. *)
Definition line_end (s : string) : Prop :=
  s = "" \/ exists r, s = String Re.newline r.

(** The character before the position reached after [t]; [p] when [t]
    is empty. *)
Fixpoint lastp (p : option ascii) (t : string) : option ascii :=
  match t with
  | EmptyString => p
  | String c t' => lastp (Some c) t'
  end.

(** *** Results of the methods, wording of the claims, samples *)

(** The header [_zipinfo] builds for [filename]. *)
Definition fixed_header (self : WhlFile._WhlFile) (filename : string)
  : Zipfile.ZipInfo :=
  Zipfile.mkZipInfo (Zipfile.until_nul (Py.lstrip "/" filename))
    (1980, 1, 1, 0, 0, 0)%Z 3 (Z.shiftl 511 16) (WhlFile.compression self).

(** The bytes [add_string] writes. *)
Definition data_of (c : WhlFile.contents) : list byte :=
  match c with
  | WhlFile.Text s => Py.encode s
  | WhlFile.Bytes b => b
  end.

(** ["sha256="], then the URL-safe base64 text of the SHA-256 digest of
    [data] without its padding. *)
Definition digest_of (data : list byte) : list byte :=
  Py.b "sha256="
  ++ bytes_rstrip (Py.b "=")
       (Base64.urlsafe_b64encode (Hashlib.sha256_digest data)).

(** The archive after one more member [data] under the header [zi], with
    its RECORD entry under [path]. *)
Definition with_member (self : WhlFile._WhlFile) (zi : Zipfile.ZipInfo)
           (data : list byte) (path : string) : WhlFile._WhlFile :=
  WhlFile.mkWhlFile (WhlFile.zf_filename self) (WhlFile.compression self)
    (WhlFile.filelist self ++ [(zi, data)])
    (WhlFile.closed self) (WhlFile._distinfo_dir self)
    (WhlFile._strip_path_prefixes self)
    (WhlFile._record self
     ++ [(path, digest_of data,
          Py.b (Py.str_of_int (N.of_nat (length data))))]).

(** Does a name, or a line, begin with ["/"]? *)
Definition leading_slash (s : string) : bool :=
  match s with
  | String c _ => Py.eqc c "/"
  | EmptyString => false
  end.

Definition bytes_leading_slash (l : list byte) : bool :=
  match l with
  | x :: _ => Byte.eqb x (byte_of_ascii "/")
  | [] => false
  end.

(** Does a digest text end with the padding character? *)
Definition ends_with_pad (l : list byte) : bool :=
  match rev l with
  | x :: _ => Byte.eqb x (byte_of_ascii "=")
  | [] => false
  end.

(** The names, the bytes stored under a name, and the RECORD paths of an
    archive. *)
Definition member_names (f : WhlFile._WhlFile) : list string :=
  map (fun m => Zipfile.filename (fst m)) (WhlFile.filelist f).

Definition members_named (n : string) (f : WhlFile._WhlFile)
  : list (list byte) :=
  map snd (List.filter (fun m => String.eqb (Zipfile.filename (fst m)) n)
             (WhlFile.filelist f)).

Definition record_paths (f : WhlFile._WhlFile) : list string :=
  map (fun e => fst (fst e)) (WhlFile._record f).

(** The class the specification names for [escape_filename_segment]:
    everything but ASCII letters, digits, ["."] and ["_"]. *)
Definition spec_outside_class (c : ascii) : bool :=
  negb (Py.is_upper_az c || Py.is_lower_az c || Py.is_digit c
        || Py.eqc c dot || Py.eqc c underscore).

Definition spec_escape_segment (s : string) : string :=
  replace_runs spec_outside_class "_" false s.

(** The head of METADATA as the specification words it: the first
    [Name: ] line only, rewritten to the normalized name. *)
Definition spec_metadata_head (name metadata : string) : string :=
  rewrite_first_name_line (normalize_package_name name) metadata.

(** The text of METADATA: every [Name: ] line rewritten to [name], then
    the version, an empty line and the description. *)
Definition metadata_rewritten (metadata name : string)
           (description : option string) (version : string) : string :=
  rewrite_name_lines name metadata
  +:+ "Version: " +:+ version +:+ nl +:+ nl
  +:+ (if Maker.truthy description
       then match description with Some d => d | None => "" end
       else "UNKNOWN")
  +:+ nl.

(** A small run of the tool: two source files (modes [0o644] and
    [0o755]), a metadata file with two [Name: ] lines, no call that the
    operating system refuses, and the command line of a pure-Python
    wheel. *)
Definition sample_world : world :=
  mkWorld
    (fun p =>
       if String.eqb p "src/one.txt"
       then Some (File (Py.b "one") 1700000000 420)
       else if String.eqb p "src/two.txt"
       then Some (File (Py.b "two") 1700000001 493)
       else None)
    (fun p =>
       if String.eqb p "METADATA.in"
       then Some ("Name: first" +:+ nl +:+ "Summary: s" +:+ nl
                  +:+ "Name: second" +:+ nl)
       else None)
    (fun _ => None).

Definition sample_arguments (input_files : list (list string)) : arguments :=
  mkArguments "My.Pkg" "1.0" "" "py3" "none" "any" (Some "out.whl")
    (Some "name.txt") [] (Some "METADATA.in") None None input_files []
    false false.

(** The same archive path given twice, with different sources. *)
Definition duplicate_run : result unit * Maker.state :=
  main (sample_arguments [["pkg/a.txt"; "src/one.txt"];
                          ["pkg/a.txt"; "src/two.txt"]]) sample_world.

(** An archive object with strip prefixes, and what [add_file] then
    [add_recordfile] leave in it. *)
Definition stripping (prefixes : list string) : WhlFile._WhlFile :=
  WhlFile.__init__ "w.whl" "d-1.0.dist-info/" (Some prefixes).

Definition stripped_archive (prefixes : list string) (path : string)
  : WhlFile._WhlFile :=
  snd (WhlFile.add_recordfile
         (snd (WhlFile.add_file sample_world path "src/one.txt"
                 (stripping prefixes)))).

(** Code point 233, a Latin-1 letter. *)
Definition e_acute : ascii := ascii_of_N 233.

(** [n] letters separated by single hyphens. *)
Definition hyphenated (n : nat) : string := Py.join "-" (repeat "a" n).

(** *** Characters of names and versions *)

(** The characters of a normalized version: digits, [a-z], and the
    punctuation [.], [!] and [+]. *)
Definition version_char (c : ascii) : bool :=
  Py.is_digit c || Py.is_lower_az c || Py.mem c ".!+".

(** The characters of an escaped distribution name: anything but a
    hyphen, a dot or an ASCII capital. *)
Definition fragment_char (c : ascii) : bool :=
  negb (Py.eqc c hyphen) && negb (Py.eqc c dot) && negb (Py.is_upper_az c).

(** Anything but a hyphen; anything but a slash. *)
Definition not_hyphen (c : ascii) : bool := negb (Py.eqc hyphen c).

Definition not_slash (c : ascii) : bool := negb (Py.eqc os_path_sep c).

(** The characters [escape_filename_segment] lets through. *)
Definition segment_char (c : ascii) : bool := negb (not_word_digit_dot c).

(** *** The files below a path *)

(** The regular files at and below a node, each with the package path
    [add_file] gives it, in the order [add_file] walks them. *)
Fixpoint files_below (package_filename : string) (n : node)
  : list (string * list byte) :=
  match n with
  | File content _ _ => [(package_filename, content)]
  | Dir children =>
      (fix each (l : list (string * node)) : list (string * list byte) :=
         match l with
         | [] => []
         | (file_, child) :: l' =>
             files_below (package_filename +:+ "/" +:+ file_) child
             ++ each l'
         end) children
  end.

(** The member and the RECORD entry of one file: the header of its
    stripped name over its bytes, and its stripped name with the digest
    and the size of its bytes. *)
Definition member_of (self : WhlFile._WhlFile) (pc : string * list byte)
  : Zipfile.ZipInfo * list byte :=
  (fixed_header self (WhlFile.arcname_from self (fst pc)), snd pc).

Definition record_of (self : WhlFile._WhlFile) (pc : string * list byte)
  : string * list byte * list byte :=
  (WhlFile.arcname_from self (fst pc), digest_of (snd pc),
   Py.b (Py.str_of_int (N.of_nat (length (snd pc))))).

(** The archive with the members and entries of the files [l] added, in
    order. *)
Definition with_files (self : WhlFile._WhlFile)
           (l : list (string * list byte)) : WhlFile._WhlFile :=
  WhlFile.mkWhlFile (WhlFile.zf_filename self) (WhlFile.compression self)
    (WhlFile.filelist self ++ map (member_of self) l)
    (WhlFile.closed self) (WhlFile._distinfo_dir self)
    (WhlFile._strip_path_prefixes self)
    (WhlFile._record self ++ map (record_of self) l).

(** A source tree: a package directory with a module, a data directory
    holding one file, and an empty directory. *)
Definition sample_tree : node :=
  Dir [("__init__.py", File (Py.b "import os") 1700000000 420);
       ("data", Dir [("table.csv", File (Py.b "1,2") 1700000002 384)]);
       ("empty", Dir [])].

Definition tree_world : world :=
  mkWorld (fun p => if String.eqb p "bazel-out/pkg" then Some sample_tree
                    else None)
          (fun _ => None) (fun _ => None).

(** The regular files of the sources of the entries [all], each with
    its package path, in the order of the entries. *)
Definition input_members (w : world) (all : list (string * string))
  : list (string * list byte) :=
  flat_map (fun pr => match fs w (snd pr) with
                      | Some n => files_below (fst pr) n
                      | None => []
                      end) all.

(** The files that [main] adds to the dist-info directory besides
    WHEEL, METADATA and RECORD, each with its path in the archive: the
    entry points, when a file is given, and the extra files, sorted. *)
Definition extra_pairs (self : WhlFile._WhlFile) (extra : list (list string))
  : list (string * string) :=
  flat_map (fun x => match x with
                     | [filename; real_path] =>
                         [(WhlFile.distinfo_path self filename, real_path)]
                     | _ => []
                     end) extra.

Definition distinfo_entries (a : arguments) (self : WhlFile._WhlFile)
  : list (string * string) :=
  (if Maker.truthy (entry_points_file a)
   then [(WhlFile.distinfo_path self "entry_points.txt",
          match entry_points_file a with Some p => p | None => "" end)]
   else [])
  ++ extra_pairs self (sorted_lists (extra_distinfo_file a)).

(** The archive with one more member of the dist-info directory. *)
Definition with_distinfo (self : WhlFile._WhlFile) (basename : string)
           (data : list byte) : WhlFile._WhlFile :=
  with_member self (fixed_header self (WhlFile.distinfo_path self basename))
    data (WhlFile.distinfo_path self basename).

(** The text of WHEEL for the three tags. *)
Definition wheel_text (python_tag abi platform : string) : string :=
  "Wheel-Version: 1.0" +:+ nl
  +:+ "Generator: bazel-wheelmaker 1.0" +:+ nl
  +:+ "Root-Is-Purelib: "
  +:+ (if String.eqb platform "any" then "true" else "false") +:+ nl
  +:+ "Tag: " +:+ python_tag +:+ "-" +:+ abi +:+ "-" +:+ platform +:+ nl.

(** The archive when the body of the [with] statement has added its
    members, RECORD apart: the input files, WHEEL, METADATA, the entry
    points and the extra files. *)
Definition before_record (a : arguments) (w : world)
           (all_files : list (string * string)) (wheel text : string)
           (self : WhlFile._WhlFile) : WhlFile._WhlFile :=
  with_files
    (with_distinfo
       (with_distinfo (with_files self (input_members w all_files))
          "WHEEL" (Py.encode wheel))
       "METADATA" (Py.encode text))
    (input_members w (distinfo_entries a self)).

(** *** Counting separators *)

(** How often the character [c] occurs in [s]. *)
Fixpoint count_char (c : ascii) (s : string) : nat :=
  match s with
  | EmptyString => 0
  | String x s' => (if Py.eqc c x then 1 else 0) + count_char c s'
  end.

(** An entry with exactly one [";"]. *)
Definition one_separator (entry : string) : bool :=
  Nat.eqb (count_char ";" entry) 1.

(** The same command line with other input files. *)
Definition with_input_files (a : arguments) (l : list (list string))
  : arguments :=
  mkArguments (name a) (version a) (build_tag a) (python_tag a) (abi a)
    (platform a) (out a) (name_file a) (strip_path_prefix a)
    (metadata_file a) (description_file a) (entry_points_file a) l
    (extra_distinfo_file a) (noincompatible_normalize_name a)
    (noincompatible_normalize_version a).

(** A line of a status file the loop of [resolve_argument_stamp] skips
    or can unpack: an empty line, or one with a space. *)
Definition stamp_line_ok (line : string) : bool :=
  negb (Maker.nonempty line) || Py.mem " " line.

(** A character that is no line boundary and no [";"]. *)
Definition path_char (c : ascii) : bool :=
  negb (is_linebreak c) && negb (Py.eqc ";" c).

(** A list file: one line [package_path;real_path] for each pair, each
    ended by a line feed. *)
Fixpoint list_file_text (pairs : list (string * string)) : string :=
  match pairs with
  | [] => EmptyString
  | (package_path, real_path) :: rest =>
      package_path +:+ ";" +:+ real_path +:+ nl +:+ list_file_text rest
  end.

(** Two status files (a key with a value, an empty line, a key whose
    value has spaces) and a list file with two entries. *)
Definition stamp_world : world :=
  mkWorld (fun _ => None)
    (fun p =>
       if String.eqb p "volatile-status.txt"
       then Some ("BUILD_TIMESTAMP 1700000000" +:+ nl +:+ nl)
       else if String.eqb p "stable-status.txt"
       then Some ("STABLE_VERSION 1.2.3" +:+ nl
                  +:+ "STABLE_NOTE built on host" +:+ nl)
       else if String.eqb p "files.txt"
       then Some ("pkg/a.txt;src/one.txt" +:+ nl
                  +:+ "pkg/b.txt;src/two.txt" +:+ nl)
       else None)
    (fun _ => None).

(** A command line with one [--input_file] and one [--input_file_list]. *)
Definition list_namespace : Argparse.Namespace :=
  Argparse.mkNamespace "My.Pkg" "1.0" "" "py3" "none" "any"
    (Some "out.whl") (Some "name.txt") [] (Some "METADATA.in") None None
    None (Some ["pkg/c.txt;src/one.txt"]) (Some ["files.txt"]) None None
    None false false.

(** A byte of the URL-safe base64 alphabet: a letter, a digit, [-] or
    [_]. *)
Definition urlsafe_byte (x : byte) : bool :=
  existsb (Byte.eqb x) (Py.b Base64.urlsafe_alphabet).

(** *** Runs with failing calls *)



(** Text given by its code points, all below 256. *)
Definition latin1 (l : list N) : string :=
  string_of_list_ascii (map ascii_of_N l).

(** Version strings of many kinds: valid and not, with placeholders,
    with characters of the upper half of Latin-1. *)
Definition sample_versions : list string :=
  [""; "---"; "1.0"; "v1.0"; " 1.0 "; "1.0.0-RC1"; "1!2.0a1";
   "1.0.post3.dev2+Ubuntu-1"; "0.0.1-alpha_2"; "{BUILD_TIMESTAMP}";
   "1.2.3+{STABLE_GIT}"; "0.1.{BUILD_USER}-x"; "1.0+abc.DEF.007";
   "2023.04.01.dev"; "1.0-1"; "1.0+"; "1.0++x"; "{a}{b}"; "1+I"; "1+KS";
   latin1 [201; 46; 49]%N; latin1 [49; 43; 223]%N;
   latin1 [49; 46; 48; 181]%N; latin1 [49; 178]%N; latin1 [49; 43; 255]%N;
   latin1 [160; 49; 46; 48; 133]%N; latin1 [123; 233; 125; 46; 49]%N].

(** A result on [string] as a result on code points. *)
Definition as_code_points (r : result string) : result Wide.wstr :=
  match r with
  | Ok s => Ok (Wide.w s)
  | Raise e => Raise e
  end.

(* ===================================================================== *)
(** * Properties                                                          *)
(* ===================================================================== *)

(** ** Sample values *)

(** Values CPython 3.11 gives for the same calls. *)

Example lower_sample : Py.lower "Foo__Bar.Baz" = "foo__bar.baz".
Proof. reflexivity. Qed.

Example normalize_package_name_sample :
  normalize_package_name "Foo__Bar.Baz" = "foo-bar-baz".
Proof. reflexivity. Qed.

Example escape_filename_segment_sample :
  escape_filename_segment "a b--c.d_e" = "a_b_c.d_e".
Proof. reflexivity. Qed.

Example strip_sample : Py.strip "." "..a.b.." = "a.b".
Proof. reflexivity. Qed.

Example split_on_sample :
  Py.split_on (Py.eqc dot) "1.20..3" = ["1"; "20"; ""; "3"].
Proof. reflexivity. Qed.

Example normalize_pep440_pre : normalize_pep440 "1.0-beta" = Ok "1.0b0".
Proof. reflexivity. Qed.

Example normalize_pep440_placeholder :
  normalize_pep440 "{BUILD_TIMESTAMP}" = Ok "0+build.timestamp".
Proof. reflexivity. Qed.

Example normalize_pep440_release_placeholder :
  normalize_pep440 "1.0.{X}" = Ok "1.0.0+1.0.x".
Proof. reflexivity. Qed.

Example normalize_pep440_local_placeholder :
  normalize_pep440 "1.0+{X}" = Ok "1.0+0.1.0.x".
Proof. reflexivity. Qed.

Example normalize_pep440_full :
  normalize_pep440 " V2!01.2.0RC.post3-dev+A_b-007 "
  = Ok "2!1.2.0rc0.post3.dev0+a.b.7".
Proof. reflexivity. Qed.

Example normalize_pep440_post : normalize_pep440 "1.0-1" = Ok "1.0.post1".
Proof. reflexivity. Qed.

Example normalize_pep440_pre_number : normalize_pep440 "1.0a-1" = Ok "1.0a1".
Proof. reflexivity. Qed.

Example normalize_pep440_preview : normalize_pep440 "1preview2" = Ok "1rc2".
Proof. reflexivity. Qed.

Example sha256_empty :
  Base64.urlsafe_b64encode (Hashlib.sha256_digest [])
  = Py.b "47DEQpj8HBSa-_TImW-5JCeuQeRkm5NMpJWZG3hSuFU=".
Proof. vm_compute. reflexivity. Qed.

Example sha256_abc :
  Base64.urlsafe_b64encode (Hashlib.sha256_digest (Py.b "abc"))
  = Py.b "ungWv48Bz-pBQUDeXa4iI7ADYaOWF3qctBD_YfIAFa0=".
Proof. vm_compute. reflexivity. Qed.

Example sha256_55 :
  Base64.urlsafe_b64encode (Hashlib.sha256_digest (repeat (byte_of_Z 97) 55))
  = Py.b "n0OQ-NMMLdkuyfCVtl4rmumwqSWlJY4kHJ8ekQ9zQxg=".
Proof. vm_compute. reflexivity. Qed.

Example sha256_56 :
  Base64.urlsafe_b64encode (Hashlib.sha256_digest (repeat (byte_of_Z 97) 56))
  = Py.b "s1Q5pKxvCUi21vnjxq8PX1kM4g8b3nCQ73lwaG7Gc4o=".
Proof. vm_compute. reflexivity. Qed.

Example sha256_64 :
  Base64.urlsafe_b64encode (Hashlib.sha256_digest (repeat (byte_of_Z 97) 64))
  = Py.b "_-BU_nrgy23GXDr5th1SCfQ5hR20PQulmXM33xVGaOs=".
Proof. vm_compute. reflexivity. Qed.

Example sha256_119 :
  Base64.urlsafe_b64encode (Hashlib.sha256_digest (repeat (byte_of_Z 97) 119))
  = Py.b "MeulHDE6XAgiat8Y1KNZz9_Y0ugWsT9K-VL36mWE3Ps=".
Proof. vm_compute. reflexivity. Qed.

Example urlsafe_b64encode_sample :
  Base64.urlsafe_b64encode [byte_of_Z 251; byte_of_Z 255] = Py.b "-_8="
  /\ Base64.urlsafe_b64encode [byte_of_Z 251] = Py.b "-w==".
Proof. vm_compute. split; reflexivity. Qed.

Example Path_name_sample :
  Path_name "my_pkg-1.0.dist-info/" = "my_pkg-1.0.dist-info"
  /\ Path_name "a/b-1.dist-info/" = "b-1.dist-info".
Proof. vm_compute. split; reflexivity. Qed.

(** ** [re.sub] of a repeated character class *)

Lemma length_dropwhile f s :
  String.length s = span f s + String.length (dropwhile f s).
Proof.
  induction s as [|c s IH]; simpl; auto.
  destruct (f c); simpl; auto.
Qed.

Lemma star_cls_accept f : forall s n p (g : Re.groups),
  String.length s <= n ->
  Re.star_loop (Re.exec (Re.Cls f)) (fun _ s' g' => Some (g', s')) n p s g
  = Some (g, dropwhile f s).
Proof.
  induction s as [|c s IH]; intros n p g Hn.
  - destruct n; reflexivity.
  - destruct n as [|n]; [simpl in Hn; lia|].
    simpl. destruct (f c) eqn:Hc; [|reflexivity].
    destruct (String.length s <? S (String.length s))%nat eqn:E.
    + rewrite IH by (simpl in Hn; lia). reflexivity.
    + apply Nat.ltb_ge in E. lia.
Qed.

Lemma match_at_plus_cls f p c s :
  Re.match_at (Re.Plus (Re.Cls f)) p (String c s)
  = if f c then Some ([], dropwhile f s) else None.
Proof.
  unfold Re.match_at, Re.Plus. simpl.
  destruct (f c); [|reflexivity].
  apply star_cls_accept. lia.
Qed.

Lemma replace_runs_clean bad r s :
  count_runs bad false s = 0 -> replace_runs bad r false s = s.
Proof.
  induction s as [|c s IH]; simpl; auto.
  destruct (bad c); [discriminate|]. intros H. now rewrite IH.
Qed.

Lemma sub_scan_runs f r : forall s left p,
  (fits left (count_runs f false s) ->
   Re.sub_scan (Re.Plus (Re.Cls f)) (fun _ => r) left 0 p s
   = replace_runs f r false s)
  /\ (fits left (count_runs f true s) ->
      Re.sub_scan (Re.Plus (Re.Cls f)) (fun _ => r) left (span f s) p s
      = replace_runs f r true s).
Proof.
  induction s as [|c s IH]; intros left p.
  - split; reflexivity.
  - assert (A : fits left (count_runs f false (String c s)) ->
      Re.sub_scan (Re.Plus (Re.Cls f)) (fun _ => r) left 0 p (String c s)
      = replace_runs f r false (String c s)).
    { intros Hfit. cbn [Re.sub_scan].
      destruct left as [[|m]|].
      - unfold fits in Hfit. symmetry. apply replace_runs_clean. lia.
      - rewrite match_at_plus_cls. simpl in *. destruct (f c) eqn:Hc.
        + pose proof (length_dropwhile f s) as L.
          replace (S (String.length s) - String.length (dropwhile f s))
            with (S (span f s)) by lia.
          f_equal. apply (proj2 (IH (Some m) (Some c))). simpl. lia.
        + f_equal. apply (proj1 (IH (Some (S m)) (Some c))). exact Hfit.
      - rewrite match_at_plus_cls. simpl in *. destruct (f c) eqn:Hc.
        + pose proof (length_dropwhile f s) as L.
          replace (S (String.length s) - String.length (dropwhile f s))
            with (S (span f s)) by lia.
          f_equal. apply (proj2 (IH None (Some c))). exact I.
        + f_equal. apply (proj1 (IH None (Some c))). exact I. }
    split; [exact A|].
    intros Hfit. simpl in Hfit |- *. destruct (f c) eqn:Hc.
    + apply (proj2 (IH left (Some c))). exact Hfit.
    + specialize (A ltac:(simpl; rewrite Hc; exact Hfit)).
      cbn [replace_runs] in A. rewrite Hc in A. exact A.
Qed.

Lemma sub_plus_cls_all f r s :
  Re.sub (Re.Plus (Re.Cls f)) (fun _ => r) s 0 = replace_runs f r false s.
Proof. unfold Re.sub. apply sub_scan_runs. exact I. Qed.

Lemma sub_plus_cls_count f r s n :
  0 < n -> count_runs f false s <= n ->
  Re.sub (Re.Plus (Re.Cls f)) (fun _ => r) s n = replace_runs f r false s.
Proof.
  intros Hn Hc. unfold Re.sub. destruct n; [lia|].
  apply sub_scan_runs. exact Hc.
Qed.

(** ** The language of a pattern and the soundness of the matcher *)

Lemma app_cons_s c (a b : string) : String c a +:+ b = String c (a +:+ b).
Proof. reflexivity. Qed.

Lemma app_nil_l_s (b : string) : "" +:+ b = b.
Proof. reflexivity. Qed.

Ltac sapp := rewrite ?app_cons_s, ?app_nil_l_s in *.

Lemma app_assoc_s (a b c : string) : (a +:+ b) +:+ c = a +:+ (b +:+ c).
Proof. induction a; sapp; simpl; congruence. Qed.

Lemma app_nil_r_s (a : string) : a +:+ "" = a.
Proof. induction a; sapp; simpl; congruence. Qed.

Lemma length_app_s (a b : string) :
  String.length (a +:+ b) = String.length a + String.length b.
Proof. induction a; sapp; simpl; congruence. Qed.

Lemma take_app_s (a b : string) : Py.take (String.length a) (a +:+ b) = a.
Proof. induction a; sapp; simpl; congruence. Qed.

Lemma take_consumed (t s' : string) :
  Py.take (String.length (t +:+ s') - String.length s') (t +:+ s') = t.
Proof.
  rewrite length_app_s.
  replace (String.length t + String.length s' - String.length s')
    with (String.length t) by lia.
  apply take_app_s.
Qed.

Section Sound.
Context {R : Type}.

Definition sound_at (r : Re.regex)
           (body : option ascii -> string -> Re.groups ->
                   @Re.cont R -> option R) : Prop :=
  forall p s g (k : Re.cont) res,
    body p s g k = Some res ->
    exists t s' p' gr,
      s = t +:+ s' /\ lang r t gr /\ k p' s' (gr ++ g) = Some res.

Lemma star_loop_sound r body :
  sound_at r body ->
  forall n p s g (k : Re.cont) res,
    Re.star_loop body k n p s g = Some res ->
    exists t s' p' gr,
      s = t +:+ s' /\ lang (Re.Star r) t gr
      /\ k p' s' (gr ++ g) = Some res.
Proof.
  intros Hb. induction n as [|n IH]; intros p s g k res H.
  - exists "", s, p, []. repeat split; auto. constructor.
  - simpl in H.
    destruct (body p s g _) as [x|] eqn:E.
    + inversion H; subst x; clear H.
      apply Hb in E.
      destruct E as (t1 & s1 & p1 & g1 & -> & L1 & K1).
      destruct (_ <? _)%nat; [|discriminate].
      apply IH in K1.
      destruct K1 as (t2 & s2 & p2 & g2 & -> & L2 & K2).
      exists (t1 +:+ t2), s2, p2, (g2 ++ g1).
      rewrite app_assoc_s, <- app_assoc. repeat split; auto.
      now constructor.
    + exists "", s, p, []. repeat split; auto. constructor.
Qed.

Lemma exec_sound : forall r, sound_at r (Re.exec r).
Proof.
  induction r as [|f|r1 IH1 r2 IH2|r1 IH1 r2 IH2|r1 IH1|n r1 IH1|m|m];
    intros p s g k res H; simpl in H.
  - exists "", s, p, []. repeat split; auto. constructor.
  - destruct s as [|c s]; [discriminate|].
    destruct (f c) eqn:Hc; [|discriminate].
    exists (String c ""), s, (Some c), []. repeat split; auto.
    now constructor.
  - apply IH1 in H.
    destruct H as (t1 & s1 & p1 & g1 & -> & L1 & K1).
    apply IH2 in K1.
    destruct K1 as (t2 & s2 & p2 & g2 & -> & L2 & K2).
    exists (t1 +:+ t2), s2, p2, (g2 ++ g1).
    rewrite app_assoc_s, <- app_assoc. repeat split; auto.
    now constructor.
  - destruct (Re.exec r1 p s g k) as [x|] eqn:E.
    + inversion H; subst x; clear H.
      apply IH1 in E.
      destruct E as (t1 & s1 & p1 & g1 & -> & L1 & K1).
      exists t1, s1, p1, g1. repeat split; auto. now apply lang_alt_l.
    + apply IH2 in H.
      destruct H as (t1 & s1 & p1 & g1 & -> & L1 & K1).
      exists t1, s1, p1, g1. repeat split; auto. now apply lang_alt_r.
  - eapply star_loop_sound; eauto.
  - apply IH1 in H.
    destruct H as (t1 & s1 & p1 & g1 & -> & L1 & K1).
    rewrite take_consumed in K1.
    exists t1, s1, p1, ((n, t1) :: g1). repeat split; auto.
    now constructor.
  - destruct (Re.at_bol m p); [|discriminate].
    exists "", s, p, []. repeat split; auto. constructor.
  - destruct (Re.at_eol m s); [|discriminate].
    exists "", s, p, []. repeat split; auto. constructor.
Qed.
End Sound.

Lemma match_at_sound r p s g rest :
  Re.match_at r p s = Some (g, rest) -> exists t, lang r t g.
Proof.
  unfold Re.match_at. intros E. apply exec_sound in E.
  destruct E as (t & s' & p' & g1 & _ & L & K).
  inversion K; subst. rewrite app_nil_r. eauto.
Qed.

Lemma search_from_sound r : forall s p g,
  Re.search_from r p s = Some g -> exists t, lang r t g.
Proof.
  induction s as [|c s IH]; intros p g H; simpl in H.
  - destruct (Re.match_at r p "") as [[g' rest]|] eqn:E; [|discriminate].
    inversion H; subst g'. eapply match_at_sound; eauto.
  - destruct (Re.match_at r p (String c s)) as [[g' rest]|] eqn:E.
    + inversion H; subst g'. eapply match_at_sound; eauto.
    + eauto.
Qed.

(** ** The shape of a match of the version pattern *)

Ltac char_cases c :=
  destruct c as [[] [] [] [] [] [] [] []]; vm_compute; try reflexivity;
  try discriminate; try congruence; auto.

Lemma lang_eps_inv t g : lang Re.Eps t g -> t = "" /\ g = [].
Proof. inversion 1; auto. Qed.

Lemma lang_cls_inv f t g :
  lang (Re.Cls f) t g -> exists c, t = String c "" /\ f c = true /\ g = [].
Proof. inversion 1; subst; eauto. Qed.

Lemma lang_seq_inv r1 r2 t g :
  lang (Re.Seq r1 r2) t g ->
  exists a b ga gb, t = a +:+ b /\ g = gb ++ ga /\ lang r1 a ga /\ lang r2 b gb.
Proof. inversion 1; subst. do 4 eexists; eauto. Qed.

Lemma lang_alt_inv r1 r2 t g :
  lang (Re.Alt r1 r2) t g -> lang r1 t g \/ lang r2 t g.
Proof. inversion 1; subst; auto. Qed.

Lemma lang_opt_inv r t g :
  lang (Re.Opt r) t g -> lang r t g \/ (t = "" /\ g = []).
Proof.
  intros H. apply lang_alt_inv in H as [H|H]; auto.
  right. now apply lang_eps_inv.
Qed.

Lemma lang_grp_inv n r t g :
  lang (Re.Grp n r) t g -> exists g', g = (n, t) :: g' /\ lang r t g'.
Proof. inversion 1; subst; eauto. Qed.

Lemma lang_star_inv r t g :
  lang (Re.Star r) t g ->
  (t = "" /\ g = [])
  \/ exists a b ga gb, t = a +:+ b /\ g = gb ++ ga /\ lang r a ga
                       /\ lang (Re.Star r) b gb.
Proof. inversion 1; subst; auto. right. do 4 eexists; eauto. Qed.

Lemma lang_star_cls f t g :
  lang (Re.Star (Re.Cls f)) t g -> g = [] /\ Py.all f t = true.
Proof.
  intros H. remember (Re.Star (Re.Cls f)) as r eqn:E.
  induction H; inversion E; subst.
  - split; reflexivity.
  - destruct (IHlang2 eq_refl) as [-> Hb].
    apply lang_cls_inv in H as (c & -> & Hc & ->).
    split; auto. sapp. simpl. now rewrite Hc.
Qed.

Lemma lang_plus_cls f t g :
  lang (Re.Plus (Re.Cls f)) t g -> g = [] /\ t <> "" /\ Py.all f t = true.
Proof.
  intros H. apply lang_seq_inv in H as (a & b & ga & gb & -> & -> & Ha & Hb).
  apply lang_cls_inv in Ha as (c & -> & Hc & ->).
  apply lang_star_cls in Hb as [-> Hb].
  sapp. split; [reflexivity|]. split; [discriminate|].
  simpl. now rewrite Hc.
Qed.

Lemma lang_chr c t g : lang (Re.Chr c) t g -> t = String c "" /\ g = [].
Proof.
  intros H. apply lang_cls_inv in H as (x & -> & Hx & ->).
  apply Ascii.eqb_eq in Hx. subst. auto.
Qed.

Lemma lang_chrI c t g :
  lang (Re.ChrI c) t g ->
  exists x, t = String x "" /\ Py.lower_char x = Py.lower_char c /\ g = [].
Proof.
  intros H. apply lang_cls_inv in H as (x & -> & Hx & ->).
  apply Ascii.eqb_eq in Hx. eauto.
Qed.

Lemma lower_app a b : Py.lower (a +:+ b) = Py.lower a +:+ Py.lower b.
Proof. induction a; sapp; simpl; sapp; congruence. Qed.

Lemma lang_litI : forall w t g,
  lang (Re.LitI w) t g -> g = [] /\ Py.lower t = Py.lower w.
Proof.
  induction w as [|c w IH]; intros t g H.
  - apply lang_eps_inv in H as [-> ->]. auto.
  - destruct w as [|d w].
    + apply lang_chrI in H as (x & -> & Hx & ->). simpl. now rewrite Hx.
    + change (Re.LitI (String c (String d w)))
        with (Re.Seq (Re.ChrI c) (Re.LitI (String d w))) in H.
      apply lang_seq_inv in H as (a & b & ga & gb & -> & -> & Ha & Hb).
      apply lang_chrI in Ha as (x & -> & Hx & ->).
      apply IH in Hb as [-> Hb].
      split; auto. sapp. simpl Py.lower at 1. rewrite Hx, Hb. reflexivity.
Qed.

Lemma all_app f a b : Py.all f (a +:+ b) = Py.all f a && Py.all f b.
Proof. induction a; sapp; simpl; auto. rewrite IHa. now rewrite andb_assoc. Qed.

Lemma split_on_nonnil sepf s : Py.split_on sepf s <> [].
Proof.
  destruct s as [|c s]; simpl; [discriminate|].
  destruct (sepf c); [discriminate|]. destruct (Py.split_on sepf s); discriminate.
Qed.

Lemma split_chunk_end f sepf a :
  (forall c, f c = true -> sepf c = false) ->
  Py.all f a = true -> Py.split_on sepf a = [a].
Proof.
  intros Hf. induction a as [|c a IH]; simpl; auto.
  intros H. apply andb_true_iff in H as [Hc Ha].
  rewrite (Hf _ Hc), IH; auto.
Qed.

Lemma split_chunk_sep f sepf a c b :
  (forall c, f c = true -> sepf c = false) ->
  Py.all f a = true -> sepf c = true ->
  Py.split_on sepf (a +:+ String c b) = a :: Py.split_on sepf b.
Proof.
  intros Hf. induction a as [|x a IH]; sapp; simpl; intros Ha Hc.
  - now rewrite Hc.
  - apply andb_true_iff in Ha as [Hx Ha].
    rewrite (Hf _ Hx), IH; auto.
Qed.

Lemma lang_chunks_star f sep sepf :
  (forall c, f c = true -> sepf c = false) ->
  (forall c, sep c = true -> sepf c = true) ->
  forall b g,
    lang (Re.Star (Re.Seq (Re.Cls sep) (Re.Plus (Re.Cls f)))) b g ->
    g = [] /\
    forall a, chunk_ok f a ->
              Forall (chunk_ok f) (Py.split_on sepf (a +:+ b)).
Proof.
  intros Hf Hs b g H.
  remember (Re.Star (Re.Seq (Re.Cls sep) (Re.Plus (Re.Cls f)))) as r eqn:E.
  induction H; inversion E; subst.
  - split; auto. intros a [Ha1 Ha2]. rewrite app_nil_r_s.
    rewrite (split_chunk_end f sepf a Hf Ha2). constructor; [split|]; auto.
  - clear IHlang1. destruct (IHlang2 eq_refl) as [-> IH].
    apply lang_seq_inv in H as (x & y & gx & gy & -> & -> & Hx & Hy).
    apply lang_cls_inv in Hx as (c & -> & Hc & ->).
    apply lang_plus_cls in Hy as (-> & Hy1 & Hy2).
    split; auto. intros a0 [Ha1 Ha2].
    rewrite app_assoc_s. sapp.
    rewrite (split_chunk_sep f sepf a0 c _ Hf Ha2 (Hs _ Hc)).
    constructor; [split; auto|]. apply IH. split; auto.
Qed.

Lemma lang_chunks f sep sepf t g :
  (forall c, f c = true -> sepf c = false) ->
  (forall c, sep c = true -> sepf c = true) ->
  lang (Re.Seq (Re.Plus (Re.Cls f))
          (Re.Star (Re.Seq (Re.Cls sep) (Re.Plus (Re.Cls f))))) t g ->
  g = [] /\ Forall (chunk_ok f) (Py.split_on sepf t).
Proof.
  intros Hf Hs H.
  apply lang_seq_inv in H as (a & b & ga & gb & -> & -> & Ha & Hb).
  apply lang_plus_cls in Ha as (-> & Ha1 & Ha2).
  destruct (lang_chunks_star f sep sepf Hf Hs _ _ Hb) as [-> Hc].
  split; auto. apply Hc. split; auto.
Qed.

(** ** Facts about characters *)

Lemma digit_not_dot c : Py.is_digit c = true -> Py.eqc dot c = false.
Proof. char_cases c. Qed.
Lemma alnum_i_not_sep c : Packaging.is_alnum_i c = true -> is_name_sep c = false.
Proof. char_cases c. Qed.
Lemma digit_lower c : Py.is_digit c = true -> Py.lower_char c = c.
Proof. char_cases c. Qed.

Lemma uint_of_char_digit c u :
  Py.is_digit c = true -> exists u', DecimalString.uint_of_char c (Some u) = Some u'.
Proof.
  destruct c as [[] [] [] [] [] [] [] []]; vm_compute; try discriminate;
    intros _; eexists; reflexivity.
Qed.

Lemma uint_of_string_digits s :
  Py.all Py.is_digit s = true -> exists u, NilEmpty.uint_of_string s = Some u.
Proof.
  induction s as [|c s IH]; simpl; intros H.
  - eexists; reflexivity.
  - apply andb_true_iff in H as [Hc Hs]. destruct (IH Hs) as [u ->].
    now apply uint_of_char_digit.
Qed.

Lemma isdigit_spec s :
  Py.isdigit s = true <-> s <> "" /\ Py.all Py.is_digit s = true.
Proof.
  destruct s; simpl; split.
  - discriminate.
  - intros [H _]. congruence.
  - intros H. split; [discriminate|assumption].
  - intros [_ H]. assumption.
Qed.

Lemma int_isdigit d : Py.isdigit d = true -> exists n, Packaging.int d = Ok n.
Proof.
  intros H. apply isdigit_spec in H as [Hne Hd].
  destruct (uint_of_string_digits d Hd) as [u Hu].
  unfold Packaging.int, Py.int_of_str, NilZero.uint_of_string.
  destruct d; [congruence|]. rewrite Hu. simpl. eauto.
Qed.

Lemma mapM_int_chunks l :
  Forall (chunk_ok Py.is_digit) l -> exists r, mapM Packaging.int l = Ok r
                                               /\ length r = length l.
Proof.
  induction 1 as [|d l [Hd1 Hd2] _ [r [IH Hl]]]; simpl.
  - eexists; split; reflexivity.
  - destruct (int_isdigit d) as [n Hn]; [apply isdigit_spec; auto|].
    rewrite Hn, IH. simpl. eexists; split; [reflexivity|]. simpl. congruence.
Qed.

(** ** The groups of each part of [VERSION_PATTERN] *)

Lemma lang_opt_cls f t g : lang (Re.Opt (Re.Cls f)) t g -> g = [].
Proof.
  intros H. apply lang_opt_inv in H as [H|[_ H]]; auto.
  now apply lang_cls_inv in H as (c & _ & _ & ->).
Qed.

Lemma lang_num_group name t g :
  lang (Re.Opt (Re.Grp name (Re.Plus Packaging.D))) t g -> num_group name g.
Proof.
  intros H. apply lang_opt_inv in H as [H|[_ ->]]; [|now left].
  apply lang_grp_inv in H as (g' & -> & H).
  apply lang_plus_cls in H as (-> & H1 & H2).
  right. exists t. split; auto. now apply isdigit_spec.
Qed.

Lemma lang_letter_number (X : Re.regex) (P : string -> Prop) nl nn t g :
  (forall t g, lang X t g -> g = [] /\ P t) ->
  lang (Re.Seq (Re.Opt Packaging.SEP)
          (Re.Seq (Re.Grp nl X)
             (Re.Seq (Re.Opt Packaging.SEP)
                (Re.Opt (Re.Grp nn (Re.Plus Packaging.D)))))) t g ->
  exists l gn, g = gn ++ [(nl, l)] /\ P l /\ num_group nn gn.
Proof.
  intros HX H.
  apply lang_seq_inv in H as (a & b & ga & gb & -> & -> & Ha & Hb).
  apply lang_opt_cls in Ha as ->.
  apply lang_seq_inv in Hb as (l & c & gl & gc & -> & -> & Hl & Hc).
  apply lang_grp_inv in Hl as (g' & -> & Hl).
  apply HX in Hl as [-> Hl].
  apply lang_seq_inv in Hc as (d & e & gd & ge & -> & -> & Hd & He).
  apply lang_opt_cls in Hd as ->.
  apply lang_num_group in He.
  exists l, ge. rewrite !app_nil_r. auto.
Qed.

Lemma lang_pre_l t g :
  lang Packaging.re_pre_l t g ->
  g = [] /\ letter_in ["a"; "b"; "c"; "rc"; "alpha"; "beta"; "pre"; "preview"] t.
Proof.
  unfold Packaging.re_pre_l, letter_in. intros H.
  repeat (apply lang_alt_inv in H as [H|H];
          [apply lang_litI in H as [-> H]; rewrite H; simpl; tauto|]).
  apply lang_litI in H as [-> H]; rewrite H; simpl; tauto.
Qed.

Lemma lang_post_l t g :
  lang Packaging.re_post_l t g ->
  g = [] /\ letter_in ["post"; "rev"; "r"] t.
Proof.
  unfold Packaging.re_post_l, letter_in. intros H.
  repeat (apply lang_alt_inv in H as [H|H];
          [apply lang_litI in H as [-> H]; rewrite H; simpl; tauto|]).
  apply lang_litI in H as [-> H]; rewrite H; simpl; tauto.
Qed.

Lemma lang_dev_l t g :
  lang (Re.LitI "dev") t g -> g = [] /\ letter_in ["dev"] t.
Proof.
  unfold letter_in. intros H.
  apply lang_litI in H as [-> H]; rewrite H; simpl; tauto.
Qed.

Lemma seg_epoch t g :
  lang Packaging.re_epoch t g -> num_group "epoch" g.
Proof.
  unfold Packaging.re_epoch. intros H.
  apply lang_opt_inv in H as [H|[_ ->]]; [|now left].
  apply lang_seq_inv in H as (a & b & ga & gb & -> & -> & Ha & Hb).
  apply lang_chr in Hb as [_ ->].
  apply lang_grp_inv in Ha as (g' & -> & Ha).
  apply lang_plus_cls in Ha as (-> & H1 & H2).
  right. exists a. split; auto. now apply isdigit_spec.
Qed.

Lemma seg_release t g :
  lang Packaging.re_release t g ->
  g = [("release", t)]
  /\ Forall (chunk_ok Py.is_digit) (Py.split_on (Py.eqc dot) t).
Proof.
  unfold Packaging.re_release. intros H.
  apply lang_grp_inv in H as (g' & -> & H).
  apply (lang_chunks Py.is_digit (Py.eqc ".") (Py.eqc dot)) in H as [-> H].
  - auto.
  - apply digit_not_dot.
  - auto.
Qed.

Lemma seg_pre t g :
  lang Packaging.re_pre t g ->
  g = [] \/
  exists l gn, g = ("pre", t) :: gn ++ [("pre_l", l)]
    /\ letter_in ["a"; "b"; "c"; "rc"; "alpha"; "beta"; "pre"; "preview"] l
    /\ num_group "pre_n" gn.
Proof.
  unfold Packaging.re_pre. intros H.
  apply lang_opt_inv in H as [H|[_ ->]]; [|now left].
  apply lang_grp_inv in H as (g' & -> & H).
  apply (lang_letter_number _ _ _ _ _ _ lang_pre_l) in H
    as (l & gn & -> & Hl & Hn).
  right. eauto.
Qed.

Lemma seg_post t g :
  lang Packaging.re_post t g ->
  g = [] \/
  (exists d, g = [("post", t); ("post_n1", d)] /\ Py.isdigit d = true) \/
  exists l gn, g = ("post", t) :: gn ++ [("post_l", l)]
    /\ letter_in ["post"; "rev"; "r"] l
    /\ num_group "post_n2" gn.
Proof.
  unfold Packaging.re_post. intros H.
  apply lang_opt_inv in H as [H|[_ ->]]; [|now left].
  apply lang_grp_inv in H as (g' & -> & H).
  apply lang_alt_inv in H as [H|H].
  - apply lang_seq_inv in H as (a & b & ga & gb & -> & -> & Ha & Hb).
    apply lang_chr in Ha as [_ ->].
    apply lang_grp_inv in Hb as (g' & -> & Hb).
    apply lang_plus_cls in Hb as (-> & H1 & H2).
    right; left. exists b. split; auto. now apply isdigit_spec.
  - apply (lang_letter_number _ _ _ _ _ _ lang_post_l) in H
      as (l & gn & -> & Hl & Hn).
    right; right. eauto.
Qed.

Lemma seg_dev t g :
  lang Packaging.re_dev t g ->
  g = [] \/
  exists l gn, g = ("dev", t) :: gn ++ [("dev_l", l)]
    /\ letter_in ["dev"] l
    /\ num_group "dev_n" gn.
Proof.
  unfold Packaging.re_dev. intros H.
  apply lang_opt_inv in H as [H|[_ ->]]; [|now left].
  apply lang_grp_inv in H as (g' & -> & H).
  apply (lang_letter_number _ _ _ _ _ _ lang_dev_l) in H
    as (l & gn & -> & Hl & Hn).
  right. eauto.
Qed.

Lemma seg_local t g :
  lang Packaging.re_local t g ->
  g = [] \/
  exists b, g = [("local", b)]
    /\ Forall (chunk_ok Packaging.is_alnum_i) (Py.split_on is_name_sep b).
Proof.
  unfold Packaging.re_local. intros H.
  apply lang_opt_inv in H as [H|[_ ->]]; [|now left].
  apply lang_seq_inv in H as (a & b & ga & gb & -> & -> & Ha & Hb).
  apply lang_chr in Ha as [_ ->].
  apply lang_grp_inv in Hb as (g' & -> & Hb).
  apply (lang_chunks Packaging.is_alnum_i is_name_sep is_name_sep)
    in Hb as [-> Hb].
  - right. eauto.
  - apply alnum_i_not_sep.
  - auto.
Qed.

Lemma regex_segments t m :
  lang Packaging._regex t m ->
  exists te ge tr gr tp gp tpo gpo td gd tl gl,
    m = gl ++ gd ++ gpo ++ gp ++ gr ++ ge
    /\ lang Packaging.re_epoch te ge /\ lang Packaging.re_release tr gr
    /\ lang Packaging.re_pre tp gp /\ lang Packaging.re_post tpo gpo
    /\ lang Packaging.re_dev td gd /\ lang Packaging.re_local tl gl.
Proof.
  unfold Packaging._regex, Packaging.VERSION_PATTERN. intros H.
  apply lang_seq_inv in H as (a1 & b1 & ga1 & gb1 & -> & -> & Ha1 & H).
  inversion Ha1; subst. clear Ha1.
  apply lang_seq_inv in H as (a2 & b2 & ga2 & gb2 & -> & -> & Ha2 & H).
  apply lang_star_cls in Ha2 as [-> _].
  apply lang_seq_inv in H as (a3 & b3 & ga3 & gb3 & -> & -> & H & Hb3).
  apply lang_seq_inv in Hb3 as (a4 & b4 & ga4 & gb4 & -> & -> & Ha4 & Hb4).
  apply lang_star_cls in Ha4 as [-> _].
  inversion Hb4; subst. clear Hb4.
  apply lang_seq_inv in H as (a5 & b5 & ga5 & gb5 & -> & -> & Ha5 & H).
  apply lang_opt_cls in Ha5 as ->.
  apply lang_seq_inv in H as (a6 & tl & ga6 & gl & -> & -> & H & Hl).
  apply lang_seq_inv in H as (te & b7 & ge & gb7 & -> & -> & He & H).
  apply lang_seq_inv in H as (tr & b8 & gr & gb8 & -> & -> & Hr & H).
  apply lang_seq_inv in H as (tp & b9 & gp & gb9 & -> & -> & Hp & H).
  apply lang_seq_inv in H as (tpo & td & gpo & gd & -> & -> & Hpo & Hd).
  exists te, ge, tr, gr, tp, gp, tpo, gpo, td, gd, tl, gl.
  repeat split; auto.
  simpl. rewrite !app_nil_r. rewrite <- !app_assoc. reflexivity.
Qed.

(** ** From the groups of a match to a canonical version *)

Lemma group_app n g1 g2 :
  Re.group n (g1 ++ g2)
  = match Re.group n g1 with Some t => Some t | None => Re.group n g2 end.
Proof.
  induction g1 as [|[n' t'] g1 IH]; simpl; auto.
  destruct (String.eqb n' n); auto.
Qed.

Lemma names_in_nil ns : names_in ns [].
Proof. intros n t []. Qed.

Lemma names_num_group name gn ns :
  num_group name gn -> In name ns -> names_in ns gn.
Proof.
  intros [->|(d & -> & _)] Hn; [apply names_in_nil|].
  intros n t [E|[]]. inversion E; subst; auto.
Qed.

Lemma names_epoch t g :
  lang Packaging.re_epoch t g -> names_in ["epoch"] g.
Proof.
  intros H. apply seg_epoch in H.
  eapply names_num_group; eauto. now left.
Qed.

Lemma names_release t g :
  lang Packaging.re_release t g -> names_in ["release"] g.
Proof.
  intros H. apply seg_release in H as [-> _].
  intros n x [E|[]]. inversion E; subst. now left.
Qed.

Lemma names_letter_number nm nl nn t l gn :
  num_group nn gn ->
  names_in [nm; nl; nn] ((nm, t) :: gn ++ [(nl, l)]).
Proof.
  intros Hn n x [E|Hin].
  - inversion E; subst. simpl; auto.
  - apply in_app_or in Hin as [Hin|[E|[]]].
    + eapply (names_num_group nn gn [nm; nl; nn]) in Hn; eauto.
      simpl; auto.
    + inversion E; subst. simpl; auto.
Qed.

Lemma names_pre t g :
  lang Packaging.re_pre t g -> names_in ["pre"; "pre_l"; "pre_n"] g.
Proof.
  intros H. apply seg_pre in H as [->|(l & gn & -> & _ & Hn)].
  - apply names_in_nil.
  - now apply names_letter_number.
Qed.

Lemma names_post t g :
  lang Packaging.re_post t g ->
  names_in ["post"; "post_l"; "post_n2"; "post_n1"] g.
Proof.
  intros H.
  apply seg_post in H as [->|[(d & -> & _)|(l & gn & -> & _ & Hn)]].
  - apply names_in_nil.
  - intros n x [E|[E|[]]]; inversion E; subst; simpl; auto.
  - intros n x Hin.
    apply (names_letter_number "post" "post_l" "post_n2" t l gn Hn) in Hin.
    simpl in *. tauto.
Qed.

Lemma names_dev t g :
  lang Packaging.re_dev t g -> names_in ["dev"; "dev_l"; "dev_n"] g.
Proof.
  intros H. apply seg_dev in H as [->|(l & gn & -> & _ & Hn)].
  - apply names_in_nil.
  - now apply names_letter_number.
Qed.

Lemma names_local t g :
  lang Packaging.re_local t g -> names_in ["local"] g.
Proof.
  intros H. apply seg_local in H as [->|(b & -> & _)].
  - apply names_in_nil.
  - intros n x [E|[]]. inversion E; subst. now left.
Qed.

Lemma group_In n g t : Re.group n g = Some t -> In (n, t) g.
Proof.
  induction g as [|[n' t'] g IH]; simpl; [discriminate|].
  destruct (String.eqb_spec n' n).
  - intros H. inversion H; subst. now left.
  - intros H. right. auto.
Qed.

Lemma group_none n ns g : names_in ns g -> ~ In n ns -> Re.group n g = None.
Proof.
  intros H Hn. destruct (Re.group n g) eqn:E; auto.
  apply group_In in E. apply H in E. contradiction.
Qed.

Ltac not_in := simpl; intuition discriminate.

(** Looking a name up in the groups of a whole match: only the part
    that declares the name matters. *)
Lemma option_eta {A : Type} (x : option A) :
  match x with Some t => Some t | None => None end = x.
Proof. now destruct x. Qed.

Ltac lookups :=
  rewrite ?group_app;
  repeat match goal with
         | H : names_in ?ns ?g |- context [Re.group ?n ?g] =>
             rewrite (group_none n ns g H) by not_in
         end;
  cbv beta iota; rewrite ?option_eta.

Lemma lookup_num name gn :
  num_group name gn ->
  Re.group name gn = None
  \/ exists d, Re.group name gn = Some d /\ Py.isdigit d = true.
Proof.
  intros [->|(d & -> & Hd)]; [now left|].
  right. exists d. simpl. rewrite String.eqb_refl. auto.
Qed.

Lemma letter_nonempty words l :
  letter_in words l -> ~ In "" words -> exists c l', l = String c l'.
Proof.
  intros H Hn. destruct l; [|eauto]. exfalso. apply Hn. exact H.
Qed.

Lemma parse_letter_num letter d :
  Py.isdigit d = true ->
  (letter = None \/ letter = Some "") ->
  exists n, Packaging._parse_letter_version letter (Some d)
            = Ok (Some ("post", n)).
Proof.
  intros Hd Hl. destruct (int_isdigit d Hd) as [n Hn].
  exists n. unfold Packaging._parse_letter_version.
  assert (d <> "") by (apply isdigit_spec in Hd; tauto).
  destruct Hl as [-> | ->]; destruct d; try congruence; rewrite Hn;
    reflexivity.
Qed.

Lemma parse_letter_none :
  Packaging._parse_letter_version None None = Ok None.
Proof. reflexivity. Qed.

Lemma parse_letter_words words goal l num :
  letter_in words l -> ~ In "" words ->
  (num = None \/ exists d, num = Some d /\ Py.isdigit d = true) ->
  (forall w n, In w words -> w <> "" ->
     exists x, Packaging._parse_letter_version (Some w) (Some n)
               = (let! k := Packaging.int n in Ok (Some (x, k)))
               /\ existsb (String.eqb x) goal = true
               /\ Py.lower w = w) ->
  exists x n, Packaging._parse_letter_version (Some l) num = Ok (Some (x, n))
              /\ existsb (String.eqb x) goal = true.
Proof.
  intros Hl Hne Hnum Hw.
  destruct (letter_nonempty words l Hl Hne) as (c & l' & ->).
  assert (Hw0 : Py.lower (String c l') <> "") by (simpl; discriminate).
  set (number := match num with None => "0" | Some n => n end).
  assert (Hd : Py.isdigit number = true).
  { destruct Hnum as [->|(d & -> & Hd)]; auto. }
  destruct (int_isdigit number Hd) as [n Hn].
  destruct (Hw (Py.lower (String c l')) number Hl Hw0) as (x & Hx & Hg & Hlow).
  exists x, n. split; auto.
  transitivity (Packaging._parse_letter_version
                  (Some (Py.lower (String c l'))) (Some number)).
  - unfold Packaging._parse_letter_version. fold number.
    simpl Py.lower in Hlow |- *. rewrite Hlow. reflexivity.
  - rewrite Hx, Hn. reflexivity.
Qed.

Ltac word_cases :=
  intros w n Hin Hne;
  simpl in Hin;
  repeat (destruct Hin as [<-|Hin];
          [eexists; split; [reflexivity|split; reflexivity]|]);
  contradiction.

Lemma parse_pre l num :
  letter_in ["a"; "b"; "c"; "rc"; "alpha"; "beta"; "pre"; "preview"] l ->
  (num = None \/ exists d, num = Some d /\ Py.isdigit d = true) ->
  exists x n, Packaging._parse_letter_version (Some l) num = Ok (Some (x, n))
              /\ existsb (String.eqb x) ["a"; "b"; "rc"] = true.
Proof.
  intros Hl Hn. eapply parse_letter_words; eauto; [not_in|word_cases].
Qed.

Lemma parse_post l num :
  letter_in ["post"; "rev"; "r"] l ->
  (num = None \/ exists d, num = Some d /\ Py.isdigit d = true) ->
  exists x n, Packaging._parse_letter_version (Some l) num = Ok (Some (x, n))
              /\ existsb (String.eqb x) ["post"] = true.
Proof.
  intros Hl Hn. eapply parse_letter_words; eauto; [not_in|word_cases].
Qed.

Lemma parse_dev l num :
  letter_in ["dev"] l ->
  (num = None \/ exists d, num = Some d /\ Py.isdigit d = true) ->
  exists x n, Packaging._parse_letter_version (Some l) num = Ok (Some (x, n))
              /\ existsb (String.eqb x) ["dev"] = true.
Proof.
  intros Hl Hn. eapply parse_letter_words; eauto; [not_in|word_cases].
Qed.

Lemma alnum_i_lower c :
  Packaging.is_alnum_i c = true -> az09 (Py.lower_char c) = true.
Proof. char_cases c. Qed.
Lemma is_digit_lower c : Py.is_digit (Py.lower_char c) = Py.is_digit c.
Proof. char_cases c. Qed.

Lemma all_lower_az09 s :
  Py.all Packaging.is_alnum_i s = true -> Py.all az09 (Py.lower s) = true.
Proof.
  induction s as [|c s IH]; simpl; auto. intros H.
  apply andb_true_iff in H as [Hc Hs]. now rewrite alnum_i_lower, IH.
Qed.

Lemma all_digit_lower s :
  Py.all Py.is_digit (Py.lower s) = Py.all Py.is_digit s.
Proof. induction s as [|c s IH]; simpl; auto. now rewrite is_digit_lower, IH. Qed.

Lemma isdigit_lower s : Py.isdigit (Py.lower s) = Py.isdigit s.
Proof.
  destruct s as [|c s]; auto. unfold Py.isdigit.
  change (Py.lower (String c s)) with (String (Py.lower_char c) (Py.lower s)).
  apply (all_digit_lower (String c s)).
Qed.

Lemma local_conv_ok part :
  chunk_ok Packaging.is_alnum_i part ->
  exists p, local_conv part = Ok p /\ canonical_part p = true.
Proof.
  intros [Hne Hall]. unfold local_conv.
  destruct (Py.isdigit part) eqn:Hd; simpl.
  - destruct (int_isdigit part Hd) as [n ->]. simpl. eauto.
  - eexists; split; [reflexivity|]. simpl.
    rewrite all_lower_az09, isdigit_lower, Hd by auto.
    destruct part; [congruence|reflexivity].
Qed.

Lemma mapM_local l :
  Forall (chunk_ok Packaging.is_alnum_i) l ->
  exists ps, mapM local_conv l = Ok ps /\ length ps = length l
             /\ forallb canonical_part ps = true.
Proof.
  induction 1 as [|d l Hd _ (ps & IH & Hlen & Hc)]; simpl.
  - eexists; repeat split; reflexivity.
  - destruct (local_conv_ok d Hd) as (p & -> & Hp). rewrite IH. simpl.
    eexists; repeat split; simpl; auto. now rewrite Hp, Hc.
Qed.

Lemma parse_local_ok b :
  Forall (chunk_ok Packaging.is_alnum_i) (Py.split_on is_name_sep b) ->
  exists ps, Packaging._parse_local_version (Some b) = Ok (Some ps)
             /\ ps <> [] /\ forallb canonical_part ps = true.
Proof.
  intros H. destruct (mapM_local _ H) as (ps & Hm & Hlen & Hc).
  exists ps. unfold Packaging._parse_local_version.
  fold local_conv. rewrite Hm. simpl. repeat split; auto.
  intros ->. simpl in Hlen.
  pose proof (split_on_nonnil is_name_sep b).
  destruct (Py.split_on is_name_sep b); [congruence|discriminate].
Qed.

(** Once the pattern has matched, [Version] builds a canonical version:
    the integer conversions in it never fail. *)
Lemma Version_of_search s m :
  Re.search Packaging._regex s = Some m ->
  exists v, Packaging.Version s = Ok v /\ canonical v = true.
Proof.
  intros E. unfold Packaging.Version. rewrite E.
  unfold Re.search in E.
  apply search_from_sound in E as [t L].
  apply regex_segments in L
    as (te & ge & tr & gr & tp & gp & tpo & gpo & td & gd & tl & gl
        & -> & He & Hr & Hp & Hpo & Hd & Hl).
  pose proof (names_epoch _ _ He) as Ne.
  pose proof (names_release _ _ Hr) as Nr.
  pose proof (names_pre _ _ Hp) as Np.
  pose proof (names_post _ _ Hpo) as Npo.
  pose proof (names_dev _ _ Hd) as Nd.
  pose proof (names_local _ _ Hl) as Nl.
  (* epoch *)
  assert (Fe : exists e,
    (if Packaging.truthy (Re.group "epoch" (gl ++ gd ++ gpo ++ gp ++ gr ++ ge))
     then Packaging.int
            match Re.group "epoch" (gl ++ gd ++ gpo ++ gp ++ gr ++ ge) with
            | Some t => t | None => "" end
     else Ok 0%N) = Ok e).
  { lookups. apply seg_epoch in He.
    destruct (lookup_num _ _ He) as [->|(d & -> & Hd')]; [simpl; eauto|].
    destruct (int_isdigit d Hd') as [n Hn]. rewrite Hn.
    destruct (Packaging.truthy (Some d)); eauto. }
  destruct Fe as [e ->].
  (* release *)
  assert (Fr : exists r,
    mapM Packaging.int
      (Py.split_on (Py.eqc dot)
         match Re.group "release" (gl ++ gd ++ gpo ++ gp ++ gr ++ ge) with
         | Some t => t | None => "" end) = Ok r /\ r <> []).
  { lookups. apply seg_release in Hr as [-> Hr]. simpl.
    destruct (mapM_int_chunks _ Hr) as (r & Hm & Hlen). exists r.
    split; auto. intros ->. simpl in Hlen.
    pose proof (split_on_nonnil (Py.eqc dot) tr).
    destruct (Py.split_on (Py.eqc dot) tr); [congruence|discriminate]. }
  destruct Fr as (r & -> & Hrne).
  (* pre *)
  assert (Fp : exists p,
    Packaging._parse_letter_version
      (Re.group "pre_l" (gl ++ gd ++ gpo ++ gp ++ gr ++ ge))
      (Re.group "pre_n" (gl ++ gd ++ gpo ++ gp ++ gr ++ ge)) = Ok p
    /\ letter_is ["a"; "b"; "rc"] p = true).
  { lookups. apply seg_pre in Hp as [->|(l & gn & -> & Hl' & Hn)].
    - simpl. eauto.
    - assert (G1 : Re.group "pre_l" (("pre", tp) :: gn ++ [("pre_l", l)])
                   = Some l).
      { destruct Hn as [->|(d & -> & _)]; reflexivity. }
      assert (G2 : Re.group "pre_n" (("pre", tp) :: gn ++ [("pre_l", l)])
                   = Re.group "pre_n" gn).
      { destruct Hn as [->|(d & -> & _)]; reflexivity. }
      rewrite G1, G2. cbv beta iota. rewrite ?option_eta.
      destruct (parse_pre l (Re.group "pre_n" gn) Hl') as (x & n & -> & Hx).
      + destruct (lookup_num _ _ Hn) as [->|(d & -> & Hd')]; eauto.
      + eexists; split; [reflexivity|exact Hx]. }
  destruct Fp as (p & -> & Hpc).
  (* post *)
  assert (Fpo : exists p,
    Packaging._parse_letter_version
      (Re.group "post_l" (gl ++ gd ++ gpo ++ gp ++ gr ++ ge))
      (Packaging.or_ (Re.group "post_n1" (gl ++ gd ++ gpo ++ gp ++ gr ++ ge))
         (Re.group "post_n2" (gl ++ gd ++ gpo ++ gp ++ gr ++ ge))) = Ok p
    /\ letter_is ["post"] p = true).
  { lookups.
    apply seg_post in Hpo as [->|[(d & -> & Hd')|(l & gn & -> & Hl' & Hn)]].
    - simpl. eauto.
    - change (Re.group "post_l" [("post", tpo); ("post_n1", d)]) with (@None string).
      change (Re.group "post_n1" [("post", tpo); ("post_n1", d)]) with (Some d).
      change (Re.group "post_n2" [("post", tpo); ("post_n1", d)]) with (@None string).
      cbv beta iota.
      assert (d <> "") by (apply isdigit_spec in Hd'; tauto).
      destruct d as [|c d]; [congruence|].
      change (Packaging.or_ (Some (String c d)) None) with (Some (String c d)).
      destruct (parse_letter_num None (String c d) Hd') as [n ->]; auto.
      eexists; split; reflexivity.
    - assert (G1 : Re.group "post_l" (("post", tpo) :: gn ++ [("post_l", l)])
                   = Some l).
      { destruct Hn as [->|(d & -> & _)]; reflexivity. }
      assert (G2 : Re.group "post_n2" (("post", tpo) :: gn ++ [("post_l", l)])
                   = Re.group "post_n2" gn).
      { destruct Hn as [->|(d & -> & _)]; reflexivity. }
      assert (G3 : Re.group "post_n1" (("post", tpo) :: gn ++ [("post_l", l)])
                   = None).
      { destruct Hn as [->|(d & -> & _)]; reflexivity. }
      rewrite G1, G2, G3. cbv beta iota. unfold Packaging.or_. simpl Packaging.truthy. cbv beta iota. rewrite ?option_eta.
      destruct (parse_post l (Re.group "post_n2" gn) Hl') as (x & n & -> & Hx).
      + destruct (lookup_num _ _ Hn) as [->|(d & -> & Hd')]; eauto.
      + eexists; split; [reflexivity|exact Hx]. }
  destruct Fpo as (po & -> & Hpoc).
  (* dev *)
  assert (Fd : exists p,
    Packaging._parse_letter_version
      (Re.group "dev_l" (gl ++ gd ++ gpo ++ gp ++ gr ++ ge))
      (Re.group "dev_n" (gl ++ gd ++ gpo ++ gp ++ gr ++ ge)) = Ok p
    /\ letter_is ["dev"] p = true).
  { lookups. apply seg_dev in Hd as [->|(l & gn & -> & Hl' & Hn)].
    - simpl. eauto.
    - assert (G1 : Re.group "dev_l" (("dev", td) :: gn ++ [("dev_l", l)])
                   = Some l).
      { destruct Hn as [->|(d & -> & _)]; reflexivity. }
      assert (G2 : Re.group "dev_n" (("dev", td) :: gn ++ [("dev_l", l)])
                   = Re.group "dev_n" gn).
      { destruct Hn as [->|(d & -> & _)]; reflexivity. }
      rewrite G1, G2. cbv beta iota. rewrite ?option_eta.
      destruct (parse_dev l (Re.group "dev_n" gn) Hl') as (x & n & -> & Hx).
      + destruct (lookup_num _ _ Hn) as [->|(d & -> & Hd')]; eauto.
      + eexists; split; [reflexivity|exact Hx]. }
  destruct Fd as (d & -> & Hdc).
  (* local *)
  assert (Fl : exists l,
    Packaging._parse_local_version
      (Re.group "local" (gl ++ gd ++ gpo ++ gp ++ gr ++ ge)) = Ok l
    /\ match l with
       | Some [] => false
       | Some parts => forallb canonical_part parts
       | None => true
       end = true).
  { lookups. apply seg_local in Hl as [->|(b & -> & Hb)].
    - simpl. eauto.
    - change (Re.group "local" [("local", b)]) with (Some b).
      destruct (parse_local_ok b Hb) as (ps & -> & Hne & Hc).
      eexists; split; [reflexivity|]. destruct ps; [congruence|exact Hc]. }
  destruct Fl as (l & -> & Hlc).
  eexists; split; [reflexivity|].
  unfold canonical. simpl.
  rewrite Hpc, Hpoc, Hdc, Hlc. destruct r; [congruence|reflexivity].
Qed.

Lemma Version_sound s :
  Packaging.Version s = Raise InvalidVersion
  \/ exists v, Packaging.Version s = Ok v /\ canonical v = true.
Proof.
  destruct (Re.search Packaging._regex s) as [m|] eqn:E.
  - right. eapply Version_of_search; eauto.
  - left. unfold Packaging.Version. now rewrite E.
Qed.

(** ** Matching along the greedy path *)

Lemma M_weaken (C C' : string -> Prop) r t g :
  (forall s, C' s -> C s) -> matches C r t g -> matches C' r t g.
Proof. intros HC H R p s' g0 k res Hs Hk. apply H; auto. Qed.

Lemma M_eq C r t t' g g' :
  matches C r t g -> t = t' -> g = g' -> matches C r t' g'.
Proof. intros H <- <-. exact H. Qed.

Lemma M_eps C : matches C Re.Eps "" [].
Proof. intros R p s' g k res _ Hk. apply Hk. Qed.

Lemma M_cls C f c : f c = true -> matches C (Re.Cls f) (String c "") [].
Proof. intros Hc R p s' g k res _ Hk. simpl. rewrite Hc. apply Hk. Qed.

Lemma M_seq (C C1 : string -> Prop) r1 r2 t1 t2 g1 g2 :
  matches C1 r1 t1 g1 -> matches C r2 t2 g2 ->
  (forall s', C s' -> C1 (t2 +:+ s')) ->
  matches C (Re.Seq r1 r2) (t1 +:+ t2) (g2 ++ g1).
Proof.
  intros H1 H2 HC R p s' g k res Hs Hk. simpl.
  rewrite app_assoc_s. apply H1; auto.
  intros p'. apply H2; auto. intros p''. rewrite app_assoc. apply Hk.
Qed.

Lemma M_alt_l C r1 r2 t g : matches C r1 t g -> matches C (Re.Alt r1 r2) t g.
Proof.
  intros H R p s' g0 k res Hs Hk. simpl. now rewrite (H R p s' g0 k res).
Qed.

Lemma M_alt_r (C : string -> Prop) r1 r2 t g :
  (forall s', C s' -> fails r1 (t +:+ s')) ->
  matches C r2 t g -> matches C (Re.Alt r1 r2) t g.
Proof.
  intros HF H R p s' g0 k res Hs Hk. simpl.
  rewrite (HF s' Hs R p g0 k). now apply H.
Qed.

Lemma M_grp C n r t g : matches C r t g -> matches C (Re.Grp n r) t ((n, t) :: g).
Proof.
  intros H R p s' g0 k res Hs Hk. simpl. apply H; auto.
  intros p'. rewrite take_consumed. apply Hk.
Qed.

Lemma star_cls_greedy {R : Type} f (k : @Re.cont R) rest g res :
  head_not f rest ->
  (forall p', k p' rest g = Some res) ->
  forall t n p,
    Py.all f t = true -> String.length t <= n ->
    Re.star_loop (Re.exec (Re.Cls f)) k n p (t +:+ rest) g = Some res.
Proof.
  intros Hh Hk. induction t as [|c t IH]; intros n p Ht Hn.
  - sapp. destruct n; simpl; auto.
    destruct rest as [|c rest]; auto. simpl in Hh. now rewrite Hh.
  - destruct n as [|n]; [simpl in Hn; lia|].
    simpl in Ht. apply andb_true_iff in Ht as [Hc Ht].
    sapp. simpl. rewrite Hc.
    destruct (String.length (t +:+ rest) <? S (String.length (t +:+ rest)))%nat
      eqn:E; [|apply Nat.ltb_ge in E; lia].
    rewrite IH; auto. simpl in Hn. lia.
Qed.

Lemma M_star_cls f t :
  Py.all f t = true -> matches (head_not f) (Re.Star (Re.Cls f)) t [].
Proof.
  intros Ht R p s' g k res Hs Hk. simpl.
  apply star_cls_greedy; auto. rewrite length_app_s. lia.
Qed.

Lemma M_plus_cls f t :
  t <> "" -> Py.all f t = true ->
  matches (head_not f) (Re.Plus (Re.Cls f)) t [].
Proof.
  intros Hne Ht. destruct t as [|c t]; [congruence|].
  simpl in Ht. apply andb_true_iff in Ht as [Hc Ht].
  change (String c t) with (String c "" +:+ t).
  change (@nil (string * string)) with (@nil (string * string) ++ []).
  eapply M_seq.
  - apply (M_cls (fun _ => True)). exact Hc.
  - now apply M_star_cls.
  - intros; exact I.
Qed.

Lemma M_litI C : forall w, matches C (Re.LitI w) w [].
Proof.
  induction w as [|c w IH].
  - apply M_eps.
  - destruct w as [|d w].
    + apply M_cls. apply Ascii.eqb_refl.
    + change (Re.LitI (String c (String d w)))
        with (Re.Seq (Re.ChrI c) (Re.LitI (String d w))).
      change (String c (String d w)) with (String c "" +:+ String d w).
      change (@nil (string * string)) with (@nil (string * string) ++ []).
      eapply M_seq; [|exact IH|].
      * apply (M_cls (fun _ => True)). apply Ascii.eqb_refl.
      * intros; exact I.
Qed.

Lemma M_chr C c : matches C (Re.Chr c) (String c "") [].
Proof. apply M_cls. apply Ascii.eqb_refl. Qed.

Lemma F_cls f s : head_not f s -> s <> "" \/ True -> fails (Re.Cls f) s.
Proof.
  intros H _ R p g k. destruct s as [|c s]; simpl; auto.
  simpl in H. now rewrite H.
Qed.

Lemma join_chunks c a rest :
  Py.join (String c "") (a :: rest) = a +:+ sep_chunks c rest.
Proof.
  revert a. induction rest as [|b rest IH]; intros a.
  - simpl. now rewrite app_nil_r_s.
  - change (Py.join (String c "") (a :: b :: rest))
      with (a +:+ String c "" +:+ Py.join (String c "") (b :: rest)).
    rewrite IH. reflexivity.
Qed.

Lemma star_chunks_greedy {R : Type} sep f c (k : @Re.cont R) rest g res :
  sep c = true -> f c = false ->
  head_not f rest -> fails (chunk_body sep f) rest ->
  (forall p', k p' rest g = Some res) ->
  forall chunks n p,
    Forall (chunk_ok f) chunks -> length chunks <= n ->
    Re.star_loop (Re.exec (chunk_body sep f)) k n p
      (sep_chunks c chunks +:+ rest) g = Some res.
Proof.
  intros Hs Hf Hh Hfail Hk.
  induction chunks as [|ch chunks IH]; intros n p Hc Hn.
  - cbn [sep_chunks]. sapp. destruct n; cbn [Re.star_loop]; auto.
    now rewrite Hfail.
  - destruct n as [|n]; [simpl in Hn; lia|].
    inversion Hc as [|? ? [Hne Hall] Hc']; subst.
    cbn [sep_chunks Re.star_loop].
    assert (Hm : matches (head_not f) (chunk_body sep f) (String c ch) []).
    { change (String c ch) with (String c "" +:+ ch).
      change (@nil (string * string)) with (@nil (string * string) ++ []).
      eapply M_seq.
      - apply (M_cls (fun _ => True)). exact Hs.
      - now apply M_plus_cls.
      - intros; exact I. }
    rewrite app_assoc_s.
    rewrite (Hm R p (sep_chunks c chunks +:+ rest) g _ res); auto.
    + destruct chunks; simpl; auto.
    + intros p'. simpl.
      destruct (_ <? _)%nat eqn:E.
      * apply IH; auto. simpl in Hn. lia.
      * apply Nat.ltb_ge in E. rewrite !length_app_s in E. simpl in E. lia.
Qed.

Lemma sep_chunks_length c chunks :
  length chunks <= String.length (sep_chunks c chunks).
Proof.
  induction chunks as [|ch chunks IH]; simpl; auto.
  rewrite length_app_s. simpl. lia.
Qed.

Lemma M_star_chunks sep f c chunks :
  sep c = true -> f c = false -> Forall (chunk_ok f) chunks ->
  matches (fun s' => head_not f s' /\ fails (chunk_body sep f) s')
    (Re.Star (chunk_body sep f)) (sep_chunks c chunks) [].
Proof.
  intros Hs Hf Hc R p s' g k res [Hh Hfail] Hk. simpl.
  eapply star_chunks_greedy; eauto.
  rewrite length_app_s. pose proof (sep_chunks_length c chunks). lia.
Qed.

(** A joined list of chunks, as the chunked patterns match it. *)
Lemma M_joined sep f c chunks :
  sep c = true -> f c = false -> chunks <> [] ->
  Forall (chunk_ok f) chunks ->
  matches (fun s' => head_not f s' /\ fails (chunk_body sep f) s')
    (Re.Seq (Re.Plus (Re.Cls f)) (Re.Star (chunk_body sep f)))
    (Py.join (String c "") chunks) [].
Proof.
  intros Hs Hf Hne Hc. destruct chunks as [|a rest]; [congruence|].
  inversion Hc as [|? ? [Ha1 Ha2] Hc']; subst.
  rewrite join_chunks.
  change (@nil (string * string)) with (@nil (string * string) ++ []).
  eapply M_seq.
  - now apply M_plus_cls.
  - now apply M_star_chunks.
  - intros s' [Hh _]. destruct rest; simpl; auto.
Qed.

(** A greedy run followed by a continuation that fails wherever the run
    may stop. *)
Lemma exec_cls_cons {R : Type} f p c s g (k : @Re.cont R) :
  Re.exec (Re.Cls f) p (String c s) g k = if f c then k (Some c) s g else None.
Proof. reflexivity. Qed.

Lemma star_cls_fails {R : Type} f (B : string -> Prop) (k : @Re.cont R) rest :
  (forall c s, f c = true -> B (String c s)) -> B rest ->
  head_not f rest ->
  (forall p s g, B s -> k p s g = None) ->
  forall t n p g,
    Py.all f t = true ->
    Re.star_loop (Re.exec (Re.Cls f)) k n p (t +:+ rest) g = None.
Proof.
  intros HB Hr Hh Hk. induction t as [|c t IH]; intros n p g Ht.
  - sapp. destruct n; cbn [Re.star_loop]; auto.
    destruct rest as [|c rest]; [simpl; auto|].
    rewrite exec_cls_cons. simpl in Hh. rewrite Hh. auto.
  - simpl in Ht. apply andb_true_iff in Ht as [Hc Ht]. sapp.
    destruct n; cbn [Re.star_loop].
    + apply Hk. now apply HB.
    + rewrite exec_cls_cons, Hc. destruct (_ <? _)%nat.
      * rewrite (IH n (Some c) g Ht). apply Hk. now apply HB.
      * apply Hk. now apply HB.
Qed.

Lemma F_group_then_char name f c0 t rest :
  t <> "" -> Py.all f t = true -> head_not f rest ->
  f c0 = false -> head_not (Py.eqc c0) rest ->
  fails (Re.Seq (Re.Grp name (Re.Plus (Re.Cls f))) (Re.Chr c0)) (t +:+ rest).
Proof.
  intros Hne Ht Hh Hc0 Hr R p g k.
  destruct t as [|c t]; [congruence|].
  simpl in Ht. apply andb_true_iff in Ht as [Hc Ht].
  sapp. simpl. rewrite Hc.
  apply (star_cls_fails f (head_not (Py.eqc c0))); auto.
  - intros x s Hx. simpl. unfold Py.eqc.
    destruct (Ascii.eqb_spec c0 x); [subst; congruence|reflexivity].
  - intros p' s g' Hs. destruct s as [|x s]; auto.
    simpl in Hs. now rewrite Hs.
Qed.

(** ** Decimal numerals *)

Lemma string_of_uint_digits d :
  Py.all Py.is_digit (NilEmpty.string_of_uint d) = true.
Proof. induction d; simpl; auto. Qed.

Lemma str_of_int_digits n : Py.isdigit (Py.str_of_int n) = true.
Proof.
  apply isdigit_spec. unfold Py.str_of_int, NilZero.string_of_uint.
  destruct (N.to_uint n) eqn:E; try (split; [discriminate|]);
    try apply (string_of_uint_digits (Decimal.D0 u));
    try reflexivity.
  all: rewrite <- ?E; try (simpl; apply string_of_uint_digits).
Qed.

Lemma int_str_of_int n : Packaging.int (Py.str_of_int n) = Ok n.
Proof.
  unfold Packaging.int, Py.int_of_str, Py.str_of_int.
  rewrite NilZero.usu.
  - simpl. now rewrite DecimalN.Unsigned.of_to.
  - destruct n; simpl; [discriminate|apply Unsigned.to_uint_nonnil].
Qed.

Lemma str_of_int_chunk n : chunk_ok Py.is_digit (Py.str_of_int n).
Proof. apply isdigit_spec, str_of_int_digits. Qed.

(** ** The text and the groups of a canonical version *)

Ltac tail_cases H :=
  unfold tail4, tail3, tail2, tail1 in H;
  repeat match type of H with
         | _ \/ _ => destruct H as [H|H]
         | exists _, _ => destruct H as [? H]
         end; subst.

Lemma tail4_head f :
  f "+"%char = false -> f "."%char = false -> f "a"%char = false ->
  f "b"%char = false -> f "r"%char = false ->
  forall s, tail4 s -> head_not f s.
Proof. intros H1 H2 H3 H4 H5 s H. tail_cases H; simpl; auto. Qed.

Lemma tail1_tail4 s : tail1 s -> tail4 s.
Proof. unfold tail4, tail3, tail2. tauto. Qed.
Lemma tail2_tail4 s : tail2 s -> tail4 s.
Proof. unfold tail4, tail3. tauto. Qed.
Lemma tail3_tail4 s : tail3 s -> tail4 s.
Proof. unfold tail4. tauto. Qed.

Lemma tail4_release_stop s :
  tail4 s -> fails (chunk_body (Py.eqc ".") Py.is_digit) s.
Proof. intros H R p g k. tail_cases H; reflexivity. Qed.

Lemma tail3_pre_fails s : tail3 s -> fails pre_group s.
Proof. intros H R p g k. tail_cases H; reflexivity. Qed.

Lemma tail2_post_fails s : tail2 s -> fails post_group s.
Proof. intros H R p g k. tail_cases H; reflexivity. Qed.

Lemma tail1_dev_fails s : tail1 s -> fails dev_group s.
Proof. intros H R p g k. tail_cases H; reflexivity. Qed.

Lemma local_fails_nil : fails local_group "".
Proof. intros R p g k. reflexivity. Qed.

Lemma local_stop_nil :
  fails (chunk_body is_name_sep Packaging.is_alnum_i) "".
Proof. intros R p g k. reflexivity. Qed.

Lemma M_opt_skip (C : string -> Prop) r :
  (forall s', C s' -> fails r s') -> matches C (Re.Opt r) "" [].
Proof. intros H. apply M_alt_r; [exact H|apply M_eps]. Qed.

Lemma digit_not_sep c : Py.is_digit c = true -> is_name_sep c = false.
Proof. char_cases c. Qed.
Lemma digit_not_bang c : Py.is_digit c = true -> Py.eqc "!" c = false.
Proof. char_cases c. Qed.
Lemma digit_not_v c :
  Py.is_digit c = true ->
  Py.eqc (Py.lower_char c) (Py.lower_char "v") = false.
Proof. char_cases c. Qed.
Lemma digit_not_space c : Py.is_digit c = true -> Py.is_space c = false.
Proof. char_cases c. Qed.
Lemma digit_alnum_i c : Py.is_digit c = true -> Packaging.is_alnum_i c = true.
Proof. char_cases c. Qed.

Lemma digit_head_str n s : digit_head (Py.str_of_int n +:+ s).
Proof.
  destruct (str_of_int_chunk n) as [Hne Hall].
  destruct (Py.str_of_int n) as [|c x]; [congruence|].
  simpl in Hall. apply andb_true_iff in Hall as [Hc _].
  exists c, (x +:+ s). auto.
Qed.

Lemma digit_head_not f s :
  (forall c, Py.is_digit c = true -> f c = false) ->
  digit_head s -> head_not f s.
Proof. intros Hf (c & x & -> & Hc). simpl. auto. Qed.

Lemma M_num_group (C : string -> Prop) name n :
  (forall s, C s -> head_not Py.is_digit s) ->
  matches C (Re.Opt (Re.Grp name (Re.Plus Packaging.D)))
    (Py.str_of_int n) [(name, Py.str_of_int n)].
Proof.
  intros HC. apply M_alt_l, M_grp.
  apply (M_weaken (head_not Py.is_digit)); auto.
  destruct (str_of_int_chunk n). now apply M_plus_cls.
Qed.

(** [[-_.]? letter [-_.]? number] with no separator before the letter. *)
Lemma M_letter_number (C : string -> Prop) X nl nn l n :
  (forall C', matches C' X l []) ->
  head_not is_name_sep l -> l <> "" ->
  (forall s, C s -> head_not Py.is_digit s) ->
  matches C
    (Re.Seq (Re.Opt Packaging.SEP) (Re.Seq (Re.Grp nl X)
       (Re.Seq (Re.Opt Packaging.SEP)
          (Re.Opt (Re.Grp nn (Re.Plus Packaging.D))))))
    (l +:+ Py.str_of_int n) [(nn, Py.str_of_int n); (nl, l)].
Proof.
  intros HX Hl Hne HC.
  eapply M_eq.
  { eapply M_seq.
    { apply (M_opt_skip (head_not is_name_sep)).
      intros s' Hs. now apply F_cls; auto. }
    { eapply M_seq.
      { apply M_grp. apply (HX (fun _ => True)). }
      { eapply M_seq.
        { apply (M_opt_skip (head_not is_name_sep)).
          intros s' Hs. now apply F_cls; auto. }
        { apply (M_num_group C nn n HC). }
        { intros s' Hs. apply digit_head_not; [apply digit_not_sep|].
          apply digit_head_str. } }
      { intros; exact I. } }
    { intros s' Hs. destruct l; [congruence|]. exact Hl. } }
  { reflexivity. }
  { reflexivity. }
Qed.

Lemma M_epoch e :
  matches (fun s' => exists t rest, s' = t +:+ rest
                       /\ chunk_ok Py.is_digit t
                       /\ head_not Py.is_digit rest
                       /\ head_not (Py.eqc "!") rest)
    Packaging.re_epoch (txtE e) (gE e).
Proof.
  unfold txtE, gE, Packaging.re_epoch. destruct (e =? 0)%N.
  - apply M_opt_skip. intros s' (t & rest & -> & [Hne Ht] & H1 & H2).
    apply F_group_then_char; auto.
  - apply M_alt_l.
    eapply M_eq.
    { eapply M_seq.
      { apply M_grp. destruct (str_of_int_chunk e). apply M_plus_cls; eauto. }
      { apply M_chr. }
      { intros s' _. reflexivity. } }
    { reflexivity. }
    { reflexivity. }
Qed.

Lemma M_release rel :
  rel <> [] ->
  matches (fun s' => head_not Py.is_digit s'
                     /\ fails (chunk_body (Py.eqc ".") Py.is_digit) s')
    Packaging.re_release (txtR rel) (gR rel).
Proof.
  intros Hne. unfold Packaging.re_release, gR, txtR. apply M_grp.
  apply (M_joined (Py.eqc ".") Py.is_digit "." (map Py.str_of_int rel)).
  - reflexivity.
  - reflexivity.
  - destruct rel; [congruence|discriminate].
  - apply Forall_map, Forall_forall. intros n _. apply str_of_int_chunk.
Qed.

Lemma M_pre_l C l :
  l = "a" \/ l = "b" \/ l = "rc" -> matches C Packaging.re_pre_l l [].
Proof.
  unfold Packaging.re_pre_l. intros [-> | [-> | ->]].
  - apply M_alt_l, M_litI.
  - apply M_alt_r; [intros s' _ R p g k; reflexivity|].
    apply M_alt_l, M_litI.
  - do 3 (apply M_alt_r; [intros s' _ R p g k; reflexivity|]).
    apply M_alt_l, M_litI.
Qed.

Lemma M_pre pre :
  pre_ok pre ->
  matches (fun s' => match pre with
                     | Some _ => head_not Py.is_digit s'
                     | None => fails pre_group s'
                     end)
    Packaging.re_pre (txtP pre) (gP pre).
Proof.
  unfold Packaging.re_pre, txtP, gP. destruct pre as [[l n]|]; intros Hl.
  - apply M_alt_l, M_grp. apply M_letter_number; auto.
    + intros C'. now apply M_pre_l.
    + destruct Hl as [-> | [-> | ->]]; reflexivity.
    + destruct Hl as [-> | [-> | ->]]; discriminate.
  - apply M_opt_skip. auto.
Qed.

Lemma M_post post :
  matches (fun s' => match post with
                     | Some _ => head_not Py.is_digit s'
                     | None => fails post_group s'
                     end)
    Packaging.re_post (txtPO post) (gPO post).
Proof.
  unfold Packaging.re_post, txtPO, gPO. destruct post as [n|].
  - apply M_alt_l, M_grp.
    apply M_alt_r; [intros s' _ R p g k; reflexivity|].
    eapply M_eq.
    { eapply M_seq.
      { apply M_alt_l. apply (M_cls (fun _ => True) is_name_sep ".").
        reflexivity. }
      { eapply M_seq.
        { apply M_grp. apply (M_alt_l (fun _ => True)), M_litI. }
        { eapply M_seq.
          { apply (M_opt_skip (head_not is_name_sep)).
            intros s' Hs. now apply F_cls; auto. }
          { apply (M_num_group (head_not Py.is_digit) "post_n2" n). auto. }
          { intros s' Hs. apply digit_head_not; [apply digit_not_sep|].
            apply digit_head_str. } }
        { intros; exact I. } }
      { intros; exact I. } }
    { reflexivity. }
    { reflexivity. }
  - apply M_opt_skip. auto.
Qed.

Lemma M_dev dev :
  matches (fun s' => match dev with
                     | Some _ => head_not Py.is_digit s'
                     | None => fails dev_group s'
                     end)
    Packaging.re_dev (txtD dev) (gD dev).
Proof.
  unfold Packaging.re_dev, txtD, gD. destruct dev as [n|].
  - apply M_alt_l, M_grp.
    eapply M_eq.
    { eapply M_seq.
      { apply M_alt_l. apply (M_cls (fun _ => True) is_name_sep ".").
        reflexivity. }
      { eapply M_seq.
        { apply M_grp. apply (M_litI (fun _ => True)). }
        { eapply M_seq.
          { apply (M_opt_skip (head_not is_name_sep)).
            intros s' Hs. now apply F_cls; auto. }
          { apply (M_num_group (head_not Py.is_digit) "dev_n" n). auto. }
          { intros s' Hs. apply digit_head_not; [apply digit_not_sep|].
            apply digit_head_str. } }
        { intros; exact I. } }
      { intros; exact I. } }
    { reflexivity. }
    { reflexivity. }
  - apply M_opt_skip. auto.
Qed.

Lemma M_local loc :
  local_ok loc ->
  matches (rest_is "") Packaging.re_local (txtL loc) (gL loc).
Proof.
  unfold Packaging.re_local, txtL, gL. destruct loc as [parts|].
  - intros [Hne Hall]. apply M_alt_l.
    eapply M_eq.
    { eapply M_seq.
      { apply (M_chr (fun _ => True) "+"). }
      { apply M_grp.
        apply (M_weaken
                 (fun s' => head_not Packaging.is_alnum_i s'
                            /\ fails (chunk_body is_name_sep Packaging.is_alnum_i) s')).
        - intros s ->. split; [exact I|apply local_stop_nil].
        - apply (M_joined is_name_sep Packaging.is_alnum_i "." parts); auto. }
      { intros; exact I. } }
    { reflexivity. }
    { reflexivity. }
  - intros _. apply M_opt_skip. intros s' ->. apply local_fails_nil.
Qed.

Lemma search_from_match r p s g rest :
  Re.match_at r p s = Some (g, rest) -> Re.search_from r p s = Some g.
Proof. intros H. destruct s; cbn [Re.search_from]; now rewrite H. Qed.

Lemma M_eol : matches (rest_is "") (Re.Eol false) "" [].
Proof. intros R p s' g k res -> Hk. apply Hk. Qed.

Section Forward.
Variables (e : N) (rel : list N) (pre : option (string * N))
          (post dev : option N) (loc : option (list string)).
Hypothesis Hrel : rel <> [].
Hypothesis Hpre : pre_ok pre.
Hypothesis Hloc : local_ok loc.

Let RL := txtL loc.
Let RD := txtD dev +:+ RL.
Let RPO := txtPO post +:+ RD.
Let RP := txtP pre +:+ RPO.
Let RR := txtR rel +:+ RP.
Let TEXT := txtE e +:+ RR.

Lemma tail1_RL : tail1 RL.
Proof.
  unfold RL, txtL. destruct loc; [right; eauto|now left].
Qed.

Lemma tail2_RD : tail2 RD.
Proof.
  unfold RD, txtD. destruct dev.
  - right. rewrite app_assoc_s. eauto.
  - left. apply tail1_RL.
Qed.

Lemma tail3_RPO : tail3 RPO.
Proof.
  unfold RPO, txtPO. destruct post.
  - right. rewrite app_assoc_s. eauto.
  - left. apply tail2_RD.
Qed.

Lemma tail4_RP : tail4 RP.
Proof.
  unfold RP, txtP. destruct pre as [[l n]|].
  - right. simpl in Hpre. rewrite app_assoc_s.
    destruct Hpre as [-> | [-> | ->]]; eauto.
  - left. apply tail3_RPO.
Qed.

Lemma digit_head_RR : digit_head RR.
Proof.
  unfold RR, txtR. destruct rel as [|n rest]; [congruence|].
  cbn [map]. rewrite (join_chunks "." (Py.str_of_int n)).
  rewrite app_assoc_s. apply digit_head_str.
Qed.

Lemma digit_head_TEXT : digit_head TEXT.
Proof.
  unfold TEXT, txtE. destruct (e =? 0)%N.
  - apply digit_head_RR.
  - rewrite app_assoc_s. apply digit_head_str.
Qed.

Lemma epoch_cond :
  exists t rest, RR = t +:+ rest /\ chunk_ok Py.is_digit t
                 /\ head_not Py.is_digit rest
                 /\ head_not (Py.eqc "!") rest.
Proof.
  unfold RR, txtR. destruct rel as [|n rest]; [congruence|].
  cbn [map]. rewrite (join_chunks "." (Py.str_of_int n)).
  rewrite app_assoc_s.
  exists (Py.str_of_int n), (sep_chunks "." (map Py.str_of_int rest) +:+ RP).
  split; [reflexivity|]. split; [apply str_of_int_chunk|].
  destruct rest; cbn [map sep_chunks].
  - sapp. split; apply tail4_head; auto using tail4_RP.
  - split; reflexivity.
Qed.

Definition inner_text : string :=
  txtE e +:+ txtR rel +:+ txtP pre +:+ txtPO post +:+ txtD dev.
Definition inner_groups : Re.groups :=
  gD dev ++ gPO post ++ gP pre ++ gR rel ++ gE e.

Lemma M_epoch' : matches (rest_is RR) Packaging.re_epoch (txtE e) (gE e).
Proof.
  apply (M_weaken _ _ _ _ _ (fun s H => eq_ind_r _ epoch_cond H) (M_epoch e)).
Qed.

Lemma M_release' :
  matches (rest_is RP) Packaging.re_release (txtR rel) (gR rel).
Proof.
  eapply M_weaken; [|apply (M_release rel Hrel)].
  intros s ->. split.
  - apply (tail4_head Py.is_digit); auto. apply tail4_RP.
  - apply tail4_release_stop, tail4_RP.
Qed.

Lemma M_pre' : matches (rest_is RPO) Packaging.re_pre (txtP pre) (gP pre).
Proof.
  eapply M_weaken; [|apply (M_pre pre Hpre)].
  intros s ->. destruct pre.
  - apply (tail4_head Py.is_digit); auto. apply tail3_tail4, tail3_RPO.
  - apply tail3_pre_fails, tail3_RPO.
Qed.

Lemma M_post' : matches (rest_is RD) Packaging.re_post (txtPO post) (gPO post).
Proof.
  eapply M_weaken; [|apply (M_post post)].
  intros s ->. destruct post.
  - apply (tail4_head Py.is_digit); auto. apply tail2_tail4, tail2_RD.
  - apply tail2_post_fails, tail2_RD.
Qed.

Lemma M_dev' : matches (rest_is RL) Packaging.re_dev (txtD dev) (gD dev).
Proof.
  eapply M_weaken; [|apply (M_dev dev)].
  intros s ->. destruct dev.
  - apply (tail4_head Py.is_digit); auto. apply tail1_tail4, tail1_RL.
  - apply tail1_dev_fails, tail1_RL.
Qed.

Lemma M_inner :
  matches (rest_is RL)
    (Re.Seq Packaging.re_epoch (Re.Seq Packaging.re_release
       (Re.Seq Packaging.re_pre (Re.Seq Packaging.re_post Packaging.re_dev))))
    inner_text inner_groups.
Proof.
  eapply M_eq.
  { eapply M_seq.
    { apply M_epoch'. }
    { eapply M_seq.
      { apply M_release'. }
      { eapply M_seq.
        { apply M_pre'. }
        { eapply M_seq.
          { apply M_post'. }
          { apply M_dev'. }
          { intros s' ->. reflexivity. } }
        { intros s' ->. unfold rest_is, RPO, RD. now rewrite app_assoc_s. } }
      { intros s' ->. unfold rest_is, RP, RPO, RD.
        now rewrite !app_assoc_s. } }
    { intros s' ->. unfold rest_is, RR, RP, RPO, RD.
      now rewrite !app_assoc_s. } }
  { reflexivity. }
  { unfold inner_groups. now rewrite <- !app_assoc. }
Qed.

Definition version_text : string := inner_text +:+ txtL loc.
Definition version_groups : Re.groups := gL loc ++ inner_groups.

Lemma version_text_TEXT : version_text = TEXT.
Proof.
  unfold version_text, inner_text, TEXT, RR, RP, RPO, RD, RL.
  now rewrite !app_assoc_s.
Qed.

Lemma M_version :
  matches (rest_is "") Packaging.VERSION_PATTERN version_text version_groups.
Proof.
  unfold Packaging.VERSION_PATTERN.
  eapply M_eq.
  { eapply M_seq.
    { apply (M_opt_skip (rest_is TEXT)). intros s' ->.
      apply F_cls; auto.
      apply (digit_head_not _ _ digit_not_v digit_head_TEXT). }
    { eapply M_seq.
      { apply M_inner. }
      { apply (M_local loc Hloc). }
      { intros s' ->. unfold rest_is, RL. now rewrite app_nil_r_s. } }
    { intros s' ->. unfold rest_is. rewrite app_nil_r_s.
      apply version_text_TEXT. } }
  { reflexivity. }
  { unfold version_groups. now rewrite app_nil_r. }
Qed.

Lemma search_version :
  Re.search Packaging._regex version_text = Some version_groups.
Proof.
  assert (H : matches (rest_is "")
                (Re.Seq (Re.Star Packaging.WS)
                   (Re.Seq Packaging.VERSION_PATTERN
                      (Re.Seq (Re.Star Packaging.WS) (Re.Eol false))))
                version_text version_groups).
  { eapply M_eq.
    { eapply M_seq.
      { apply (M_star_cls Py.is_space ""). reflexivity. }
      { eapply M_seq.
        { apply M_version. }
        { eapply M_seq.
          { apply (M_weaken (head_not Py.is_space) (rest_is "")).
            - intros s ->. exact I.
            - apply (M_star_cls Py.is_space ""). reflexivity. }
          { apply M_eol. }
          { intros s' ->. reflexivity. } }
        { intros s' ->. reflexivity. } }
      { intros s' ->. rewrite !app_nil_r_s, version_text_TEXT.
        apply (digit_head_not _ _ digit_not_space digit_head_TEXT). } }
    { sapp. now rewrite !app_nil_r_s. }
    { simpl. now rewrite !app_nil_r. } }
  unfold Re.search. apply (search_from_match _ _ _ _ "").
  { unfold Re.match_at, Packaging._regex.
    change (Re.exec (Re.Seq (Re.Bol false) ?r) None ?s ?g ?k)
      with (Re.exec r None s g k).
    rewrite <- (app_nil_r_s version_text) at 1.
    apply H; [reflexivity|]. intros p'. now rewrite app_nil_r. }
Qed.
End Forward.

(** ** Reading a canonical version back *)

Lemma split_join f sepf c parts :
  (forall x, f x = true -> sepf x = false) -> sepf c = true ->
  parts <> [] -> Forall (fun p => Py.all f p = true) parts ->
  Py.split_on sepf (Py.join (String c "") parts) = parts.
Proof.
  intros Hf Hc Hne Hall. destruct parts as [|a rest]; [congruence|].
  clear Hne. revert a Hall.
  induction rest as [|b rest IH]; intros a Hall.
  - inversion Hall; subst. simpl. now apply (split_chunk_end f).
  - inversion Hall as [|? ? Ha Hrest]; subst.
    rewrite join_chunks. cbn [sep_chunks]. sapp.
    rewrite (split_chunk_sep f sepf a c _ Hf Ha Hc).
    f_equal. rewrite <- join_chunks. now apply IH.
Qed.

Lemma mapM_int_str rel :
  mapM Packaging.int (map Py.str_of_int rel) = Ok rel.
Proof.
  induction rel as [|n rel IH]; simpl; auto.
  now rewrite int_str_of_int, IH.
Qed.

Lemma az09_alnum_i c : az09 c = true -> Packaging.is_alnum_i c = true.
Proof. char_cases c. Qed.
Lemma az09_lower c : az09 c = true -> Py.lower_char c = c.
Proof. char_cases c. Qed.

Lemma all_impl (f g : ascii -> bool) s :
  (forall c, f c = true -> g c = true) ->
  Py.all f s = true -> Py.all g s = true.
Proof.
  intros H. induction s as [|c s IH]; simpl; auto.
  intros E. apply andb_true_iff in E as [Hc Hs]. now rewrite H, IH.
Qed.

Lemma lower_az09 s : Py.all az09 s = true -> Py.lower s = s.
Proof.
  induction s as [|c s IH]; simpl; auto.
  intros E. apply andb_true_iff in E as [Hc Hs]. now rewrite az09_lower, IH.
Qed.

Lemma canonical_part_chunk p :
  canonical_part p = true ->
  chunk_ok Packaging.is_alnum_i (Packaging.str_local_part p).
Proof.
  destruct p as [n|s]; simpl; intros H.
  - destruct (str_of_int_chunk n) as [Hne Hall]. split; auto.
    eapply all_impl; [apply digit_alnum_i|exact Hall].
  - apply andb_true_iff in H as [H _].
    apply andb_true_iff in H as [Hne Hall].
    split; [destruct s; [discriminate|discriminate]|].
    eapply all_impl; [apply az09_alnum_i|exact Hall].
Qed.

Lemma canonical_parts_chunks parts :
  forallb canonical_part parts = true ->
  Forall (chunk_ok Packaging.is_alnum_i) (map Packaging.str_local_part parts).
Proof.
  induction parts as [|p parts IH]; simpl; intros H; constructor.
  - apply andb_true_iff in H as [Hp _]. now apply canonical_part_chunk.
  - apply andb_true_iff in H as [_ Hps]. auto.
Qed.

Lemma Forall_all_chunk f l :
  Forall (chunk_ok f) l -> Forall (fun p => Py.all f p = true) l.
Proof. induction 1 as [|x l [_ Hx] _ IH]; constructor; auto. Qed.

Lemma local_conv_str p :
  canonical_part p = true -> local_conv (Packaging.str_local_part p) = Ok p.
Proof.
  destruct p as [n|s]; simpl; intros H; unfold local_conv.
  - rewrite str_of_int_digits. simpl. now rewrite int_str_of_int.
  - apply andb_true_iff in H as [H Hd].
    apply andb_true_iff in H as [Hne Hall].
    rewrite Hd. now rewrite lower_az09.
Qed.

Lemma mapM_local_str parts :
  forallb canonical_part parts = true ->
  mapM local_conv (map Packaging.str_local_part parts) = Ok parts.
Proof.
  induction parts as [|p parts IH]; simpl; auto.
  intros H. apply andb_true_iff in H as [Hp Hps].
  now rewrite local_conv_str, IH.
Qed.

Lemma str_version_text v :
  Packaging.str v
  = version_text (Packaging.epoch v) (Packaging.release v) (Packaging.pre v)
      (option_map snd (Packaging.post v)) (option_map snd (Packaging.dev v))
      (loc_texts v).
Proof.
  unfold Packaging.str, version_text, inner_text, loc_texts.
  rewrite !app_assoc_s.
  destruct v as [e r p po d l]; simpl.
  destruct po as [[? ?]|], d as [[? ?]|], l as [?|]; reflexivity.
Qed.

Lemma canonical_fields v :
  canonical v = true ->
  Packaging.release v <> []
  /\ pre_ok (Packaging.pre v)
  /\ (forall l n, Packaging.post v = Some (l, n) -> l = "post")
  /\ (forall l n, Packaging.dev v = Some (l, n) -> l = "dev")
  /\ (forall parts, Packaging.local v = Some parts ->
        parts <> [] /\ forallb canonical_part parts = true).
Proof.
  unfold canonical. intros H.
  apply andb_true_iff in H as [H Hl].
  apply andb_true_iff in H as [H Hd].
  apply andb_true_iff in H as [H Hpo].
  apply andb_true_iff in H as [Hr Hp].
  split; [|split; [|split; [|split]]].
  - destruct (Packaging.release v); [discriminate|discriminate].
  - destruct (Packaging.pre v) as [[l n]|]; simpl in *; auto.
    destruct (String.eqb_spec l "a"); auto.
    destruct (String.eqb_spec l "b"); auto.
    destruct (String.eqb_spec l "rc"); auto. discriminate.
  - intros l n E. rewrite E in Hpo. simpl in Hpo.
    rewrite orb_false_r in Hpo. now apply String.eqb_eq in Hpo.
  - intros l n E. rewrite E in Hd. simpl in Hd.
    rewrite orb_false_r in Hd. now apply String.eqb_eq in Hd.
  - intros parts E. rewrite E in Hl.
    destruct parts; [discriminate|]. split; [discriminate|exact Hl].
Qed.

Lemma names_gE e : names_in ["epoch"] (gE e).
Proof.
  unfold gE. destruct (e =? 0)%N; intros n t; simpl; intuition congruence.
Qed.
Lemma names_gR rel : names_in ["release"] (gR rel).
Proof. intros n t; simpl; intuition congruence. Qed.
Lemma names_gP pre : names_in ["pre"; "pre_l"; "pre_n"] (gP pre).
Proof.
  destruct pre as [[l k]|]; intros x t; simpl; intuition congruence.
Qed.
Lemma names_gPO post :
  names_in ["post"; "post_l"; "post_n2"; "post_n1"] (gPO post).
Proof. destruct post; intros x t; simpl; intuition congruence. Qed.
Lemma names_gD dev : names_in ["dev"; "dev_l"; "dev_n"] (gD dev).
Proof. destruct dev; intros x t; simpl; intuition congruence. Qed.
Lemma names_gL loc : names_in ["local"] (gL loc).
Proof. destruct loc; intros x t; simpl; intuition congruence. Qed.

(** A canonical version is what [Version] reads from its [str]. *)
Lemma Version_str v :
  canonical v = true -> Packaging.Version (Packaging.str v) = Ok v.
Proof.
  intros Hc.
  destruct (canonical_fields v Hc) as (Hrel & Hpre & Hpost & Hdev & Hloc).
  rewrite str_version_text. unfold Packaging.Version.
  rewrite search_version; auto.
  2:{ unfold loc_texts. destruct (Packaging.local v) as [parts|]; simpl; auto.
      destruct (Hloc parts eq_refl) as [Hne Hall]. split.
      - destruct parts; [congruence|discriminate].
      - now apply canonical_parts_chunks. }
  unfold version_groups, inner_groups.
  pose proof (names_gE (Packaging.epoch v)) as Ne.
  pose proof (names_gR (Packaging.release v)) as Nr.
  pose proof (names_gP (Packaging.pre v)) as Np.
  pose proof (names_gPO (option_map snd (Packaging.post v))) as Npo.
  pose proof (names_gD (option_map snd (Packaging.dev v))) as Nd.
  pose proof (names_gL (loc_texts v)) as Nl.
  lookups.
  destruct v as [e r p po d l]; simpl in *.
  (* epoch *)
  assert (Fe : (if Packaging.truthy (Re.group "epoch" (gE e))
                then Packaging.int match Re.group "epoch" (gE e) with
                                   | Some t => t | None => "" end
                else Ok 0%N) = Ok e).
  { unfold gE. destruct (N.eqb_spec e 0) as [->|Hne]; [reflexivity|].
    change (Re.group "epoch" [("epoch", Py.str_of_int e)])
      with (Some (Py.str_of_int e)).
    cbv beta iota. rewrite int_str_of_int.
    destruct (str_of_int_chunk e) as [Hn _].
    destruct (Py.str_of_int e); [congruence|reflexivity]. }
  rewrite Fe. clear Fe. cbn [bind].
  (* release *)
  change (Re.group "release" (gR r)) with (Some (txtR r)).
  cbv beta iota. unfold txtR.
  rewrite (split_join Py.is_digit (Py.eqc dot) "." (map Py.str_of_int r)).
  2:{ apply digit_not_dot. }
  2:{ reflexivity. }
  2:{ destruct r; [congruence|discriminate]. }
  2:{ apply Forall_map, Forall_forall. intros n _.
      apply (str_of_int_chunk n). }
  rewrite mapM_int_str. cbn [bind].
  (* pre *)
  assert (Fp : Packaging._parse_letter_version
                 (Re.group "pre_l" (gP p)) (Re.group "pre_n" (gP p)) = Ok p).
  { destruct p as [[lp n]|]; [|reflexivity].
    change (Re.group "pre_l" (gP (Some (lp, n)))) with (Some lp).
    change (Re.group "pre_n" (gP (Some (lp, n)))) with (Some (Py.str_of_int n)).
    simpl in Hpre.
    destruct Hpre as [-> | [-> | ->]];
      unfold Packaging._parse_letter_version; simpl Py.lower;
      cbv beta iota; simpl String.eqb; cbv beta iota;
      rewrite int_str_of_int; reflexivity. }
  rewrite Fp. clear Fp. cbn [bind].
  (* post *)
  assert (Fpo : Packaging._parse_letter_version
                  (Re.group "post_l" (gPO (option_map snd po)))
                  (Packaging.or_ (Re.group "post_n1" (gPO (option_map snd po)))
                     (Re.group "post_n2" (gPO (option_map snd po)))) = Ok po).
  { destruct po as [[lp n]|]; [|reflexivity].
    rewrite (Hpost lp n eq_refl).
    change (Re.group "post_l" (gPO (option_map snd (Some ("post", n)))))
      with (Some "post").
    change (Packaging.or_ _ _) with (Some (Py.str_of_int n)).
    unfold Packaging._parse_letter_version; simpl Py.lower;
      cbv beta iota; simpl String.eqb; cbv beta iota;
      rewrite int_str_of_int; reflexivity. }
  rewrite Fpo. clear Fpo. cbn [bind].
  (* dev *)
  assert (Fd : Packaging._parse_letter_version
                 (Re.group "dev_l" (gD (option_map snd d)))
                 (Re.group "dev_n" (gD (option_map snd d))) = Ok d).
  { destruct d as [[lp n]|]; [|reflexivity].
    rewrite (Hdev lp n eq_refl).
    change (Re.group "dev_l" (gD (option_map snd (Some ("dev", n)))))
      with (Some "dev").
    change (Re.group "dev_n" (gD (option_map snd (Some ("dev", n)))))
      with (Some (Py.str_of_int n)).
    unfold Packaging._parse_letter_version; simpl Py.lower;
      cbv beta iota; simpl String.eqb; cbv beta iota;
      rewrite int_str_of_int; reflexivity. }
  rewrite Fd. clear Fd. cbn [bind].
  (* local *)
  assert (Fl : Packaging._parse_local_version
                 (Re.group "local" (gL (loc_texts
                    (Packaging.mkVersion e r p po d l)))) = Ok l).
  { unfold loc_texts. simpl. destruct l as [parts|]; [|reflexivity].
    destruct (Hloc parts eq_refl) as [Hne Hall].
    change (Re.group "local" (gL (option_map (map Packaging.str_local_part)
                                    (Some parts))))
      with (Some (Py.join "." (map Packaging.str_local_part parts))).
    unfold Packaging._parse_local_version. fold local_conv.
    rewrite (split_join Packaging.is_alnum_i is_name_sep ".").
    - now rewrite mapM_local_str.
    - apply alnum_i_not_sep.
    - reflexivity.
    - destruct parts; [congruence|discriminate].
    - now apply Forall_all_chunk, canonical_parts_chunks. }
  rewrite Fl. reflexivity.
Qed.

(** ** The sanitized fallback *)

Lemma az09_not_dot c : az09 c = true -> Py.eqc c dot = false.
Proof. char_cases c. Qed.
Lemma not_az09_spec c : not_az09 c = negb (az09 c).
Proof. reflexivity. Qed.
Lemma dot_bad : not_az09 dot = true.
Proof. reflexivity. Qed.

Lemma no_dd_replace_runs s : forall b,
  no_dd b (replace_runs not_az09 "." b s) = true.
Proof.
  induction s as [|c s IH]; intros b; simpl; auto.
  rewrite not_az09_spec. destruct (az09 c) eqn:Hc; simpl.
  - now rewrite az09_not_dot, Hc, IH.
  - destruct b; [apply IH|]. sapp. simpl. apply IH.
Qed.

Lemma mem_dot c : Py.mem c "." = Py.eqc c dot.
Proof. simpl. apply orb_false_r. Qed.

Lemma no_dd_lstrip s : forall b,
  no_dd b s = true -> no_dd true (Py.lstrip "." s) = true.
Proof.
  induction s as [|c s IH]; intros b H; [reflexivity|].
  cbn [Py.lstrip]. rewrite mem_dot. simpl in H.
  destruct (Py.eqc c dot) eqn:Hc.
  - apply andb_true_iff in H as [_ H]. eauto.
  - simpl. now rewrite Hc.
Qed.

Lemma dotted_nonempty s : dotted true s = true -> s <> "".
Proof. destruct s; [discriminate|discriminate]. Qed.

Lemma dotted_rstrip s : forall b,
  no_dd b s = true ->
  Py.rstrip "." s = "" \/ dotted b (Py.rstrip "." s) = true.
Proof.
  induction s as [|c s IH]; intros b H; [now left|].
  simpl in H. cbn [Py.rstrip]. rewrite mem_dot.
  destruct (Py.eqc c dot) eqn:Hc.
  - apply andb_true_iff in H as [Hb H]. destruct (IH true H) as [E|E].
    + rewrite E. now left.
    + destruct (Py.rstrip "." s) as [|x t] eqn:Et; [now left|].
      right. cbn [dotted]. rewrite Hc, Hb. exact E.
  - apply andb_true_iff in H as [Ha H]. right.
    destruct (IH false H) as [E|E].
    + rewrite E. simpl. now rewrite Hc, Ha.
    + destruct (Py.rstrip "." s) as [|x t] eqn:Et.
      * simpl. now rewrite Hc, Ha.
      * cbn [dotted]. rewrite Hc, Ha. exact E.
Qed.

Lemma sanitize_dotted v : sanitize v = "" \/ dotted true (sanitize v) = true.
Proof.
  unfold sanitize, Py.strip. rewrite sub_plus_cls_all.
  apply dotted_rstrip.
  apply (no_dd_lstrip _ false), no_dd_replace_runs.
Qed.

Lemma join_split s : Py.join "." (Py.split_on is_dot s) = s.
Proof.
  induction s as [|c s IH]; [reflexivity|].
  cbn [Py.split_on]. destruct (is_dot c) eqn:Hc.
  - apply Ascii.eqb_eq in Hc. subst c.
    destruct (Py.split_on is_dot s) as [|p ps] eqn:E.
    + now destruct (split_on_nonnil is_dot s).
    + change (Py.join "." ("" :: p :: ps)) with ("." +:+ Py.join "." (p :: ps)).
      now rewrite IH.
  - destruct (Py.split_on is_dot s) as [|p ps] eqn:E.
    + now destruct (split_on_nonnil is_dot s).
    + destruct ps as [|q ps].
      * simpl in IH. simpl. now rewrite IH.
      * change (Py.join "." (String c p :: q :: ps))
          with (String c (p +:+ "." +:+ Py.join "." (q :: ps))).
        now rewrite <- IH.
Qed.

Lemma dotted_split s : forall b,
  dotted b s = true ->
  exists p ps, Py.split_on is_dot s = p :: ps
               /\ Py.all az09 p = true /\ (b = true -> p <> "")
               /\ Forall (chunk_ok az09) ps.
Proof.
  induction s as [|c s IH]; intros b H.
  - exists "", []. simpl in H.
    split; [reflexivity|]. split; [reflexivity|]. split; [|constructor].
    intros ->. discriminate.
  - cbn [dotted] in H. cbn [Py.split_on]. unfold is_dot at 1.
    destruct (Py.eqc c dot) eqn:Hc.
    + apply andb_true_iff in H as [Hb H].
      destruct (IH true H) as (p & ps & -> & Hp & Hne & Hps).
      exists "", (p :: ps).
      split; [reflexivity|]. split; [reflexivity|]. split.
      * intros ->. discriminate.
      * constructor; [split|]; auto.
    + apply andb_true_iff in H as [Ha H].
      destruct (IH false H) as (p & ps & -> & Hp & _ & Hps).
      exists (String c p), ps.
      split; [reflexivity|].
      split; [simpl; now rewrite Ha, Hp|].
      split; [intros _; discriminate|exact Hps].
Qed.

Lemma sanitize_parts v :
  sanitize v <> "" ->
  exists parts, sanitize v = Py.join "." parts /\ parts <> []
                /\ Forall (chunk_ok Packaging.is_alnum_i) parts.
Proof.
  intros Hne. destruct (sanitize_dotted v) as [E|E]; [congruence|].
  destruct (dotted_split _ _ E) as (p & ps & Hs & Hp & Hpn & Hps).
  exists (p :: ps). repeat split.
  - now rewrite <- Hs, join_split.
  - discriminate.
  - constructor.
    + split; auto. eapply all_impl; [apply az09_alnum_i|exact Hp].
    + eapply Forall_impl; [exact Hps|].
      intros q [Hq1 Hq2]. split; auto.
      eapply all_impl; [apply az09_alnum_i|exact Hq2].
Qed.

(** ** [normalize_pep440] *)

Lemma str_Version_sound s :
  str_Version s = Raise InvalidVersion
  \/ exists c, str_Version s = Ok c /\ str_Version c = Ok c.
Proof.
  unfold str_Version.
  destruct (Version_sound s) as [->|(v & -> & Hc)]; [now left|].
  right. exists (Packaging.str v). simpl.
  now rewrite (Version_str v Hc).
Qed.

Lemma str_Version_fallback v :
  sanitize v <> "" ->
  exists c, str_Version ("0+" +:+ sanitize v) = Ok c /\ str_Version c = Ok c.
Proof.
  intros Hne. destruct (sanitize_parts v Hne) as (parts & E & Hp & Hall).
  assert (S : Re.search Packaging._regex ("0+" +:+ sanitize v)
              = Some (version_groups 0 [0%N] None None None (Some parts))).
  { rewrite <- (search_version 0 [0%N] None None None (Some parts)).
    - f_equal. rewrite E. reflexivity.
    - discriminate.
    - exact I.
    - split; auto. }
  destruct (Version_of_search _ _ S) as (x & Hx & Hc).
  destruct (str_Version_sound ("0+" +:+ sanitize v)) as [F|H]; auto.
  unfold str_Version in F. rewrite Hx in F. discriminate.
Qed.

Lemma normalize_pep440_cases v :
  (normalize_pep440 v = Raise InvalidVersion /\ sanitize v = "")
  \/ exists c, normalize_pep440 v = Ok c /\ str_Version c = Ok c.
Proof.
  unfold normalize_pep440.
  destruct (str_Version_sound v) as [->|(c & -> & Hc)]; [|right; eauto].
  destruct (str_Version_sound
              (substitute v
               +:+ (if Py.mem "+" (substitute v) then "." else "+")
               +:+ sanitize v)) as [->|(c & -> & Hc)]; [|right; eauto].
  destruct (string_dec (sanitize v) "") as [E|E].
  - left. split; auto. rewrite E. reflexivity.
  - right. now apply str_Version_fallback.
Qed.

(** ** What the methods of [_WhlFile] add to the archive *)

Lemma read_app : forall src n, fst (read n src) ++ snd (read n src) = src.
Proof.
  induction src as [|x src IH]; intros n; simpl; auto.
  destruct (n =? 0)%N; auto.
  specialize (IH (N.pred n)).
  destruct (read (N.pred n) src) as [blk rest]; simpl in *. now rewrite IH.
Qed.

Lemma read_spec n : (0 < n)%N -> forall src,
  fst (read n src) ++ snd (read n src) = src
  /\ (src <> [] -> fst (read n src) <> []).
Proof.
  intros Hn src. split; [apply read_app|].
  destruct src as [|x src]; [congruence|]. intros _. simpl.
  destruct (N.eqb_spec n 0); [lia|].
  destruct (read (N.pred n) src); discriminate.
Qed.

Lemma copy_blocks_spec : forall fuel fsrc fdst hash size,
  length fsrc < fuel ->
  WhlFile.copy_blocks fuel fsrc fdst hash size
  = (fdst ++ fsrc, {| Hashlib.fed := Hashlib.fed hash ++ fsrc |},
     (size + N.of_nat (length fsrc))%N).
Proof.
  induction fuel as [|fuel IH]; intros fsrc fdst hash size Hf; [lia|].
  cbn [WhlFile.copy_blocks].
  destruct (read_spec (2 ^ 20) ltac:(reflexivity) fsrc) as [Happ Hne].
  destruct (read (2 ^ 20) fsrc) as [blk rest] eqn:E. simpl in Happ, Hne.
  destruct blk as [|b blk].
  - destruct fsrc as [|x fsrc]; [|now destruct Hne].
    rewrite app_nil_r, N.add_0_r. destruct hash. simpl.
    now rewrite app_nil_r.
  - rewrite IH.
    + subst fsrc. unfold Hashlib.update. cbn [Hashlib.fed].
      rewrite <- !app_assoc. f_equal.
      rewrite length_app. lia.
    + subst fsrc. rewrite length_app in Hf. simpl in *. lia.
Qed.

Lemma zipinfo_spec self filename zi :
  WhlFile._zipinfo self filename = Ok zi ->
  header_fixed zi
  /\ Zipfile.filename zi = Zipfile.until_nul (Py.lstrip "/" filename).
Proof.
  unfold WhlFile._zipinfo, Zipfile.ZipInfo_init. simpl.
  intros H. inversion H; subst. simpl. repeat split.
Qed.

Lemma zipinfo_ok self filename :
  exists zi, WhlFile._zipinfo self filename = Ok zi.
Proof. unfold WhlFile._zipinfo. simpl. eauto. Qed.

Lemma lstrip_no_slash s : no_leading_slash (Py.lstrip "/" s).
Proof.
  induction s as [|c s IH]; [exact I|].
  cbn [Py.lstrip Py.mem]. unfold Py.eqc.
  destruct (Ascii.eqb_spec c "/"); simpl; auto.
Qed.

Lemma until_nul_no_slash s :
  no_leading_slash s -> no_leading_slash (Zipfile.until_nul s).
Proof.
  destruct s as [|c s]; simpl; auto.
  destruct (Py.eqc c Zipfile.nul); simpl; auto.
Qed.

Lemma extends_refl P self : extends P self self.
Proof.
  exists [], []. rewrite !app_nil_r. repeat split; auto.
Qed.

Lemma extends_trans P a b c : extends P a b -> extends P b c -> extends P a c.
Proof.
  intros (m1 & r1 & F1 & R1 & H1 & C1 & D1 & S1 & N1 & K1)
         (m2 & r2 & F2 & R2 & H2 & C2 & D2 & S2 & N2 & K2).
  exists (m1 ++ m2), (r1 ++ r2).
  rewrite F2, F1, R2, R1, <- !app_assoc.
  repeat split; try congruence. now apply Forall2_app.
Qed.

Lemma add_to_record_write zinfo data filename hash size self :
  WhlFile.closed self = false ->
  exists self',
    WhlFile.write_member zinfo data self = (Ok tt, self') /\
    snd (WhlFile._add_to_record filename hash size self')
    = WhlFile.mkWhlFile (WhlFile.zf_filename self) (WhlFile.compression self)
        (WhlFile.filelist self ++ [(zinfo, data)]) (WhlFile.closed self)
        (WhlFile._distinfo_dir self) (WhlFile._strip_path_prefixes self)
        (WhlFile._record self
         ++ [(filename, hash, Py.b (Py.str_of_int size))])
    /\ fst (WhlFile._add_to_record filename hash size self') = Ok tt.
Proof.
  intros Hc. unfold WhlFile.write_member. rewrite Hc.
  eexists; split; [reflexivity|]. split; reflexivity.
Qed.

Lemma add_leaf_extends package_filename content self :
  extends well_written self
    (snd (WhlFile.add_leaf package_filename content self)).
Proof.
  unfold WhlFile.add_leaf.
  destruct (zipinfo_ok self (WhlFile.arcname_from self package_filename))
    as [zi Hz].
  rewrite Hz. destruct (zipinfo_spec _ _ _ Hz) as [Hh Hn].
  destruct content as [fsrc|]; [|apply extends_refl].
  rewrite copy_blocks_spec by lia. cbn [Hashlib.fed Hashlib.sha256 app].
  unfold WhlFile.write_member.
  destruct (WhlFile.closed self) eqn:Hc; [apply extends_refl|].
  cbn [WhlFile._add_to_record snd WhlFile.filelist WhlFile._record
       WhlFile.zf_filename WhlFile.compression WhlFile.closed
       WhlFile._distinfo_dir WhlFile._strip_path_prefixes].
  unfold extends.
  cbn [WhlFile._add_to_record snd WhlFile.filelist WhlFile._record
       WhlFile.zf_filename WhlFile.compression WhlFile.closed
       WhlFile._distinfo_dir WhlFile._strip_path_prefixes].
  exists [(zi, fsrc)],
    [(WhlFile.arcname_from self package_filename,
      WhlFile._serialize_digest {| Hashlib.fed := fsrc |},
      Py.b (Py.str_of_int (0 + N.of_nat (length fsrc))))].
  split; [reflexivity|]. split; [reflexivity|].
  split; [|repeat split; auto].
  constructor; [|constructor].
  split; [exact Hh|]. split; [split; reflexivity|].
  cbn [fst]. split; [|exact Hn].
  rewrite Hn. apply until_nul_no_slash, lstrip_no_slash.
Qed.

Lemma add_node_extends : forall n package_filename self,
  extends well_written self (snd (WhlFile.add_node package_filename n self)).
Proof.
  fix IH 1. intros [content mtime mode|children] package_filename self.
  - apply add_leaf_extends.
  - cbn [WhlFile.add_node]. revert self.
    induction children as [|[file_ child] l IHl]; intros self.
    + apply extends_refl.
    + pose proof (IH child (package_filename +:+ "/" +:+ file_) self) as H.
      destruct (WhlFile.add_node (package_filename +:+ "/" +:+ file_) child self)
        as [[u|e] self'] eqn:E; cbn [snd] in *.
      * eapply extends_trans; [exact H|apply IHl].
      * exact H.
Qed.

Lemma add_file_extends w package_filename real_filename self :
  extends well_written self
    (snd (WhlFile.add_file w package_filename real_filename self)).
Proof.
  unfold WhlFile.add_file. destruct (fs w real_filename).
  - apply add_node_extends.
  - apply add_leaf_extends.
Qed.

Lemma add_string_extends filename c self :
  extends well_written self (snd (WhlFile.add_string filename c self)).
Proof.
  unfold WhlFile.add_string.
  destruct (zipinfo_ok self filename) as [zi Hz].
  rewrite Hz. destruct (zipinfo_spec _ _ _ Hz) as [Hh Hn].
  unfold WhlFile.write_member.
  destruct (WhlFile.closed self) eqn:Hc; [apply extends_refl|].
  unfold extends.
  cbn [WhlFile._add_to_record snd WhlFile.filelist WhlFile._record
       WhlFile.zf_filename WhlFile.compression WhlFile.closed
       WhlFile._distinfo_dir WhlFile._strip_path_prefixes].
  eexists [(zi, _)], [(_, _, _)].
  split; [reflexivity|]. split; [reflexivity|].
  split; [|repeat split; auto].
  constructor; [|constructor].
  split; [exact Hh|]. split; [split; reflexivity|].
  cbn [fst]. split; [|exact Hn].
  rewrite Hn. apply until_nul_no_slash, lstrip_no_slash.
Qed.

Lemma add_recordfile_extends self :
  extends well_written self (snd (WhlFile.add_recordfile self)).
Proof.
  unfold WhlFile.add_recordfile.
  pose proof (add_string_extends (WhlFile.distinfo_path self "RECORD")
                (WhlFile.Bytes
                   (flat_map WhlFile.record_line
                      (WhlFile._record self
                       ++ [(WhlFile.distinfo_path self "RECORD", [], [])])))
                self) as H.
  destruct (WhlFile.add_string _ _ self) as [[u|e] self']; exact H.
Qed.

(** ** The run of [main] *)

Lemma skipn_length_app {A : Type} (l m : list A) :
  skipn (length l) (l ++ m) = m.
Proof. induction l as [|x l IH]; [reflexivity|exact IH]. Qed.

Lemma written_refl f : Maker.written f f = [].
Proof.
  unfold Maker.written.
  rewrite <- (app_nil_r (WhlFile.filelist f)) at 2.
  now rewrite skipn_length_app.
Qed.

Lemma written_members f ms f' :
  WhlFile.filelist f' = WhlFile.filelist f ++ ms ->
  Maker.written f f' = member_events ms.
Proof.
  intros E. unfold Maker.written. rewrite E.
  now rewrite skipn_length_app.
Qed.

Lemma written_trans f f1 f2 :
  extends well_written f f1 -> extends well_written f1 f2 ->
  Maker.written f f2 = Maker.written f f1 ++ Maker.written f1 f2.
Proof.
  intros (ms1 & rs1 & F1 & _) (ms2 & rs2 & F2 & _).
  rewrite (written_members f ms1 f1 F1), (written_members f1 ms2 f2 F2).
  rewrite (written_members f (ms1 ++ ms2) f2).
  - unfold member_events. apply map_app.
  - rewrite F2, F1. now rewrite <- app_assoc.
Qed.

Lemma step_ret {A : Type} (a : A) : archive_step (Maker.ret a).
Proof.
  intros st f H. exists f. simpl.
  rewrite written_refl, app_nil_r. repeat split; auto. apply extends_refl.
Qed.

Lemma step_raise {A : Type} e : archive_step (@Maker.raise A e).
Proof.
  intros st f H. exists f. simpl.
  rewrite written_refl, app_nil_r. repeat split; auto. apply extends_refl.
Qed.

Lemma step_lift {A : Type} (r : result A) : archive_step (Maker.lift r).
Proof.
  intros st f H. exists f. simpl.
  rewrite written_refl, app_nil_r. repeat split; auto. apply extends_refl.
Qed.

Lemma step_then {A B : Type} (m : Maker.M A) (k : A -> Maker.M B) :
  archive_step m -> (forall a, archive_step (k a)) ->
  archive_step (Maker.then_ m k).
Proof.
  intros Hm Hk st f H. unfold Maker.then_.
  destruct (Hm st f H) as (f1 & W1 & E1 & L1 & D1).
  destruct (m st) as [[a|e] st1]; cbn [snd] in *.
  - destruct (Hk a st1 f1 W1) as (f2 & W2 & E2 & L2 & D2).
    exists f2. split; [exact W2|]. split; [eapply extends_trans; eauto|].
    split; [|congruence].
    rewrite L2, L1, (written_trans _ _ _ E1 E2). now rewrite app_assoc.
  - exists f1. repeat split; auto.
Qed.

Lemma step_on_whlfile {A : Type} (m : WhlFile.W A) :
  (forall self, extends well_written self (snd (m self))) ->
  archive_step (Maker.on_whlfile m).
Proof.
  intros Hm st f H. unfold Maker.on_whlfile. rewrite H.
  specialize (Hm f). destruct (m f) as [r f']. simpl in *.
  exists f'. repeat split; auto.
Qed.

Lemma step_distinfo_path basename : archive_step (Maker.distinfo_path basename).
Proof.
  apply step_on_whlfile. intros self. apply extends_refl.
Qed.

Lemma step_add_file w p r : archive_step (Maker.add_file w p r).
Proof. apply step_on_whlfile. intros self. apply add_file_extends. Qed.

Lemma step_add_string p c :
  archive_step (Maker.on_whlfile (WhlFile.add_string p c)).
Proof. apply step_on_whlfile. intros self. apply add_string_extends. Qed.

Lemma step_add_wheelfile maker : archive_step (Maker.add_wheelfile maker).
Proof.
  unfold Maker.add_wheelfile. apply step_then.
  - apply step_distinfo_path.
  - intros p. apply step_add_string.
Qed.

Lemma step_add_metadata metadata name description version :
  archive_step (Maker.add_metadata metadata name description version).
Proof.
  unfold Maker.add_metadata. apply step_then; [apply step_lift|].
  intros text. apply step_then; [apply step_distinfo_path|].
  intros p. apply step_add_string.
Qed.

Lemma step_add_recordfile : archive_step Maker.add_recordfile.
Proof.
  unfold Maker.add_recordfile. apply step_then.
  - apply step_on_whlfile. intros self. apply add_recordfile_extends.
  - intros c. apply step_ret.
Qed.

Lemma step_add_all_files w l : archive_step (add_all_files w l).
Proof.
  induction l as [|[p r] l IH]; cbn [add_all_files].
  - apply step_ret.
  - apply step_then; [apply step_add_file|]. intros _. exact IH.
Qed.

Lemma step_add_extra_distinfo w l : archive_step (add_extra_distinfo w l).
Proof.
  induction l as [|x l IH]; cbn [add_extra_distinfo].
  - apply step_ret.
  - destruct x as [|a [|b [|c x]]]; try apply step_raise.
    apply step_then; [apply step_distinfo_path|]. intros p.
    apply step_then; [apply step_add_file|]. intros _. exact IH.
Qed.

Lemma body_then {A : Type} w (m : Maker.M A) (k : A -> Maker.M unit) nf n :
  archive_step m -> (forall a, body_step w (k a) nf n) ->
  body_step w (Maker.then_ m k) nf n.
Proof.
  intros Hm Hk st f H. unfold Maker.then_.
  destruct (Hm st f H) as (f1 & W1 & E1 & L1 & D1).
  destruct (m st) as [[a|e] st1]; cbn [snd fst] in *.
  - destruct (Hk a st1 f1 W1) as (f2 & W2 & E2 & D2 & HL).
    exists f2. split; [auto|]. split; [eapply extends_trans; eauto|].
    split; [congruence|].
    rewrite (written_trans _ _ _ E1 E2), L1 in *.
    destruct HL as [(p & R & Hp & Ho & L)|(e & R & L)].
    + left. exists p. repeat split; auto.
      rewrite L. now rewrite <- !app_assoc.
    + right. exists e. split; [auto|]. rewrite L. now rewrite <- !app_assoc.
  - exists f1. split; [auto|]. split; [auto|]. split; [auto|].
    right. eauto.
Qed.

Lemma body_final w nf n :
  body_step w
    match nf with
    | None => Maker.raise AttributeError
    | Some p =>
        match os_error w WriteNameFile with
        | Some e => Maker.raise e
        | None => Maker.emit (EvWriteText p n)
        end
    end nf n.
Proof.
  intros st f H. exists f. rewrite written_refl.
  destruct nf as [p|]; [destruct (os_error w WriteNameFile) eqn:Ho|];
    simpl.
  - split; [auto|]. split; [apply extends_refl|]. split; [auto|].
    right. rewrite app_nil_r. eauto.
  - split; [auto|]. split; [apply extends_refl|]. split; [auto|].
    left. exists p. auto.
  - split; [auto|]. split; [apply extends_refl|]. split; [auto|].
    right. rewrite app_nil_r. eauto.
Qed.

Lemma with_body_step a w maker all_files :
  body_step w (with_body a w maker all_files) (name_file a)
    (Maker.wheelname maker).
Proof.
  unfold with_body.
  apply body_then; [apply step_add_all_files|intros _].
  apply body_then; [apply step_add_wheelfile|intros _].
  apply body_then.
  { destruct (Maker.truthy (description_file a)); [|apply step_ret].
    apply step_then; [apply step_lift|]. intros d. apply step_ret. }
  intros description.
  apply body_then; [apply step_lift|intros metadata].
  apply body_then.
  { destruct (noincompatible_normalize_version a);
      [apply step_ret|apply step_lift]. }
  intros version_in_metadata.
  apply body_then; [apply step_add_metadata|intros _].
  apply body_then.
  { destruct (Maker.truthy (entry_points_file a)); [|apply step_ret].
    apply step_then; [apply step_distinfo_path|]. intros p.
    apply step_add_file. }
  intros _.
  apply body_then; [apply step_add_extra_distinfo|intros _].
  apply body_then; [apply step_add_recordfile|intros _].
  apply body_final.
Qed.

Lemma main_shape a w : run_shape a w (main a w).
Proof.
  unfold main.
  destruct (get_files_to_package (input_files a)) as [files|e];
    [|constructor].
  fold (maker_of a).
  destruct (maker_of a) as [maker|e] eqn:Hi; [|constructor].
  unfold Maker.__enter__.
  destruct (os_error w OpenArchive) as [e|]; [constructor|].
  cbn [initial Maker.on_disk Maker.log app].
  set (f0 := WhlFile.__init__ (Maker.filename maker)
               (Maker._distinfo_dir maker)
               (Maker._strip_path_prefixes maker)).
  set (st1 := Maker.mkState (Some f0) None [EvOpen (Maker.filename maker)]).
  destruct (with_body_step a w maker
              (sorted_items (map_to_list files)) st1 f0 eq_refl)
    as (f' & W & E & D & HL).
  destruct (with_body a w maker (sorted_items (map_to_list files)) st1)
    as [r st2]. cbn [fst snd] in *.
  unfold Maker.__exit__. rewrite W.
  destruct st2 as [wf od lg]. cbn [Maker._whlfile Maker.on_disk Maker.log] in *.
  subst od.
  destruct E as (ms & rs & F & R & H2 & C & _ & _ & N & _).
  assert (Hw : Forall2 well_written (WhlFile.filelist (WhlFile.close f'))
                 (WhlFile._record (WhlFile.close f'))).
  { simpl. rewrite F, R. exact H2. }
  assert (Hm : Maker.written f0 f'
               = member_events (WhlFile.filelist (WhlFile.close f'))).
  { cbn [WhlFile.close WhlFile.filelist]. rewrite F.
    apply (written_members f0 ms). now rewrite F. }
  rewrite N. cbn [WhlFile.zf_filename f0 WhlFile.__init__].
  destruct (os_error w CloseArchive) as [ec|] eqn:Hc.
  - destruct HL as [(p & -> & Hp & Ho & ->)|(e & -> & ->)];
      rewrite Hm; cbn [app].
    + apply (run_not_closed a w ec maker (WhlFile.close f')
               [EvWriteText p (Maker.wheelname maker)]); auto.
      right. now exists p.
    + rewrite <- (app_nil_r (member_events _)).
      apply (run_not_closed a w ec maker (WhlFile.close f') []); auto.
  - destruct HL as [(p & -> & Hp & Ho & ->)|(e & -> & ->)];
      rewrite Hm; cbn [app]; rewrite <- ?app_assoc; cbn [app].
    + now apply run_completed.
    + now apply run_failed.
Qed.

(** ** The dictionary of [get_files_to_package] *)

Lemma fill_files_lookup : forall l files,
  exists files',
    fill_files (input_pairs l) files = Ok files'
    /\ forall p, files' !! p
                 = match last_source p l with
                   | Some x => Some x
                   | None => files !! p
                   end.
Proof.
  induction l as [|[q r] l IH]; intros files.
  - exists files. split; [reflexivity|]. intros p. reflexivity.
  - cbn [input_pairs map fst snd fill_files].
    destruct (IH (<[q := r]> files)) as (files' & E & L).
    exists files'. split; [exact E|].
    intros p. rewrite L. cbn [last_source].
    destruct (last_source p l); [reflexivity|].
    destruct (String.eqb_spec q p) as [->|Hne].
    + apply lookup_insert_eq.
    + now apply lookup_insert_ne.
Qed.

Lemma get_files_lookup l :
  exists files,
    get_files_to_package (input_pairs l) = Ok files
    /\ forall p, files !! p = last_source p l.
Proof.
  destruct (fill_files_lookup l ∅) as (files & E & L).
  exists files. split; [exact E|]. intros p. rewrite L.
  destruct (last_source p l); [reflexivity|apply lookup_empty].
Qed.

Lemma sorted_items_perm l : sorted_items l ≡ₚ l.
Proof. apply merge_sort_Permutation. Qed.

Lemma all_files_spec (files : gmap string string) :
  List.NoDup (List.map fst (sorted_items (map_to_list files)))
  /\ forall p r, List.In (p, r) (sorted_items (map_to_list files))
                 <-> files !! p = Some r.
Proof.
  split.
  - apply NoDup_ListNoDup.
    assert (H : (sorted_items (map_to_list files)).*1 ≡ₚ (map_to_list files).*1)
      by (apply fmap_Permutation, sorted_items_perm).
    change (List.map fst (sorted_items (map_to_list files)))
      with ((sorted_items (map_to_list files)).*1).
    rewrite H. apply NoDup_fst_map_to_list.
  - intros p r. rewrite <- list_elem_of_In.
    rewrite (sorted_items_perm (map_to_list files)).
    apply elem_of_map_to_list.
Qed.

(** ** Replacement templates without escapes *)

Lemma parse_plain : forall s fuel,
  Py.mem backslash s = false -> String.length s < fuel ->
  Template.parse fuel s = Some (lits s).
Proof.
  induction s as [|c s IH]; intros fuel Hb Hf.
  - destruct fuel; [simpl in Hf; lia|reflexivity].
  - destruct fuel; [simpl in Hf; lia|].
    cbn [Py.mem] in Hb. apply orb_false_iff in Hb as [Hc Hs].
    cbn [Template.parse].
    assert (E : Py.eqc c "\" = false).
    { unfold Py.eqc in *. rewrite eqb_sym. exact Hc. }
    rewrite E. cbn [negb]. rewrite IH; auto. simpl in Hf. lia.
Qed.

Lemma expand_lits s m : Template.expand (lits s) m = s.
Proof. induction s as [|c s IH]; simpl; auto. sapp. now rewrite IH. Qed.

Lemma parse_template_plain s :
  Py.mem backslash s = false ->
  exists t, Template.parse_template s = Some t
            /\ forall m, Template.expand t m = s.
Proof.
  intros H. exists (lits s). split.
  - apply parse_plain; auto.
  - apply expand_lits.
Qed.

(** ** [re.sub] of the name line *)

Lemma F_lit : forall w s,
  String.prefix w s = false -> fails (Re.Lit w) s.
Proof.
  induction w as [|c w IH]; intros s H R p g k.
  - destruct s; discriminate.
  - destruct s as [|x s]; [destruct w; reflexivity|].
    simpl in H. destruct (ascii_dec c x) as [->|Hne].
    + destruct w as [|d w].
      * destruct s; discriminate.
      * change (Re.Lit (String x (String d w)))
          with (Re.Seq (Re.Chr x) (Re.Lit (String d w))).
        simpl. unfold Py.eqc. rewrite Ascii.eqb_refl. now apply IH.
    + assert (E : Py.eqc c x = false) by now apply Ascii.eqb_neq.
      destruct w as [|d w]; simpl; now rewrite E.
Qed.

Lemma M_lit C : forall w, matches C (Re.Lit w) w [].
Proof.
  induction w as [|c w IH].
  - apply M_eps.
  - destruct w as [|d w].
    + apply M_chr.
    + change (Re.Lit (String c (String d w)))
        with (Re.Seq (Re.Chr c) (Re.Lit (String d w))).
      change (String c (String d w)) with (String c "" +:+ String d w).
      change (@nil (string * string)) with (@nil (string * string) ++ []).
      eapply M_seq; [|exact IH|].
      * apply (M_chr (fun _ => True)).
      * intros; exact I.
Qed.

Lemma line_end_head s : line_end s -> head_not Maker.not_newline s.
Proof. intros [->|[r ->]]; simpl; auto. Qed.

Lemma line_end_eol s : line_end s -> Re.at_eol true s = true.
Proof. intros [->|[r ->]]; reflexivity. Qed.

Lemma M_eol_line : matches line_end (Re.Eol true) "" [].
Proof.
  intros R q s' g k res Hs Hk. sapp. simpl.
  rewrite (line_end_eol s' Hs). apply Hk.
Qed.

Lemma match_name_line p line rest :
  Re.at_bol true p = true ->
  Py.all Maker.not_newline line = true -> line_end rest ->
  Re.match_at Maker.re_name_line p (("Name: " +:+ line) +:+ rest)
  = Some ([], rest).
Proof.
  intros Hb Hl He. unfold Re.match_at, Maker.re_name_line.
  change (Re.exec (Re.Seq (Re.Bol true) ?r) p ?s ?g ?k)
    with (if Re.at_bol true p then Re.exec r p s g k else None).
  rewrite Hb.
  assert (M : matches line_end
                (Re.Seq (Re.Lit "Name: ")
                   (Re.Seq (Re.Star (Re.Cls Maker.not_newline)) (Re.Eol true)))
                ("Name: " +:+ line) []).
  { eapply M_eq.
    { eapply M_seq.
      { apply (M_lit (fun _ => True)). }
      { eapply M_seq.
        { apply (M_star_cls Maker.not_newline line Hl). }
        { apply M_eol_line. }
        { intros s' Hs. now apply line_end_head. } }
      { intros; exact I. } }
    { now rewrite app_nil_r_s. }
    { reflexivity. } }
  apply M; auto.
Qed.

Lemma match_not_bol p s :
  Re.at_bol true p = false -> Re.match_at Maker.re_name_line p s = None.
Proof.
  intros H. unfold Re.match_at, Maker.re_name_line.
  change (Re.exec (Re.Seq (Re.Bol true) ?r) p ?s ?g ?k)
    with (if Re.at_bol true p then Re.exec r p s g k else None).
  now rewrite H.
Qed.

Lemma match_not_name p s :
  Py.startswith s "Name: " = false ->
  Re.match_at Maker.re_name_line p s = None.
Proof.
  intros H. unfold Re.match_at, Maker.re_name_line.
  change (Re.exec (Re.Seq (Re.Bol true) ?r) p ?s ?g ?k)
    with (if Re.at_bol true p then Re.exec r p s g k else None).
  destruct (Re.at_bol true p); auto.
  change (Re.exec (Re.Seq (Re.Lit "Name: ") ?r) p ?s ?g ?k)
    with (Re.exec (Re.Lit "Name: ") p s g
            (fun p' s' g' => Re.exec r p' s' g' k)).
  now apply F_lit.
Qed.

Section NameLines.
Variable repl : string -> string.
Variable new : string.
Hypothesis repl_new : forall m, repl m = new.

Local Abbreviation scan := (Re.sub_scan Maker.re_name_line repl None).

Lemma scan_skip : forall t p rest,
  scan (String.length t) p (t +:+ rest) = scan 0 (lastp p t) rest.
Proof.
  induction t as [|c t IH]; intros p rest; [reflexivity|].
  sapp. cbn [String.length Re.sub_scan lastp]. apply IH.
Qed.

Lemma at_bol_not_newline c :
  Maker.not_newline c = true -> Re.at_bol true (Some c) = false.
Proof.
  unfold Maker.not_newline. simpl. now destruct (Py.eqc c Re.newline).
Qed.

Lemma at_bol_lastp : forall line p,
  Py.all Maker.not_newline line = true ->
  Re.at_bol true p = false -> Re.at_bol true (lastp p line) = false.
Proof.
  induction line as [|c line IH]; intros p Hl Hp; auto.
  simpl in Hl. apply andb_true_iff in Hl as [Hc Hl].
  cbn [lastp]. apply IH; auto. now apply at_bol_not_newline.
Qed.

Lemma scan_midline : forall line p rest,
  Py.all Maker.not_newline line = true ->
  Re.at_bol true p = false ->
  scan 0 p (line +:+ rest) = line +:+ scan 0 (lastp p line) rest.
Proof.
  induction line as [|c line IH]; intros p rest Hl Hp; [reflexivity|].
  simpl in Hl. apply andb_true_iff in Hl as [Hc Hl].
  sapp. cbn [Re.sub_scan]. rewrite match_not_bol by exact Hp.
  cbn [lastp]. f_equal. apply IH; auto. now apply at_bol_not_newline.
Qed.

Lemma prefix_app w a b : String.prefix w a = true -> String.prefix w (a +:+ b) = true.
Proof.
  revert a. induction w as [|c w IH]; intros a H.
  - now destruct (a +:+ b).
  - destruct a as [|x a]; [discriminate|]. sapp. simpl in *.
    destruct (ascii_dec c x); [|discriminate]. auto.
Qed.

Lemma prefix_split w s :
  String.prefix w s = true -> s = w +:+ Py.drop (String.length w) s.
Proof.
  revert s. induction w as [|c w IH]; intros s H; [reflexivity|].
  destruct s as [|x s]; [discriminate|]. simpl in H.
  destruct (ascii_dec c x) as [->|]; [|discriminate].
  sapp. simpl. f_equal. auto.
Qed.

Lemma prefix_line w line rest :
  Py.all Maker.not_newline w = true ->
  line_end rest ->
  String.prefix w line = false -> String.prefix w (line +:+ rest) = false.
Proof.
  intros Hw He. revert line. induction w as [|c w IH]; intros line H.
  - destruct line; discriminate.
  - simpl in Hw. apply andb_true_iff in Hw as [Hc Hw].
    destruct line as [|x line].
    + sapp. destruct He as [->|[r ->]]; [reflexivity|].
      simpl. destruct (ascii_dec c Re.newline) as [->|]; [|reflexivity].
      discriminate.
    + sapp. simpl in *. destruct (ascii_dec c x); auto.
Qed.

Lemma all_drop f n s : Py.all f s = true -> Py.all f (Py.drop n s) = true.
Proof.
  revert s. induction n as [|n IH]; intros s H; [exact H|].
  destruct s as [|c s]; [reflexivity|].
  simpl in H. apply andb_true_iff in H as [_ H]. simpl. auto.
Qed.

Lemma lastp_some : forall t p q c, lastp p (String c t) = lastp q (String c t).
Proof. reflexivity. Qed.

Lemma scan_line p line rest :
  Re.at_bol true p = true ->
  Py.all Maker.not_newline line = true -> line_end rest ->
  scan 0 p (line +:+ rest)
  = (if Py.startswith line "Name: " then new else line)
    +:+ scan 0 (lastp p line) rest.
Proof.
  intros Hp Hl He. unfold Py.startswith.
  destruct (String.prefix "Name: " line) eqn:Hpre.
  - pose proof (prefix_split _ _ Hpre) as E.
    set (l' := Py.drop (String.length "Name: ") line) in E.
    assert (Hl' : Py.all Maker.not_newline l' = true)
      by now apply all_drop.
    pose proof (match_name_line p l' rest Hp Hl' He) as M.
    rewrite <- E in M.
    destruct line as [|c tl]; [discriminate|].
    sapp. cbn [Re.sub_scan]. sapp. rewrite M.
    replace (String.length (String c (tl +:+ rest)) - String.length rest)
      with (S (String.length tl))
      by (simpl; rewrite length_app_s; lia).
    rewrite repl_new. cbn [option_map lastp]. f_equal.
    apply scan_skip.
  - destruct line as [|c tl]; [reflexivity|].
    simpl in Hl. apply andb_true_iff in Hl as [Hc Htl].
    sapp. cbn [Re.sub_scan].
    rewrite match_not_name.
    + f_equal. cbn [lastp]. apply scan_midline; auto.
      now apply at_bol_not_newline.
    + change (String c (tl +:+ rest)) with (String c tl +:+ rest).
      apply prefix_line; auto.
Qed.

Lemma scan_newline q r :
  scan 0 q (String Re.newline r)
  = String Re.newline (scan 0 (Some Re.newline) r).
Proof.
  cbn [Re.sub_scan]. now rewrite match_not_name.
Qed.

Lemma take_span_dropwhile f s :
  s = Py.take (span f s) s +:+ dropwhile f s
  /\ Py.all f (Py.take (span f s) s) = true.
Proof.
  induction s as [|c s [IH1 IH2]]; [split; reflexivity|].
  simpl. destruct (f c) eqn:Hc.
  - simpl. sapp. rewrite Hc. split; [now rewrite <- IH1|exact IH2].
  - split; reflexivity.
Qed.

Lemma dropwhile_line_end s : line_end (dropwhile Maker.not_newline s).
Proof.
  induction s as [|c s IH]; [now left|]. simpl.
  destruct (Maker.not_newline c) eqn:Hc; [exact IH|].
  right. exists s. f_equal. unfold Maker.not_newline, Py.eqc in Hc.
  apply negb_false_iff in Hc. now apply Ascii.eqb_eq in Hc.
Qed.

Lemma not_newline_sep c :
  Maker.not_newline c = true -> Py.eqc Re.newline c = false.
Proof.
  unfold Maker.not_newline, Py.eqc. intros H.
  apply negb_true_iff in H. rewrite eqb_sym. exact H.
Qed.

Lemma lines_last line :
  Py.all Maker.not_newline line = true -> lines line = [line].
Proof. apply (split_chunk_end Maker.not_newline). apply not_newline_sep. Qed.

Lemma lines_cons line r :
  Py.all Maker.not_newline line = true ->
  lines (line +:+ String Re.newline r) = line :: lines r.
Proof.
  intros H. apply (split_chunk_sep Maker.not_newline); auto.
  apply not_newline_sep.
Qed.

Lemma join_cons sep a l :
  l <> [] -> Py.join sep (a :: l) = a +:+ sep +:+ Py.join sep l.
Proof. destruct l; [congruence|reflexivity]. Qed.

Lemma scan_lines (rw : string -> string) :
  (forall line, rw line = if Py.startswith line "Name: " then new else line) ->
  forall n s p,
    String.length s <= n -> Re.at_bol true p = true ->
    scan 0 p s = Py.join nl (map rw (lines s)).
Proof.
  intros Hrw. induction n as [|n IH]; intros s p Hn Hp.
  - destruct s; [|simpl in Hn; lia]. simpl. rewrite Hrw. reflexivity.
  - destruct (take_span_dropwhile Maker.not_newline s) as [E Hl].
    pose proof (dropwhile_line_end s) as He.
    remember (Py.take (span Maker.not_newline s) s) as line eqn:Hline.
    remember (dropwhile Maker.not_newline s) as rest eqn:Hrest.
    clear Hline Hrest. subst s. rewrite scan_line; auto.
    destruct He as [Hr|[r Hr]]; rewrite Hr.
    + cbn [Re.sub_scan]. rewrite !app_nil_r_s.
      rewrite lines_last by exact Hl.
      cbn [map Py.join]. now rewrite Hrw.
    + rewrite lines_cons by exact Hl. cbn [map].
      rewrite join_cons.
      2:{ pose proof (split_on_nonnil (Py.eqc Re.newline) r) as Hne.
          unfold lines. destruct (Py.split_on _ r); [congruence|discriminate]. }
      rewrite scan_newline, Hrw. f_equal. unfold nl. sapp. f_equal.
      apply IH; [|reflexivity].
      rewrite Hr, length_app_s in Hn. simpl in Hn. lia.
Qed.
End NameLines.

Lemma sub_name_lines name metadata t :
  (forall m, Template.expand t m = "Name: " +:+ name) ->
  Re.sub Maker.re_name_line (Template.expand t) metadata 0
  = rewrite_name_lines name metadata.
Proof.
  intros Ht. unfold Re.sub, rewrite_name_lines.
  apply (scan_lines (Template.expand t) ("Name: " +:+ name) Ht
           (rewrite_name_line name) (fun _ => eq_refl)
           (String.length metadata)); auto.
Qed.

Lemma mem_backslash_name name :
  Py.mem backslash name = false ->
  Py.mem backslash ("Name: " +:+ name) = false.
Proof. intros H. simpl. exact H. Qed.

Lemma metadata_text_spec metadata name description version :
  Py.mem backslash name = false ->
  Maker.metadata_text metadata name description version
  = Ok (rewrite_name_lines name metadata
        +:+ "Version: " +:+ version +:+ nl +:+ nl
        +:+ (if Maker.truthy description
             then match description with Some d => d | None => "" end
             else "UNKNOWN")
        +:+ nl).
Proof.
  intros H. unfold Maker.metadata_text.
  destruct (parse_template_plain ("Name: " +:+ name)
              (mem_backslash_name name H)) as (t & -> & Ht).
  rewrite (sub_name_lines name metadata t Ht).
  now rewrite !app_assoc_s.
Qed.

(** ** Prefix stripping *)

Lemma replace_sep_id name : Py.replace os_path_sep "/" name = name.
Proof.
  induction name as [|c name IH]; [reflexivity|].
  cbn [Py.replace]. unfold Py.eqc.
  destruct (Ascii.eqb_spec c os_path_sep) as [->|_]; sapp; now rewrite IH.
Qed.

Lemma strip_first_first : forall before prefix after s,
  Forall (fun q => Py.startswith s q = false) before ->
  Py.startswith s prefix = true ->
  WhlFile.strip_first (before ++ prefix :: after) s
  = Py.drop (String.length prefix) s.
Proof.
  induction before as [|q before IH]; intros prefix after s Hb Hp.
  - simpl. now rewrite Hp.
  - inversion Hb as [|? ? Hq Hb']; subst. simpl. rewrite Hq. now apply IH.
Qed.

Lemma strip_first_none : forall prefixes s,
  Forall (fun q => Py.startswith s q = false) prefixes ->
  WhlFile.strip_first prefixes s = s.
Proof.
  induction prefixes as [|q prefixes IH]; intros s H; [reflexivity|].
  inversion H as [|? ? Hq H']; subst. simpl. rewrite Hq. now apply IH.
Qed.

Lemma startswith_split s p :
  Py.startswith s p = true -> s = p +:+ Py.drop (String.length p) s.
Proof.
  unfold Py.startswith. revert s.
  induction p as [|c p IH]; intros s H; [reflexivity|].
  destruct s as [|x s]; [discriminate|]. simpl in H.
  destruct (ascii_dec c x) as [->|]; [|discriminate].
  sapp. simpl. f_equal. auto.
Qed.

(* ===================================================================== *)
(** * The claims                                                          *)
(* ===================================================================== *)

(** ** Facts shared by the claims about the archive *)

Lemma zipinfo_eq self filename :
  WhlFile._zipinfo self filename = Ok (fixed_header self filename).
Proof. reflexivity. Qed.

Lemma fixed_header_fixed self filename :
  header_fixed (fixed_header self filename).
Proof. repeat split. Qed.

Lemma leading_slash_spec s : no_leading_slash s -> leading_slash s = false.
Proof.
  destruct s as [|c s]; [reflexivity|]. simpl. unfold Py.eqc.
  intros H. destruct (Ascii.eqb_spec c "/"); [contradiction|reflexivity].
Qed.

Lemma fixed_header_no_slash self filename :
  leading_slash (Zipfile.filename (fixed_header self filename)) = false.
Proof.
  apply leading_slash_spec. cbn [fixed_header Zipfile.filename].
  apply until_nul_no_slash, lstrip_no_slash.
Qed.

Lemma add_string_ok filename c self :
  WhlFile.closed self = false ->
  WhlFile.add_string filename c self
  = (Ok tt, with_member self (fixed_header self filename) (data_of c)
              filename).
Proof.
  intros Hc. unfold WhlFile.add_string, with_member. rewrite zipinfo_eq.
  unfold WhlFile.write_member. rewrite Hc. reflexivity.
Qed.

Lemma add_leaf_ok package_filename content self :
  WhlFile.closed self = false ->
  WhlFile.add_leaf package_filename (Some content) self
  = (Ok tt,
     with_member self
       (fixed_header self (WhlFile.arcname_from self package_filename))
       content (WhlFile.arcname_from self package_filename)).
Proof.
  intros Hc. unfold WhlFile.add_leaf, with_member. rewrite zipinfo_eq.
  rewrite copy_blocks_spec by lia.
  unfold WhlFile.write_member. rewrite Hc. reflexivity.
Qed.

Lemma add_file_regular w package_filename real_filename content mtime mode
      self :
  fs w real_filename = Some (File content mtime mode) ->
  WhlFile.closed self = false ->
  WhlFile.add_file w package_filename real_filename self
  = (Ok tt,
     with_member self
       (fixed_header self (WhlFile.arcname_from self package_filename))
       content (WhlFile.arcname_from self package_filename)).
Proof.
  intros Hf Hc. unfold WhlFile.add_file. rewrite Hf.
  cbn [WhlFile.add_node]. now apply add_leaf_ok.
Qed.

Lemma add_recordfile_ok self :
  WhlFile.closed self = false ->
  WhlFile.add_recordfile self
  = (Ok (flat_map WhlFile.record_line
           (WhlFile._record self
            ++ [(WhlFile.distinfo_path self "RECORD", [], [])])),
     with_member self
       (fixed_header self (WhlFile.distinfo_path self "RECORD"))
       (flat_map WhlFile.record_line
          (WhlFile._record self
           ++ [(WhlFile.distinfo_path self "RECORD", [], [])]))
       (WhlFile.distinfo_path self "RECORD")).
Proof.
  intros Hc. unfold WhlFile.add_recordfile.
  rewrite (add_string_ok _ _ _ Hc). reflexivity.
Qed.

Lemma Forall2_left {A B : Type} (P : A -> B -> Prop) (Q : A -> Prop) :
  (forall x y, P x y -> Q x) ->
  forall l k, Forall2 P l k -> Forall Q l.
Proof.
  intros H l k F. induction F; constructor; eauto.
Qed.

Lemma Forall2_weaken {A B : Type} (P Q : A -> B -> Prop) :
  (forall x y, P x y -> Q x y) ->
  forall l k, Forall2 P l k -> Forall2 Q l k.
Proof.
  intros H l k F. induction F; constructor; eauto.
Qed.

Lemma well_written_recorded m r : well_written m r -> recorded m r.
Proof. intros H. apply H. Qed.

Lemma extends_members (Q : Zipfile.ZipInfo * list byte -> Prop) self self' :
  (forall m r, well_written m r -> Q m) ->
  extends well_written self self' ->
  exists ms,
    WhlFile.filelist self' = WhlFile.filelist self ++ ms /\ Forall Q ms.
Proof.
  intros H (ms & rs & F & _ & H2 & _). exists ms. split; [exact F|].
  exact (Forall2_left _ _ H _ _ H2).
Qed.

Lemma extends_recorded self self' :
  extends well_written self self' ->
  exists ms rs,
    WhlFile.filelist self' = WhlFile.filelist self ++ ms
    /\ WhlFile._record self' = WhlFile._record self ++ rs
    /\ Forall2 recorded ms rs.
Proof.
  intros (ms & rs & F & R & H2 & _). exists ms, rs.
  split; [exact F|]. split; [exact R|].
  exact (Forall2_weaken _ _ well_written_recorded _ _ H2).
Qed.

(** The archive a run leaves on disk, whatever the run. *)
Lemma main_on_disk a w :
  match Maker.on_disk (snd (main a w)) with
  | Some f =>
      WhlFile.closed f = true
      /\ Forall2 well_written (WhlFile.filelist f) (WhlFile._record f)
  | None => True
  end.
Proof.
  destruct (main_shape a w); simpl; auto.
Qed.

Lemma bytes_rstrip_nil chars : forall l,
  bytes_rstrip chars l = [] -> Forall (fun x => existsb (Byte.eqb x) chars = true) l.
Proof.
  induction l as [|x l IH]; intros H; [constructor|].
  simpl in H. destruct (bytes_rstrip chars l) eqn:E; [|discriminate].
  constructor; [|auto].
  destruct (existsb (Byte.eqb x) chars); [reflexivity|discriminate].
Qed.

Lemma bytes_rstrip_last chars : forall l,
  match rev (bytes_rstrip chars l) with
  | x :: _ => existsb (Byte.eqb x) chars = false
  | [] => True
  end.
Proof.
  induction l as [|x l IH]; [exact I|].
  cbn [bytes_rstrip]. destruct (bytes_rstrip chars l) as [|y t] eqn:E.
  - destruct (existsb (Byte.eqb x) chars) eqn:Ex; simpl; auto.
  - change (rev (x :: y :: t)) with (rev (y :: t) ++ [x]).
    destruct (rev (y :: t)) as [|z u] eqn:Er.
    + apply (f_equal (@length byte)) in Er. rewrite length_rev in Er.
      discriminate.
    + exact IH.
Qed.

Lemma rstrip_pad l : ends_with_pad (bytes_rstrip (Py.b "=") l) = false.
Proof.
  unfold ends_with_pad. pose proof (bytes_rstrip_last (Py.b "=") l) as H.
  destruct (rev (bytes_rstrip (Py.b "=") l)) as [|x t]; [reflexivity|].
  simpl in H. now destruct (Byte.eqb x _).
Qed.

Lemma encode_head c s rest :
  Py.eqc c "/" = false ->
  bytes_leading_slash (Py.encode (String c s) ++ rest) = false.
Proof.
  destruct c as [[] [] [] [] [] [] [] []]; intros H;
    solve [discriminate H | reflexivity].
Qed.

Lemma record_line_head e : bytes_leading_slash (WhlFile.record_line e) = false.
Proof.
  destruct e as [[filename digest] size]. unfold WhlFile.record_line.
  pose proof (lstrip_no_slash filename) as H.
  destruct (Py.lstrip "/" filename) as [|c s]; [reflexivity|].
  apply encode_head. simpl in H. unfold Py.eqc.
  destruct (Ascii.eqb_spec c "/"); [contradiction|reflexivity].
Qed.

(* ===================================================================== *)
(** ** C3: [normalize_pep440] on malformed input                          *)
(* ===================================================================== *)

(** C3 fails on the code: the empty string, and a string without
    letters or digits, make [normalize_pep440] raise [InvalidVersion].
    Nothing is left of such a string after sanitizing, so the last
    fallback parses ["0+"], which is no version, outside any [try]. *)
Theorem C3_normalize_pep440_raises_without_alphanumerics :
  normalize_pep440 "" = Raise InvalidVersion
  /\ normalize_pep440 "---" = Raise InvalidVersion
  /\ sanitize "" = "" /\ sanitize "---" = ""
  /\ str_Version "0+" = Raise InvalidVersion.
Proof. repeat split. Qed.

(** On every other input the function does what its docstring says: as
    soon as something is left after sanitizing, that is as soon as the
    lowercased input has a character of [a-z0-9], the result is a valid
    version in normal form (parsing it and printing it gives it back). *)
Lemma normalize_pep440_valid (v : string) :
  sanitize v <> "" ->
  exists c, normalize_pep440 v = Ok c /\ str_Version c = Ok c.
Proof.
  intros H. destruct (normalize_pep440_cases v) as [[_ E]|Hc];
    [contradiction|exact Hc].
Qed.

(* ===================================================================== *)
(** ** C5: prefix stripping                                               *)
(* ===================================================================== *)

(** C5: for a path outside the dist-info directory, the first prefix of
    the strip list that the normalized path starts with is removed from
    its front, once; when none matches the path is kept.  With the
    prefixes [a/b] and [a], the path [a/b/c.txt] is stored, and
    recorded, as [c.txt]; with [a] first, as [b/c.txt]. *)
Theorem C5_first_matching_prefix_stripped :
  (forall self name before prefix after,
      Py.startswith (Py.replace os_path_sep "/" name)
        (WhlFile._distinfo_dir self) = false ->
      WhlFile._strip_path_prefixes self = before ++ prefix :: after ->
      Forall (fun q => Py.startswith (Py.replace os_path_sep "/" name) q
                       = false) before ->
      Py.startswith (Py.replace os_path_sep "/" name) prefix = true ->
      Py.replace os_path_sep "/" name
      = prefix +:+ WhlFile.arcname_from self name
      /\ WhlFile.arcname_from self name
         = Py.drop (String.length prefix) (Py.replace os_path_sep "/" name))
  /\ (forall self name,
         Py.startswith (Py.replace os_path_sep "/" name)
           (WhlFile._distinfo_dir self) = false ->
         Forall (fun q => Py.startswith (Py.replace os_path_sep "/" name) q
                          = false) (WhlFile._strip_path_prefixes self) ->
         WhlFile.arcname_from self name = Py.replace os_path_sep "/" name)
  /\ member_names (stripped_archive ["a/b"; "a"] "a/b/c.txt")
     = ["c.txt"; "d-1.0.dist-info/RECORD"]
  /\ members_named "d-1.0.dist-info/RECORD"
       (stripped_archive ["a/b"; "a"] "a/b/c.txt")
     = [Py.b ("c.txt,sha256=dpLDrTVAu4A8Ags67mbNiIcSMjTqDG5xQ8Ct1z_0Me0,3"
              +:+ nl +:+ "d-1.0.dist-info/RECORD,," +:+ nl)]
  /\ member_names (stripped_archive ["a"; "a/b"] "a/b/c.txt")
     = ["b/c.txt"; "d-1.0.dist-info/RECORD"].
Proof.
  split; [|split].
  - intros self name before prefix after Hd Hl Hb Hp.
    unfold WhlFile.arcname_from. rewrite Hd, Hl.
    rewrite (strip_first_first before prefix after _ Hb Hp).
    split; [|reflexivity]. now apply startswith_split.
  - intros self name Hd Hn. unfold WhlFile.arcname_from. rewrite Hd.
    now apply strip_first_none.
  - vm_compute. repeat split.
Qed.

(** C5 at the prefixes [a/b] and [a] and the path [a/b/c.txt]. *)
Lemma C5_first_matching_prefix_stripped_witness :
  Py.replace os_path_sep "/" "a/b/c.txt"
  = "a/b" +:+ WhlFile.arcname_from (stripping ["a/b"; "a"]) "a/b/c.txt"
  /\ WhlFile.arcname_from (stripping ["a/b"; "a"]) "a/b/c.txt"
     = Py.drop (String.length "a/b")
         (Py.replace os_path_sep "/" "a/b/c.txt").
Proof.
  apply (proj1 C5_first_matching_prefix_stripped
           (stripping ["a/b"; "a"]) "a/b/c.txt" [] "a/b" ["a"]).
  - reflexivity.
  - reflexivity.
  - constructor.
  - reflexivity.
Defined.

(* ===================================================================== *)
(** ** C6: member headers                                                 *)
(* ===================================================================== *)

(** C6: [_zipinfo] always succeeds, with a header dated 1980-01-01
    00:00:00, created on Unix, with the mode [0o777]; a regular file,
    whatever its modification time and mode, is added under that header;
    every member that [add_file], [add_string] and [add_recordfile] add
    has such a header, and so has every member of the archive a run of
    [main] leaves. *)
Theorem C6_member_headers_fixed :
  (forall self filename,
      WhlFile._zipinfo self filename = Ok (fixed_header self filename)
      /\ header_fixed (fixed_header self filename))
  /\ (forall w package_filename real_filename content st_mtime st_mode self,
         fs w real_filename = Some (File content st_mtime st_mode) ->
         WhlFile.closed self = false ->
         WhlFile.filelist
           (snd (WhlFile.add_file w package_filename real_filename self))
         = WhlFile.filelist self
           ++ [(fixed_header self
                  (WhlFile.arcname_from self package_filename), content)])
  /\ (forall w package_filename real_filename self,
         exists ms,
           WhlFile.filelist
             (snd (WhlFile.add_file w package_filename real_filename self))
           = WhlFile.filelist self ++ ms
           /\ Forall (fun m => header_fixed (fst m)) ms)
  /\ (forall filename c self,
         exists ms,
           WhlFile.filelist (snd (WhlFile.add_string filename c self))
           = WhlFile.filelist self ++ ms
           /\ Forall (fun m => header_fixed (fst m)) ms)
  /\ (forall self,
         exists ms,
           WhlFile.filelist (snd (WhlFile.add_recordfile self))
           = WhlFile.filelist self ++ ms
           /\ Forall (fun m => header_fixed (fst m)) ms)
  /\ (forall a w,
         match Maker.on_disk (snd (main a w)) with
         | Some f => Forall (fun m => header_fixed (fst m)) (WhlFile.filelist f)
         | None => True
         end).
Proof.
  assert (Q : forall m r, well_written m r -> header_fixed (fst m))
    by (intros m r H; apply H).
  split; [|split; [|split; [|split; [|split]]]].
  - intros self filename. split; [apply zipinfo_eq|apply fixed_header_fixed].
  - intros w p r content mtime mode self Hf Hc.
    now rewrite (add_file_regular w p r content mtime mode self Hf Hc).
  - intros w p r self.
    exact (extends_members _ _ _ Q (add_file_extends w p r self)).
  - intros filename c self.
    exact (extends_members _ _ _ Q (add_string_extends filename c self)).
  - intros self.
    exact (extends_members _ _ _ Q (add_recordfile_extends self)).
  - intros a w. pose proof (main_on_disk a w) as H.
    destruct (Maker.on_disk (snd (main a w))) as [f|]; [|exact I].
    destruct H as [_ H]. exact (Forall2_left _ _ Q _ _ H).
Qed.

(** C6 at a source file with mode [0o755]. *)
Lemma C6_member_headers_fixed_witness :
  WhlFile.filelist
    (snd (WhlFile.add_file sample_world "pkg/a.txt" "src/two.txt"
            (stripping [])))
  = WhlFile.filelist (stripping [])
    ++ [(fixed_header (stripping [])
           (WhlFile.arcname_from (stripping []) "pkg/a.txt"), Py.b "two")].
Proof.
  apply (proj1 (proj2 C6_member_headers_fixed)
           sample_world "pkg/a.txt" "src/two.txt" (Py.b "two")
           1700000001%Z 493%Z (stripping [])).
  - reflexivity.
  - reflexivity.
Defined.

(* ===================================================================== *)
(** ** C7: digests and sizes in RECORD                                    *)
(* ===================================================================== *)

(** C7: on an open archive, [add_string] and [add_file] on a regular
    file write the bytes given and record, for them, [sha256=] followed
    by the URL-safe base64 text of their SHA-256 digest without
    trailing [=], and their number in decimal; the members [add_file]
    adds for a directory, and all members of the archive a run leaves,
    are recorded the same way; RECORD is the concatenation of the lines
    of these entries. *)
Theorem C7_recorded_digest_and_size :
  (forall filename c self,
      WhlFile.closed self = false ->
      WhlFile.add_string filename c self
      = (Ok tt,
         with_member self (fixed_header self filename) (data_of c) filename))
  /\ (forall w package_filename real_filename content st_mtime st_mode self,
         fs w real_filename = Some (File content st_mtime st_mode) ->
         WhlFile.closed self = false ->
         WhlFile.add_file w package_filename real_filename self
         = (Ok tt,
            with_member self
              (fixed_header self (WhlFile.arcname_from self package_filename))
              content (WhlFile.arcname_from self package_filename)))
  /\ (forall w package_filename real_filename self,
         exists ms rs,
           WhlFile.filelist
             (snd (WhlFile.add_file w package_filename real_filename self))
           = WhlFile.filelist self ++ ms
           /\ WhlFile._record
                (snd (WhlFile.add_file w package_filename real_filename self))
              = WhlFile._record self ++ rs
           /\ Forall2 recorded ms rs)
  /\ (forall a w,
         match Maker.on_disk (snd (main a w)) with
         | Some f => Forall2 recorded (WhlFile.filelist f) (WhlFile._record f)
         | None => True
         end)
  /\ (forall self,
         WhlFile.closed self = false ->
         fst (WhlFile.add_recordfile self)
         = Ok (flat_map WhlFile.record_line
                 (WhlFile._record self
                  ++ [(WhlFile.distinfo_path self "RECORD", [], [])])))
  /\ (forall data, ends_with_pad
                     (bytes_rstrip (Py.b "=")
                        (Base64.urlsafe_b64encode
                           (Hashlib.sha256_digest data))) = false).
Proof.
  split; [|split; [|split; [|split; [|split]]]].
  - intros filename c self Hc. now apply add_string_ok.
  - intros w p r content mtime mode self Hf Hc.
    now apply (add_file_regular w p r content mtime mode).
  - intros w p r self. apply extends_recorded, add_file_extends.
  - intros a w. pose proof (main_on_disk a w) as H.
    destruct (Maker.on_disk (snd (main a w))) as [f|]; [|exact I].
    destruct H as [_ H].
    exact (Forall2_weaken _ _ well_written_recorded _ _ H).
  - intros self Hc. now rewrite (add_recordfile_ok self Hc).
  - intros data. apply rstrip_pad.
Qed.

(** C7 at three bytes added to an empty archive. *)
Lemma C7_recorded_digest_and_size_witness :
  WhlFile.add_string "pkg/x" (WhlFile.Bytes (Py.b "two")) (stripping [])
  = (Ok tt,
     with_member (stripping []) (fixed_header (stripping []) "pkg/x")
       (data_of (WhlFile.Bytes (Py.b "two"))) "pkg/x").
Proof.
  apply (proj1 C7_recorded_digest_and_size
           "pkg/x" (WhlFile.Bytes (Py.b "two")) (stripping [])).
  reflexivity.
Defined.

(* ===================================================================== *)
(** ** C8: [normalize_pep440] is idempotent                               *)
(* ===================================================================== *)




(* ===================================================================== *)
(** ** C9: [escape_filename_segment]                                      *)
(* ===================================================================== *)

(** C9, as stated, fails: the pattern keeps every word character, so
    the letter with code point 233 stays where the specification puts an
    underscore. *)
Lemma C9_non_ascii_letter_kept :
  escape_filename_segment (String e_acute "-x") = String e_acute "_x"
  /\ spec_escape_segment (String e_acute "-x") = "_x".
Proof. vm_compute. split; reflexivity. Qed.

(** Besides, [re.UNICODE], which is 32, is passed as the replacement
    count: of 33 runs the last is left alone. *)
Example escape_filename_segment_count :
  escape_filename_segment (hyphenated 34)
  = Py.join "_" (repeat "a" 33) +:+ "-a"
  /\ count_runs not_word_digit_dot false (hyphenated 34) = 33.
Proof. vm_compute. split; reflexivity. Qed.

(** C9, amended: when [s] has at most 32 maximal runs of characters
    that are neither word characters nor ["."], the result is [s] with
    each of these runs replaced by one underscore. *)
Theorem C9_runs_replaced_within_count (s : string) :
  count_runs not_word_digit_dot false s <= 32 ->
  escape_filename_segment s = replace_runs not_word_digit_dot "_" false s.
Proof.
  intros H. unfold escape_filename_segment, Re.UNICODE.
  apply sub_plus_cls_count; [lia|exact H].
Qed.

(** C9 at a segment with two runs. *)
Lemma C9_runs_replaced_within_count_witness :
  escape_filename_segment "a b--c.d_e"
  = replace_runs not_word_digit_dot "_" false "a b--c.d_e".
Proof.
  apply (C9_runs_replaced_within_count "a b--c.d_e").
  vm_compute. lia.
Defined.

(* ===================================================================== *)
(** ** C10: no leading separator in names                                 *)
(* ===================================================================== *)

(** C10: the name in a header built by [_zipinfo] never begins with
    ["/"], nor does the line [add_recordfile] writes for an entry; so it
    is for every member of the archive a run leaves.  With the prefix
    [a], the path [a/b.txt] is cut to [/b.txt], stored as [b.txt] and
    recorded on a line that begins with [b.txt]. *)
Theorem C10_no_leading_separator :
  (forall self filename,
      WhlFile._zipinfo self filename = Ok (fixed_header self filename)
      /\ leading_slash (Zipfile.filename (fixed_header self filename))
         = false)
  /\ (forall e, bytes_leading_slash (WhlFile.record_line e) = false)
  /\ (forall a w,
         match Maker.on_disk (snd (main a w)) with
         | Some f =>
             Forall (fun m => leading_slash (Zipfile.filename (fst m)) = false)
               (WhlFile.filelist f)
         | None => True
         end)
  /\ WhlFile.arcname_from (stripping ["a"]) "a/b.txt" = "/b.txt"
  /\ member_names (stripped_archive ["a"] "a/b.txt")
     = ["b.txt"; "d-1.0.dist-info/RECORD"]
  /\ record_paths (stripped_archive ["a"] "a/b.txt")
     = ["/b.txt"; "d-1.0.dist-info/RECORD"]
  /\ members_named "d-1.0.dist-info/RECORD"
       (stripped_archive ["a"] "a/b.txt")
     = [Py.b ("b.txt,sha256=dpLDrTVAu4A8Ags67mbNiIcSMjTqDG5xQ8Ct1z_0Me0,3"
              +:+ nl +:+ "d-1.0.dist-info/RECORD,," +:+ nl)].
Proof.
  split; [|split; [|split]].
  - intros self filename.
    split; [apply zipinfo_eq|apply fixed_header_no_slash].
  - apply record_line_head.
  - intros a w. pose proof (main_on_disk a w) as H.
    destruct (Maker.on_disk (snd (main a w))) as [f|]; [|exact I].
    destruct H as [_ H].
    refine (Forall2_left _ _ _ _ _ H).
    intros m r W. apply leading_slash_spec, W.
  - vm_compute. repeat split.
Qed.

(* ===================================================================== *)
(** * Further properties of the code                                      *)
(* ===================================================================== *)

(** ** Names: [normalize_package_name] and its escapes *)

Lemma lower_char_idem c : Py.lower_char (Py.lower_char c) = Py.lower_char c.
Proof. char_cases c. Qed.

Lemma lower_idem s : Py.lower (Py.lower s) = Py.lower s.
Proof.
  induction s as [|c s IH]; [reflexivity|].
  cbn [Py.lower]. now rewrite lower_char_idem, IH.
Qed.

Lemma is_name_sep_lower c : is_name_sep (Py.lower_char c) = is_name_sep c.
Proof. char_cases c. Qed.

(** Lower-casing and replacing runs of separators commute. *)
Lemma replace_runs_lower r s : forall b,
  Py.lower r = r ->
  replace_runs is_name_sep r b (Py.lower s)
  = Py.lower (replace_runs is_name_sep r b s).
Proof.
  induction s as [|c s IH]; intros b Hr; [reflexivity|].
  cbn [Py.lower replace_runs]. rewrite is_name_sep_lower.
  destruct (is_name_sep c), b; rewrite ?lower_app, ?Hr, ?IH by exact Hr;
    reflexivity.
Qed.

(** Replacing runs by one of the characters replaced, a second time,
    changes nothing. *)
Lemma replace_runs_again bad h s :
  bad h = true ->
  (forall b, replace_runs bad (String h "") false
               (replace_runs bad (String h "") b s)
             = replace_runs bad (String h "") b s)
  /\ replace_runs bad (String h "") true (replace_runs bad (String h "") true s)
     = replace_runs bad (String h "") true s.
Proof.
  intros Hh. induction s as [|c s [IH1 IH2]]; [split; [intros b|]; reflexivity|].
  split; [intros b|]; cbn [replace_runs]; destruct (bad c) eqn:Hc.
  - destruct b; [apply IH1|]. sapp. cbn [replace_runs]. rewrite Hh. sapp.
    now rewrite IH2.
  - cbn [replace_runs]. rewrite Hc. now rewrite IH1.
  - apply IH2.
  - cbn [replace_runs]. rewrite Hc. now rewrite IH1.
Qed.

Lemma normalize_package_name_eq name :
  normalize_package_name name
  = Py.lower (replace_runs is_name_sep "-" false name).
Proof.
  unfold normalize_package_name. now rewrite sub_plus_cls_all.
Qed.

Lemma lower_char_not_hyphen c :
  is_name_sep c = false -> Py.eqc (Py.lower_char c) hyphen = false.
Proof. char_cases c. Qed.

Lemma replace_hyphen_runs s : forall b,
  Py.replace hyphen "_" (Py.lower (replace_runs is_name_sep "-" b s))
  = Py.lower (replace_runs is_name_sep "_" b s).
Proof.
  induction s as [|c s IH]; intros b; [reflexivity|].
  cbn [replace_runs]. destruct (is_name_sep c) eqn:Hc.
  - destruct b; [apply IH|]. sapp. cbn [Py.lower Py.replace].
    change (Py.eqc (Py.lower_char "-") hyphen) with true. cbv iota.
    sapp. now rewrite IH.
  - cbn [Py.lower Py.replace]. rewrite (lower_char_not_hyphen c Hc).
    now rewrite IH.
Qed.

Lemma fragment_char_lower c :
  is_name_sep c = false -> fragment_char (Py.lower_char c) = true.
Proof. char_cases c. Qed.

Lemma fragment_chars s : forall b,
  Py.all fragment_char (Py.lower (replace_runs is_name_sep "_" b s)) = true.
Proof.
  induction s as [|c s IH]; intros b; [reflexivity|].
  cbn [replace_runs]. destruct (is_name_sep c) eqn:Hc.
  - destruct b; [apply IH|]. sapp. cbn [Py.lower Py.all].
    rewrite IH. reflexivity.
  - cbn [Py.lower Py.all]. now rewrite (fragment_char_lower c Hc), IH.
Qed.

Lemma escape_filename_distribution_name_eq name :
  escape_filename_distribution_name name
  = Py.lower (replace_runs is_name_sep "_" false name).
Proof.
  unfold escape_filename_distribution_name.
  rewrite normalize_package_name_eq. apply replace_hyphen_runs.
Qed.

(** ** [escape_filename_segment], within the replacement count *)

Lemma segment_chars s : forall b,
  Py.all segment_char (replace_runs not_word_digit_dot "_" b s) = true.
Proof.
  induction s as [|c s IH]; intros b; [reflexivity|].
  cbn [replace_runs]. destruct (not_word_digit_dot c) eqn:Hc.
  - destruct b; [apply IH|]. sapp. cbn [Py.all]. now rewrite IH.
  - cbn [Py.all]. unfold segment_char at 1. now rewrite Hc, IH.
Qed.

Lemma no_runs bad s : forall b,
  Py.all (fun c => negb (bad c)) s = true -> count_runs bad b s = 0.
Proof.
  induction s as [|c s IH]; intros b H; [reflexivity|].
  cbn [Py.all] in H. apply andb_true_iff in H as [Hc Hs].
  cbn [count_runs]. destruct (bad c); [discriminate|]. now apply IH.
Qed.

Lemma escape_filename_segment_eq s :
  count_runs not_word_digit_dot false s <= 32 ->
  escape_filename_segment s = replace_runs not_word_digit_dot "_" false s.
Proof.
  intros H. unfold escape_filename_segment, Re.UNICODE.
  apply sub_plus_cls_count; [lia|exact H].
Qed.

(** ** Versions: the characters of a normalized version *)

Lemma str_Version_canonical s c :
  str_Version s = Ok c ->
  exists x, canonical x = true /\ c = Packaging.str x.
Proof.
  unfold str_Version. intros H.
  destruct (Version_sound s) as [E|(x & E & Hx)]; rewrite E in H;
    [discriminate|].
  simpl in H. inversion H. now exists x.
Qed.

Lemma normalize_pep440_canonical v c :
  normalize_pep440 v = Ok c ->
  exists x, canonical x = true /\ c = Packaging.str x.
Proof.
  unfold normalize_pep440. intros H.
  destruct (str_Version v) as [c1|e] eqn:E1.
  { inversion H; subst. eapply str_Version_canonical; eauto. }
  destruct e; try discriminate.
  destruct (str_Version _) as [c2|e] eqn:E2 in H.
  { inversion H; subst. eapply str_Version_canonical; eauto. }
  destruct e; try discriminate.
  eapply str_Version_canonical; eauto.
Qed.

Lemma digit_version_char c : Py.is_digit c = true -> version_char c = true.
Proof. unfold version_char. now intros ->. Qed.

Lemma az09_version_char c : az09 c = true -> version_char c = true.
Proof. char_cases c. Qed.

Lemma str_of_int_version n : Py.all version_char (Py.str_of_int n) = true.
Proof.
  apply (all_impl Py.is_digit); [apply digit_version_char|].
  apply (isdigit_spec (Py.str_of_int n)), str_of_int_digits.
Qed.

Lemma str_of_int_nonempty n : Py.str_of_int n <> "".
Proof. apply (isdigit_spec (Py.str_of_int n)), str_of_int_digits. Qed.

Lemma all_join f (c : ascii) parts :
  f c = true -> Forall (fun p => Py.all f p = true) parts ->
  Py.all f (Py.join (String c "") parts) = true.
Proof.
  intros Hc H. induction H as [|p parts Hp Hps IH]; [reflexivity|].
  destruct parts as [|q parts]; [exact Hp|].
  change (Py.join (String c "") (p :: q :: parts))
    with (p +:+ String c "" +:+ Py.join (String c "") (q :: parts)).
  rewrite !all_app, Hp, IH. cbn [Py.all]. now rewrite Hc.
Qed.

Lemma local_part_version p :
  canonical_part p = true ->
  Py.all version_char (Packaging.str_local_part p) = true.
Proof.
  destruct p as [n|s]; simpl; intros H; [apply str_of_int_version|].
  apply andb_true_iff in H as [H _]. apply andb_true_iff in H as [_ H].
  apply (all_impl az09); [apply az09_version_char|exact H].
Qed.

Lemma str_version_chars x :
  canonical x = true -> Py.all version_char (Packaging.str x) = true.
Proof.
  intros Hx. destruct (canonical_fields x Hx) as (Hr & Hp & Hpo & Hd & Hl).
  unfold Packaging.str. rewrite !all_app.
  repeat (apply andb_true_iff; split).
  - destruct (Packaging.epoch x =? 0)%N; [reflexivity|].
    rewrite all_app, str_of_int_version. reflexivity.
  - apply all_join; [reflexivity|].
    apply List.Forall_forall. intros p Hin. apply in_map_iff in Hin as (n & <- & _).
    apply str_of_int_version.
  - destruct (Packaging.pre x) as [[l n]|]; [|reflexivity].
    rewrite all_app, str_of_int_version.
    destruct Hp as [-> | [-> | ->]]; reflexivity.
  - destruct (Packaging.post x) as [[l n]|]; [|reflexivity].
    rewrite all_app, str_of_int_version. reflexivity.
  - destruct (Packaging.dev x) as [[l n]|]; [|reflexivity].
    rewrite all_app, str_of_int_version. reflexivity.
  - destruct (Packaging.local x) as [parts|] eqn:El; [|reflexivity].
    destruct (Hl parts eq_refl) as [_ Hall].
    rewrite all_app. apply andb_true_iff. split; [reflexivity|].
    apply all_join; [reflexivity|].
    apply List.Forall_forall. intros p Hin. apply in_map_iff in Hin as (q & <- & Hq).
    apply local_part_version.
    rewrite forallb_forall in Hall. now apply Hall.
Qed.

Lemma str_version_nonempty x :
  canonical x = true -> Packaging.str x <> "".
Proof.
  intros Hx. destruct (canonical_fields x Hx) as (Hr & _).
  unfold Packaging.str. intros E.
  apply (f_equal String.length) in E. rewrite !length_app_s in E.
  destruct (Packaging.release x) as [|n r]; [congruence|].
  assert (L : 0 < String.length (Py.join "." (map Py.str_of_int (n :: r)))).
  { pose proof (str_of_int_nonempty n) as Hn.
    cbn [map]. destruct (map Py.str_of_int r).
    - simpl. destruct (Py.str_of_int n); [congruence|simpl; lia].
    - change (Py.join "." (Py.str_of_int n :: s :: l))
        with (Py.str_of_int n +:+ "." +:+ Py.join "." (s :: l)).
      rewrite !length_app_s.
      destruct (Py.str_of_int n); [congruence|simpl; lia]. }
  cbn [String.length] in E. lia.
Qed.

(** ** The wheel name and the dist-info directory *)

Lemma mem_false_all c s :
  Py.mem c s = false -> Py.all (fun x => negb (Py.eqc c x)) s = true.
Proof.
  induction s as [|d s IH]; [reflexivity|]. cbn [Py.mem Py.all].
  intros H. apply orb_false_iff in H as [Hd Hs]. now rewrite Hd, IH.
Qed.

Lemma join_snoc sep l x y :
  Py.join sep (l ++ [x]) +:+ y = Py.join sep (l ++ [x +:+ y]).
Proof.
  induction l as [|a l IH]; [reflexivity|].
  destruct l as [|b l]; cbn [app Py.join] in *.
  - now rewrite !app_assoc_s.
  - rewrite !app_assoc_s. now rewrite IH.
Qed.

Lemma init_normalized name version build_tag python_tag abi platform outfile
      strip maker :
  Maker.__init__ name version build_tag python_tag abi platform outfile
    strip true true = Ok maker ->
  exists c,
    normalize_pep440 version = Ok c
    /\ maker
       = Maker.mkWheelMaker name c build_tag python_tag abi platform outfile
           strip c
           (escape_filename_distribution_name name +:+ "-" +:+ c
              +:+ ".dist-info/")
           (escape_filename_distribution_name name).
Proof.
  unfold Maker.__init__. destruct (normalize_pep440 version) as [c|e];
    simpl; intros H; [|discriminate].
  exists c. split; [reflexivity|]. now inversion H.
Qed.

Lemma fragment_not_hyphen c : fragment_char c = true -> not_hyphen c = true.
Proof. char_cases c. Qed.

Lemma version_not_hyphen c : version_char c = true -> not_hyphen c = true.
Proof. char_cases c. Qed.

Lemma version_not_slash c : version_char c = true -> not_slash c = true.
Proof. char_cases c. Qed.

Lemma lower_char_not_slash c :
  not_slash c = true -> not_slash (Py.lower_char c) = true.
Proof. char_cases c. Qed.

Lemma escaped_name_no_slash s : forall b,
  Py.all not_slash s = true ->
  Py.all not_slash (Py.lower (replace_runs is_name_sep "_" b s)) = true.
Proof.
  induction s as [|c s IH]; intros b H; [reflexivity|].
  cbn [Py.all] in H. apply andb_true_iff in H as [Hc Hs].
  cbn [replace_runs]. destruct (is_name_sep c).
  - destruct b; [now apply IH|]. sapp. cbn [Py.lower Py.all].
    now rewrite IH.
  - cbn [Py.lower Py.all]. now rewrite lower_char_not_slash, IH.
Qed.

Lemma Path_name_dir x :
  Py.all not_slash x = true -> 1 < String.length x ->
  Path_name (x +:+ "/") = x.
Proof.
  intros Hx Hl. unfold Path_name.
  change "/" with (String os_path_sep "").
  rewrite (split_chunk_sep not_slash (Py.eqc os_path_sep) x os_path_sep "");
    [|intros c Hc; unfold not_slash in Hc; now destruct (Py.eqc os_path_sep c)
     |exact Hx|reflexivity].
  cbn [Py.split_on].
  rewrite filter_cons_True, filter_cons_False, filter_nil; [reflexivity| |].
  - simpl. tauto.
  - destruct x as [|a [|b x]]; simpl in Hl; try lia.
    simpl. destruct (Ascii.eqb a "."); exact I.
Qed.

(* ===================================================================== *)
(** ** Names, versions and the wheel name                               *)
(* ===================================================================== *)

(** X1: [normalize_package_name] lower-cases the name and puts one
    hyphen for every maximal run of hyphens, underscores and dots,
    wherever the run stands and however many runs there are. *)
Theorem X1_normalize_package_name_runs (name : string) :
  normalize_package_name name
  = Py.lower (replace_runs is_name_sep "-" false name).
Proof. apply normalize_package_name_eq. Qed.

(** X2: a normalized name is its own normal form. *)
Theorem X2_normalize_package_name_idempotent (name : string) :
  normalize_package_name (normalize_package_name name)
  = normalize_package_name name.
Proof.
  rewrite !normalize_package_name_eq.
  rewrite replace_runs_lower by reflexivity. rewrite lower_idem.
  f_equal. apply (replace_runs_again is_name_sep "-" name eq_refl).
Qed.

(** X3: [escape_filename_distribution_name] lower-cases the name and
    puts one underscore for every maximal run of hyphens, underscores
    and dots; the result has no hyphen, no dot and no ASCII capital. *)
Theorem X3_escape_filename_distribution_name_runs (name : string) :
  escape_filename_distribution_name name
  = Py.lower (replace_runs is_name_sep "_" false name)
  /\ Py.all fragment_char (escape_filename_distribution_name name) = true.
Proof.
  split; [apply escape_filename_distribution_name_eq|].
  rewrite escape_filename_distribution_name_eq. apply fragment_chars.
Qed.

(** X4: on a segment with at most 32 runs to replace, the result of
    [escape_filename_segment] is made of word characters and dots only,
    and escaping it again changes nothing. *)
Theorem X4_escape_filename_segment_stable (s : string) :
  count_runs not_word_digit_dot false s <= 32 ->
  Py.all segment_char (escape_filename_segment s) = true
  /\ escape_filename_segment (escape_filename_segment s)
     = escape_filename_segment s.
Proof.
  intros H. rewrite (escape_filename_segment_eq s H).
  pose proof (segment_chars s false) as Hc. split; [exact Hc|].
  assert (Z : count_runs not_word_digit_dot false
                (replace_runs not_word_digit_dot "_" false s) = 0).
  { apply no_runs. erewrite (all_impl segment_char); eauto. }
  rewrite escape_filename_segment_eq by lia.
  now apply replace_runs_clean.
Qed.

(** X4 at a segment with three runs. *)
Lemma X4_escape_filename_segment_stable_witness :
  Py.all segment_char (escape_filename_segment "a b--c.d e") = true
  /\ escape_filename_segment (escape_filename_segment "a b--c.d e")
     = escape_filename_segment "a b--c.d e".
Proof.
  apply (X4_escape_filename_segment_stable "a b--c.d e").
  vm_compute. lia.
Defined.

(** X5: for a version of code points below 256 (a [string]), what
    [normalize_pep440] returns is never empty and is made of digits, the
    letters [a-z] and the characters [.], [!] and [+] only. *)
Theorem X5_normalize_pep440_characters (v c : string) :
  normalize_pep440 v = Ok c ->
  c <> "" /\ Py.all version_char c = true.
Proof.
  intros H. destruct (normalize_pep440_canonical v c H) as (x & Hx & ->).
  split; [now apply str_version_nonempty|now apply str_version_chars].
Qed.

(** X5 at a version with capitals, hyphens and underscores. *)
Lemma X5_normalize_pep440_characters_witness :
  "1.0rc1.post2+ubuntu.1" <> ""
  /\ Py.all version_char "1.0rc1.post2+ubuntu.1" = true.
Proof.
  apply (X5_normalize_pep440_characters "1.0-RC1-post2+Ubuntu_1").
  reflexivity.
Defined.

(** X6: with name and version normalization on and tags without
    hyphens, the hyphens of the wheel name are exactly those between
    its components: cutting it at every hyphen gives the escaped name,
    the normalized version, the build tag when there is one, the Python
    tag, the ABI tag and the platform tag with [.whl]. *)
Theorem X6_wheelname_components
        (name version build_tag python_tag abi platform : string)
        (outfile : option string) (strip : option (list string))
        (maker : Maker.WheelMaker) :
  Maker.__init__ name version build_tag python_tag abi platform outfile
    strip true true = Ok maker ->
  Py.mem hyphen build_tag = false ->
  Py.mem hyphen python_tag = false ->
  Py.mem hyphen abi = false ->
  Py.mem hyphen platform = false ->
  exists c,
    normalize_pep440 version = Ok c
    /\ Py.split_on (Py.eqc hyphen) (Maker.wheelname maker)
       = [escape_filename_distribution_name name; c]
         ++ (if Maker.nonempty build_tag then [build_tag] else [])
         ++ [python_tag; abi; platform +:+ ".whl"].
Proof.
  intros Hi Hb Hp Ha Hpl.
  destruct (init_normalized _ _ _ _ _ _ _ _ _ Hi) as (c & Hc & ->).
  exists c. split; [exact Hc|].
  unfold Maker.wheelname.
  cbn [Maker._wheelname_fragment_distribution_name Maker._version
       Maker._build_tag Maker._python_tag Maker._abi Maker._platform].
  set (front := [escape_filename_distribution_name name; c]
                ++ (if Maker.nonempty build_tag then [build_tag] else [])
                ++ [python_tag; abi]).
  replace ([escape_filename_distribution_name name; c]
           ++ (if Maker.nonempty build_tag then [build_tag] else [])
           ++ [python_tag; abi; platform])
    with (front ++ [platform])
    by (unfold front; destruct (Maker.nonempty build_tag); reflexivity).
  replace ([escape_filename_distribution_name name; c]
           ++ (if Maker.nonempty build_tag then [build_tag] else [])
           ++ [python_tag; abi; platform +:+ ".whl"])
    with (front ++ [platform +:+ ".whl"])
    by (unfold front; destruct (Maker.nonempty build_tag); reflexivity).
  rewrite join_snoc.
  apply (split_join not_hyphen (Py.eqc hyphen) "-").
  - intros x Hx. unfold not_hyphen in Hx. now destruct (Py.eqc hyphen x).
  - reflexivity.
  - unfold front. discriminate.
  - assert (Hn : Py.all not_hyphen (escape_filename_distribution_name name)
                 = true).
    { apply (all_impl fragment_char); [apply fragment_not_hyphen|].
      rewrite escape_filename_distribution_name_eq. apply fragment_chars. }
    assert (Hv : Py.all not_hyphen c = true).
    { apply (all_impl version_char); [apply version_not_hyphen|].
      destruct (normalize_pep440_canonical version c Hc) as (x & Hx & ->).
      now apply str_version_chars. }
    apply mem_false_all in Hb, Hp, Ha, Hpl.
    assert (Hw : Py.all not_hyphen (platform +:+ ".whl") = true)
      by (rewrite all_app; unfold not_hyphen at 1; rewrite Hpl; reflexivity).
    unfold front.
    destruct (Maker.nonempty build_tag); repeat constructor; assumption.
Qed.

(** X6 at a name and a version that need normalizing, with a build
    tag. *)
Lemma X6_wheelname_components_witness :
  exists c,
    normalize_pep440 "1.0-beta" = Ok c
    /\ Py.split_on (Py.eqc hyphen)
         "my_pkg-1.0b0-7-py3-none-any.whl"
       = [escape_filename_distribution_name "My.Pkg"; c]
         ++ (if Maker.nonempty "7" then ["7"] else [])
         ++ ["py3"; "none"; "any" +:+ ".whl"].
Proof.
  apply (X6_wheelname_components "My.Pkg" "1.0-beta" "7" "py3" "none" "any"
           None None
           (Maker.mkWheelMaker "My.Pkg" "1.0b0" "7" "py3" "none" "any" None
              None "1.0b0" "my_pkg-1.0b0.dist-info/" "my_pkg"));
    reflexivity.
Defined.

(** X7: with name and version normalization on and a name without a
    slash, the archive object [__enter__] opens, when the archive file
    can be opened, has as its dist-info directory the escaped name, a
    hyphen, the normalized version and [.dist-info]; the paths of the
    dist-info members are built on it. *)
Theorem X7_distinfo_directory
        (w : world)
        (name version build_tag python_tag abi platform : string)
        (outfile : option string) (strip : option (list string))
        (maker : Maker.WheelMaker) (st : Maker.state) :
  Maker.__init__ name version build_tag python_tag abi platform outfile
    strip true true = Ok maker ->
  Py.mem os_path_sep name = false ->
  os_error w OpenArchive = None ->
  exists c f,
    normalize_pep440 version = Ok c
    /\ Maker._whlfile (snd (Maker.__enter__ w maker st)) = Some f
    /\ WhlFile._distinfo_dir f
       = escape_filename_distribution_name name +:+ "-" +:+ c
         +:+ ".dist-info"
    /\ forall basename,
         WhlFile.distinfo_path f basename
         = escape_filename_distribution_name name +:+ "-" +:+ c
           +:+ ".dist-info/" +:+ basename.
Proof.
  intros Hi Hn Ho.
  destruct (init_normalized _ _ _ _ _ _ _ _ _ Hi) as (c & Hc & ->).
  unfold Maker.__enter__. rewrite Ho.
  exists c. eexists. split; [exact Hc|]. split; [reflexivity|].
  assert (E : Path_name (escape_filename_distribution_name name +:+ "-" +:+ c
                         +:+ ".dist-info/")
              = escape_filename_distribution_name name +:+ "-" +:+ c
                +:+ ".dist-info").
  { replace (escape_filename_distribution_name name +:+ "-" +:+ c
             +:+ ".dist-info/")
      with ((escape_filename_distribution_name name +:+ "-" +:+ c
             +:+ ".dist-info") +:+ "/")
      by (now rewrite !app_assoc_s).
    apply Path_name_dir.
    - rewrite !all_app. repeat (apply andb_true_iff; split);
        try reflexivity.
      + rewrite escape_filename_distribution_name_eq.
        apply escaped_name_no_slash. now apply mem_false_all.
      + apply (all_impl version_char); [apply version_not_slash|].
        destruct (normalize_pep440_canonical version c Hc) as (x & Hx & ->).
        now apply str_version_chars.
    - rewrite !length_app_s. simpl. lia. }
  cbn [snd Maker._whlfile WhlFile.__init__
       WhlFile._distinfo_dir Maker._distinfo_dir].
  split; [exact E|].
  intros basename. unfold WhlFile.distinfo_path.
  cbn [WhlFile.__init__ WhlFile._distinfo_dir Maker._distinfo_dir].
  rewrite E. now rewrite !app_assoc_s.
Qed.

(** X7 at the name [My.Pkg] and the version [1.0-beta]. *)
Lemma X7_distinfo_directory_witness :
  exists c f,
    normalize_pep440 "1.0-beta" = Ok c
    /\ Maker._whlfile
         (snd (Maker.__enter__ sample_world
                 (Maker.mkWheelMaker "My.Pkg" "1.0b0" "" "py3" "none" "any"
                    None None "1.0b0" "my_pkg-1.0b0.dist-info/" "my_pkg")
                 initial)) = Some f
    /\ WhlFile._distinfo_dir f
       = escape_filename_distribution_name "My.Pkg" +:+ "-" +:+ c
         +:+ ".dist-info"
    /\ forall basename,
         WhlFile.distinfo_path f basename
         = escape_filename_distribution_name "My.Pkg" +:+ "-" +:+ c
           +:+ ".dist-info/" +:+ basename.
Proof.
  apply (X7_distinfo_directory sample_world "My.Pkg" "1.0-beta" "" "py3"
           "none" "any" None None); reflexivity.
Defined.

(* ===================================================================== *)
(** ** The archive: paths, members, failures                            *)
(* ===================================================================== *)

Lemma prefix_self_app p x : String.prefix p (p +:+ x) = true.
Proof.
  induction p as [|c p IH]; [now destruct x|]. sapp. simpl.
  destruct (ascii_dec c c); [exact IH|congruence].
Qed.

(** X8: a path that starts with the name of the dist-info directory is
    never stripped, whatever the strip prefixes; so it is for every path
    [distinfo_path] builds. *)
Theorem X8_distinfo_paths_not_stripped (self : WhlFile._WhlFile) :
  (forall name,
      Py.startswith name (WhlFile._distinfo_dir self) = true ->
      WhlFile.arcname_from self name = name)
  /\ (forall basename,
         WhlFile.arcname_from self (WhlFile.distinfo_path self basename)
         = WhlFile.distinfo_path self basename).
Proof.
  assert (H : forall name,
             Py.startswith name (WhlFile._distinfo_dir self) = true ->
             WhlFile.arcname_from self name = name).
  { intros name Hn. unfold WhlFile.arcname_from.
    rewrite replace_sep_id, Hn. reflexivity. }
  split; [exact H|]. intros basename. apply H.
  unfold WhlFile.distinfo_path, Py.startswith. apply prefix_self_app.
Qed.

(** X8 at a strip prefix that matches the dist-info directory itself. *)
Lemma X8_distinfo_paths_not_stripped_witness :
  WhlFile.arcname_from (stripping ["d-1.0"]) "d-1.0.dist-info/WHEEL"
  = "d-1.0.dist-info/WHEEL".
Proof.
  apply (proj1 (X8_distinfo_paths_not_stripped (stripping ["d-1.0"]))).
  reflexivity.
Defined.

(** *** [add_file] on a path that exists *)

Lemma with_files_nil self : with_files self [] = self.
Proof.
  destruct self. unfold with_files. simpl. now rewrite !app_nil_r.
Qed.

Lemma arcname_from_with_files self l name :
  WhlFile.arcname_from (with_files self l) name
  = WhlFile.arcname_from self name.
Proof. reflexivity. Qed.

Lemma with_files_app self l1 l2 :
  with_files (with_files self l1) l2 = with_files self (l1 ++ l2).
Proof.
  unfold with_files. cbn [WhlFile.zf_filename WhlFile.compression
    WhlFile.filelist WhlFile.closed WhlFile._distinfo_dir
    WhlFile._strip_path_prefixes WhlFile._record].
  rewrite !map_app, !app_assoc. reflexivity.
Qed.

Lemma add_leaf_with_files package_filename content self :
  WhlFile.closed self = false ->
  WhlFile.add_leaf package_filename (Some content) self
  = (Ok tt, with_files self [(package_filename, content)]).
Proof. intros Hc. now rewrite add_leaf_ok. Qed.

Lemma add_node_open : forall n package_filename self,
  WhlFile.closed self = false ->
  WhlFile.add_node package_filename n self
  = (Ok tt, with_files self (files_below package_filename n)).
Proof.
  fix IH 1. intros [content mtime mode|children] package_filename self Hc.
  - now apply add_leaf_with_files.
  - cbn [WhlFile.add_node files_below]. revert self Hc.
    induction children as [|[file_ child] l IHl]; intros self Hc.
    + now rewrite with_files_nil.
    + rewrite (IH child (package_filename +:+ "/" +:+ file_) self Hc).
      rewrite IHl by exact Hc. now rewrite with_files_app.
Qed.

(** X9: when [add_file] on a path that exists returns on an open
    archive, it has walked directories in listing order, depth first,
    and added one member and one RECORD entry for every regular file,
    under the package path extended with the names on the way, and none
    for a directory, and nothing else. *)
Theorem X9_add_file_walks_the_tree
        (w : world) (package_filename real_filename : string) (n : node)
        (self self' : WhlFile._WhlFile) :
  fs w real_filename = Some n ->
  WhlFile.closed self = false ->
  WhlFile.add_file w package_filename real_filename self = (Ok tt, self') ->
  self' = with_files self (files_below package_filename n).
Proof.
  intros Hf Hc. unfold WhlFile.add_file. rewrite Hf.
  rewrite (add_node_open n package_filename self Hc).
  intros H. now inversion H.
Qed.

(** X9 at a package directory with a nested directory and an empty
    one. *)
Lemma X9_add_file_walks_the_tree_witness :
  snd (WhlFile.add_file tree_world "src/pkg" "bazel-out/pkg"
         (stripping ["src/"]))
  = with_files (stripping ["src/"])
      [("src/pkg/__init__.py", Py.b "import os");
       ("src/pkg/data/table.csv", Py.b "1,2")].
Proof.
  apply (X9_add_file_walks_the_tree tree_world "src/pkg" "bazel-out/pkg"
           sample_tree (stripping ["src/"])); reflexivity.
Defined.

(** *** Failures *)

Lemma add_leaf_closed package_filename content self :
  WhlFile.closed self = true ->
  WhlFile.add_leaf package_filename (Some content) self
  = (Raise ValueError, self).
Proof.
  intros Hc. unfold WhlFile.add_leaf. rewrite zipinfo_eq.
  rewrite copy_blocks_spec by lia.
  unfold WhlFile.write_member. now rewrite Hc.
Qed.

Lemma add_node_closed : forall n package_filename self,
  WhlFile.closed self = true ->
  WhlFile.add_node package_filename n self
  = (match files_below package_filename n with
     | [] => Ok tt
     | _ :: _ => Raise ValueError
     end, self).
Proof.
  fix IH 1. intros [content mtime mode|children] package_filename self Hc.
  - now apply add_leaf_closed.
  - cbn [WhlFile.add_node files_below]. revert self Hc.
    induction children as [|[file_ child] l IHl]; intros self Hc.
    + reflexivity.
    + rewrite (IH child (package_filename +:+ "/" +:+ file_) self Hc).
      destruct (files_below (package_filename +:+ "/" +:+ file_) child);
        [|reflexivity].
      cbn [app]. now apply IHl.
Qed.

(** X10: [add_file] on a source path that does not exist raises
    [FileNotFoundError] and leaves the archive as it was: no member, no
    RECORD entry. *)
Theorem X10_add_file_missing_source
        (w : world) (package_filename real_filename : string)
        (self : WhlFile._WhlFile) :
  fs w real_filename = None ->
  WhlFile.add_file w package_filename real_filename self
  = (Raise FileNotFoundError, self).
Proof.
  intros Hf. unfold WhlFile.add_file. rewrite Hf.
  unfold WhlFile.add_leaf. now rewrite zipinfo_eq.
Qed.

(** X10 at a path the sample world does not have. *)
Lemma X10_add_file_missing_source_witness :
  WhlFile.add_file sample_world "pkg/a.txt" "src/three.txt" (stripping [])
  = (Raise FileNotFoundError, stripping []).
Proof.
  apply (X10_add_file_missing_source sample_world "pkg/a.txt"
           "src/three.txt" (stripping [])).
  reflexivity.
Defined.

(** X11: nothing can be written to a closed archive.  [add_string] and
    [add_recordfile] raise [ValueError]; so does [add_file] as soon as
    there is a regular file at or below the source path; and the
    archive, members and RECORD entries alike, stays as it was. *)
Theorem X11_closed_archive_refuses (self : WhlFile._WhlFile) :
  WhlFile.closed self = true ->
  (forall filename c,
      WhlFile.add_string filename c self = (Raise ValueError, self))
  /\ WhlFile.add_recordfile self = (Raise ValueError, self)
  /\ (forall w package_filename real_filename n,
         fs w real_filename = Some n ->
         WhlFile.add_file w package_filename real_filename self
         = (match files_below package_filename n with
            | [] => Ok tt
            | _ :: _ => Raise ValueError
            end, self)).
Proof.
  intros Hc.
  assert (S : forall filename c,
             WhlFile.add_string filename c self = (Raise ValueError, self)).
  { intros filename c. unfold WhlFile.add_string. rewrite zipinfo_eq.
    unfold WhlFile.write_member. now rewrite Hc. }
  split; [exact S|]. split.
  - unfold WhlFile.add_recordfile. now rewrite S.
  - intros w p r n Hf. unfold WhlFile.add_file. rewrite Hf.
    now apply add_node_closed.
Qed.

(** X11 at an archive that was closed empty. *)
Lemma X11_closed_archive_refuses_witness :
  (forall filename c,
      WhlFile.add_string filename c (WhlFile.close (stripping []))
      = (Raise ValueError, WhlFile.close (stripping [])))
  /\ WhlFile.add_recordfile (WhlFile.close (stripping []))
     = (Raise ValueError, WhlFile.close (stripping []))
  /\ (forall w package_filename real_filename n,
         fs w real_filename = Some n ->
         WhlFile.add_file w package_filename real_filename
           (WhlFile.close (stripping []))
         = (match files_below package_filename n with
            | [] => Ok tt
            | _ :: _ => Raise ValueError
            end, WhlFile.close (stripping []))).
Proof.
  apply (X11_closed_archive_refuses (WhlFile.close (stripping []))).
  reflexivity.
Defined.


(** *** The members of a completed run *)

Lemma then_ok_inv {A B : Type} (m : Maker.M A) (k : A -> Maker.M B)
      st b st2 :
  Maker.then_ m k st = (Ok b, st2) ->
  exists a st1, m st = (Ok a, st1) /\ k a st1 = (Ok b, st2).
Proof.
  unfold Maker.then_. destruct (m st) as [[a|e] st1]; intros H;
    [|discriminate].
  now exists a, st1.
Qed.

(** A step that returns leaves the archive open and longer. *)
Lemma step_ok {A B : Type} (m : Maker.M A) (k : A -> Maker.M B)
      st f b st2 :
  archive_step m ->
  Maker._whlfile st = Some f ->
  Maker.then_ m k st = (Ok b, st2) ->
  exists a st1 f1,
    Maker._whlfile st1 = Some f1
    /\ extends well_written f f1
    /\ k a st1 = (Ok b, st2).
Proof.
  intros Hm Hf H. apply then_ok_inv in H as (a & st1 & E & Hk).
  destruct (Hm st f Hf) as (f1 & W & X & _). rewrite E in W.
  simpl in W. now exists a, st1, f1.
Qed.

Lemma extends_open f g :
  extends well_written f g -> WhlFile.closed f = false ->
  WhlFile.closed g = false.
Proof. intros (ms & rs & _ & _ & _ & C & _) H. congruence. Qed.

Lemma extends_same_paths f g :
  extends well_written f g ->
  (forall p, fixed_header g p = fixed_header f p)
  /\ (forall b, WhlFile.distinfo_path g b = WhlFile.distinfo_path f b)
  /\ (forall pc, member_of g pc = member_of f pc)
  /\ (forall pc, record_of g pc = record_of f pc).
Proof.
  intros (ms & rs & _ & _ & _ & _ & D & S & _ & K).
  assert (A : forall n, WhlFile.arcname_from g n = WhlFile.arcname_from f n).
  { intros n. unfold WhlFile.arcname_from. now rewrite D, S. }
  assert (H : forall p, fixed_header g p = fixed_header f p).
  { intros p. unfold fixed_header. now rewrite K. }
  split; [exact H|]. split.
  - intros b. unfold WhlFile.distinfo_path. now rewrite D.
  - split; intros pc; unfold member_of, record_of; now rewrite ?H, A.
Qed.

Lemma with_member_extends f filename data :
  extends well_written f
    (with_member f (fixed_header f filename) data filename).
Proof.
  exists [(fixed_header f filename, data)],
    [(filename, digest_of data,
      Py.b (Py.str_of_int (N.of_nat (length data))))].
  repeat split; try reflexivity.
  constructor; [|constructor].
  split; [apply fixed_header_fixed|]. split; [split; reflexivity|].
  split; [|reflexivity].
  cbn [fst fixed_header Zipfile.filename].
  apply until_nul_no_slash, lstrip_no_slash.
Qed.

(** A member written through [distinfo_path] and [add_string]. *)
Lemma distinfo_string_open basename c st f r st' :
  Maker._whlfile st = Some f ->
  WhlFile.closed f = false ->
  Maker.then_ (Maker.distinfo_path basename)
    (fun p => Maker.on_whlfile (WhlFile.add_string p c)) st = (r, st') ->
  Maker._whlfile st' = Some (with_distinfo f basename (data_of c)).
Proof.
  intros Hf Hc. unfold Maker.then_, Maker.distinfo_path, Maker.on_whlfile.
  rewrite Hf. cbn [Maker._whlfile Maker.on_disk Maker.log].
  rewrite (add_string_ok _ _ _ Hc). intros H. now inversion H.
Qed.

Lemma step_entry_points a w :
  archive_step
    (if Maker.truthy (entry_points_file a)
     then Maker.then_ (Maker.distinfo_path "entry_points.txt")
            (fun p => Maker.add_file w p
                        (match entry_points_file a with
                         | Some f => f | None => "" end))
     else Maker.ret tt).
Proof.
  destruct (Maker.truthy (entry_points_file a)); [|apply step_ret].
  apply step_then; [apply step_distinfo_path|]. intros p.
  apply step_add_file.
Qed.

Lemma add_wheelfile_eq maker :
  Maker.add_wheelfile maker
  = Maker.then_ (Maker.distinfo_path "WHEEL")
      (fun p => Maker.on_whlfile
                  (WhlFile.add_string p
                     (WhlFile.Text
                        (wheel_text (Maker._python_tag maker)
                           (Maker._abi maker) (Maker._platform maker))))).
Proof.
  unfold Maker.add_wheelfile, Maker.disttags, wheel_text. cbv zeta.
  cbn [fold_left Py.join]. now rewrite !app_assoc_s.
Qed.

Lemma init_tags name version build_tag python_tag abi platform outfile
      strip normalize_name normalize_version maker :
  Maker.__init__ name version build_tag python_tag abi platform outfile
    strip normalize_name normalize_version = Ok maker ->
  Maker._python_tag maker = python_tag
  /\ Maker._abi maker = abi
  /\ Maker._platform maker = platform.
Proof.
  unfold Maker.__init__.
  destruct normalize_version;
    [destruct (normalize_pep440 version) as [c|e]; [|discriminate]|];
    destruct normalize_name; cbn; intros H; inversion H; auto.
Qed.

(** The input files: when the loop over them returns, every source
    exists and the archive has the files below them, in order. *)
Lemma add_all_files_open w : forall all st f st',
  Maker._whlfile st = Some f ->
  WhlFile.closed f = false ->
  add_all_files w all st = (Ok tt, st') ->
  Maker._whlfile st' = Some (with_files f (input_members w all))
  /\ Forall (fun pr => fs w (snd pr) <> None) all.
Proof.
  induction all as [|[p r] all IH]; intros st f st' Hf Hc H.
  - cbn in H. inversion H; subst st'. now rewrite with_files_nil.
  - cbn [add_all_files] in H.
    apply then_ok_inv in H as (u & s1 & E & Hk).
    unfold Maker.add_file, Maker.on_whlfile in E. rewrite Hf in E.
    unfold WhlFile.add_file in E.
    cbn [input_members flat_map fst snd].
    destruct (fs w r) as [n|] eqn:Hr; [|discriminate E].
    rewrite (add_node_open n p f Hc) in E. inversion E; subst s1.
    rewrite <- with_files_app.
    assert (K : Maker._whlfile st'
                = Some (with_files (with_files f (files_below p n))
                          (input_members w all))
                /\ Forall (fun pr => fs w (snd pr) <> None) all).
    { eapply IH; [| |exact Hk]; [reflexivity|exact Hc]. }
    destruct K as [K1 K2]. split; [exact K1|].
    constructor; [cbn [snd]; congruence|exact K2].
Qed.

Lemma input_members_app w l1 l2 :
  input_members w (l1 ++ l2) = input_members w l1 ++ input_members w l2.
Proof. unfold input_members. apply flat_map_app. Qed.

Lemma with_files_extends f l : extends well_written f (with_files f l).
Proof.
  exists (map (member_of f) l), (map (record_of f) l).
  repeat split; try reflexivity.
  induction l as [|pc l IH]; [constructor|].
  cbn [map]. constructor; [|exact IH].
  split; [apply fixed_header_fixed|]. split; [split; reflexivity|].
  split; [|reflexivity].
  cbn [fst member_of fixed_header Zipfile.filename].
  apply until_nul_no_slash, lstrip_no_slash.
Qed.

(** One file added through [WheelMaker.add_file], when the call
    returns. *)
Lemma add_file_open w p r st f st' :
  Maker._whlfile st = Some f ->
  WhlFile.closed f = false ->
  Maker.add_file w p r st = (Ok tt, st') ->
  fs w r <> None
  /\ Maker._whlfile st' = Some (with_files f (input_members w [(p, r)])).
Proof.
  intros Hf Hc E.
  unfold Maker.add_file, Maker.on_whlfile in E. rewrite Hf in E.
  unfold WhlFile.add_file in E.
  cbn [input_members flat_map fst snd]. rewrite app_nil_r.
  destruct (fs w r) as [n|] eqn:Hr; [|discriminate E].
  rewrite (add_node_open n p f Hc) in E. inversion E.
  split; [discriminate|reflexivity].
Qed.

(** The extra files of the dist-info directory: when the loop over them
    returns, every one of them is a pair, its source exists, and the
    archive has the files below the sources, in order. *)
Lemma add_extra_distinfo_open w : forall extra st f st',
  Maker._whlfile st = Some f ->
  WhlFile.closed f = false ->
  add_extra_distinfo w extra st = (Ok tt, st') ->
  Maker._whlfile st'
  = Some (with_files f (input_members w (extra_pairs f extra))).
Proof.
  induction extra as [|x extra IH]; intros st f st' Hf Hc H.
  - cbn in H. inversion H; subst st'. now rewrite with_files_nil.
  - destruct x as [|filename [|real_path [|y x]]];
      cbn [add_extra_distinfo] in H; try discriminate H.
    apply then_ok_inv in H as (p & s1 & E1 & H).
    unfold Maker.distinfo_path, Maker.on_whlfile in E1.
    rewrite Hf in E1. inversion E1; subst p s1. clear E1.
    apply then_ok_inv in H as ([] & s2 & E2 & H).
    destruct (add_file_open w _ real_path _ f s2
                (eq_refl : Maker._whlfile (Maker.mkState (Some f) _ _)
                           = Some f) Hc E2)
      as [_ O2].
    cbn [extra_pairs flat_map].
    change (flat_map _ extra) with (extra_pairs f extra).
    rewrite (input_members_app w [_]), <- with_files_app.
    exact (IH s2 _ st' O2 Hc H).
Qed.

Lemma before_record_extends a w all_files wheel text f :
  extends well_written f (before_record a w all_files wheel text f).
Proof.
  unfold before_record.
  eapply extends_trans; [apply with_files_extends|].
  eapply extends_trans; [apply with_member_extends|].
  eapply extends_trans; [apply with_member_extends|].
  apply with_files_extends.
Qed.

(** The body of the [with] statement, when it returns: the input files
    first, then WHEEL, then METADATA with the text made from the
    metadata file, the name as given, the description and the version;
    then the entry points and the extra files; and RECORD last, from the
    entries of all the members before it. *)
Lemma with_body_layout a w maker all_files st f st2 :
  Maker._whlfile st = Some f ->
  WhlFile.closed f = false ->
  with_body a w maker all_files st = (Ok tt, st2) ->
  exists metadata description version_in_metadata text,
    Forall (fun pr => fs w (snd pr) <> None) all_files
    /\ read_text w (metadata_file a) = Ok metadata
    /\ (if Maker.truthy (description_file a)
        then exists d, read_text w (description_file a) = Ok d
                       /\ description = Some d
        else description = None)
    /\ (if noincompatible_normalize_version a
        then version_in_metadata = version a
        else normalize_pep440 (version a) = Ok version_in_metadata)
    /\ Maker.metadata_text metadata (name a) description version_in_metadata
       = Ok text
    /\ Maker._whlfile st2
       = Some (with_distinfo
                 (before_record a w all_files
                    (wheel_text (Maker._python_tag maker)
                       (Maker._abi maker) (Maker._platform maker))
                    text f)
                 "RECORD"
                 (flat_map WhlFile.record_line
                    (WhlFile._record
                       (before_record a w all_files
                          (wheel_text (Maker._python_tag maker)
                             (Maker._abi maker) (Maker._platform maker))
                          text f)
                     ++ [(WhlFile.distinfo_path f "RECORD", [], [])]))).
Proof.
  intros Hf Hc H. unfold with_body in H.
  (* the input files *)
  apply then_ok_inv in H as ([] & s1 & W1 & H1).
  destruct (add_all_files_open w all_files st f s1 Hf Hc W1) as [O1 S1].
  set (f1 := with_files f (input_members w all_files)) in *.
  assert (C1 : WhlFile.closed f1 = false) by exact Hc.
  (* WHEEL *)
  apply then_ok_inv in H1 as (u2 & s2 & W2 & H2).
  rewrite add_wheelfile_eq in W2.
  pose proof (distinfo_string_open _ _ _ _ _ _ O1 C1 W2) as O2.
  cbn [data_of] in O2. clear W2.
  set (f2 := with_distinfo f1 "WHEEL" _) in *.
  assert (C2 : WhlFile.closed f2 = false) by exact C1.
  (* the description, the metadata file, the version *)
  apply then_ok_inv in H2 as (description & s3 & W3 & H3).
  assert (D3 : s3 = s2
               /\ if Maker.truthy (description_file a)
                  then exists d, read_text w (description_file a) = Ok d
                                 /\ description = Some d
                  else description = None).
  { destruct (Maker.truthy (description_file a)).
    - apply then_ok_inv in W3 as (d & s' & L & R).
      unfold Maker.lift in L. unfold Maker.ret in R.
      inversion L; inversion R; subst. split; [reflexivity|].
      now exists d.
    - unfold Maker.ret in W3. inversion W3. auto. }
  destruct D3 as [-> D3]. clear W3.
  apply then_ok_inv in H3 as (metadata & s4 & W4 & H4).
  unfold Maker.lift in W4. inversion W4 as [[M4 S4]]. subst s4. clear W4.
  apply then_ok_inv in H4 as (version_in_metadata & s5 & W5 & H5).
  assert (D5 : s5 = s2
               /\ if noincompatible_normalize_version a
                  then version_in_metadata = version a
                  else normalize_pep440 (version a)
                       = Ok version_in_metadata).
  { destruct (noincompatible_normalize_version a).
    - unfold Maker.ret in W5. inversion W5. auto.
    - unfold Maker.lift in W5. inversion W5. auto. }
  destruct D5 as [-> D5]. clear W5.
  (* METADATA *)
  apply then_ok_inv in H5 as (u6 & s6 & W6 & H6).
  unfold Maker.add_metadata in W6.
  apply then_ok_inv in W6 as (text & s5' & L6 & W6).
  unfold Maker.lift in L6. inversion L6 as [[T6 S6]]. subst s5'. clear L6.
  pose proof (distinfo_string_open _ _ _ _ _ _ O2 C2 W6) as O6.
  cbn [data_of] in O6. clear W6.
  set (f3 := with_distinfo f2 "METADATA" (Py.encode text)) in *.
  assert (C3 : WhlFile.closed f3 = false) by exact C2.
  (* the entry points *)
  apply then_ok_inv in H6 as (u7 & s7 & W7 & H7).
  assert (O7 : Maker._whlfile s7
               = Some (with_files f3
                         (input_members w
                            (if Maker.truthy (entry_points_file a)
                             then [(WhlFile.distinfo_path f
                                      "entry_points.txt",
                                    match entry_points_file a with
                                    | Some p => p | None => "" end)]
                             else [])))).
  { destruct (Maker.truthy (entry_points_file a)).
    - apply then_ok_inv in W7 as (p & s' & E1 & E2).
      unfold Maker.distinfo_path, Maker.on_whlfile in E1.
      rewrite O6 in E1. inversion E1; subst p s'. clear E1.
      destruct u7.
      destruct (add_file_open w _ _ _ f3 s7
                  (eq_refl : Maker._whlfile (Maker.mkState (Some f3) _ _)
                             = Some f3) C3 E2) as [_ O].
      exact O.
    - unfold Maker.ret in W7. inversion W7; subst s7.
      cbn [input_members flat_map]. now rewrite with_files_nil. }
  clear W7.
  set (f7 := with_files f3 _) in O7.
  assert (C7 : WhlFile.closed f7 = false) by exact C3.
  (* the extra files *)
  apply then_ok_inv in H7 as ([] & s8 & W8 & H8).
  pose proof (add_extra_distinfo_open w _ s7 f7 s8 O7 C7 W8) as O8.
  clear W8.
  assert (G : with_files f7
                (input_members w
                   (extra_pairs f7 (sorted_lists (extra_distinfo_file a))))
              = before_record a w all_files
                  (wheel_text (Maker._python_tag maker) (Maker._abi maker)
                     (Maker._platform maker)) text f).
  { unfold f7. rewrite with_files_app, <- input_members_app.
    reflexivity. }
  rewrite G in O8. clear G.
  set (g := before_record a w all_files _ text f) in *.
  assert (Cg : WhlFile.closed g = false) by exact Hc.
  (* RECORD, then the name file *)
  apply then_ok_inv in H8 as (u9 & s9 & W9 & H9).
  unfold Maker.add_recordfile, Maker.then_, Maker.on_whlfile in W9.
  rewrite O8 in W9. rewrite (add_recordfile_ok g Cg) in W9.
  cbn [Maker.ret] in W9. inversion W9; subst s9. clear W9.
  exists metadata, description, version_in_metadata, text.
  split; [exact S1|]. split; [exact M4|]. split; [exact D3|].
  split; [exact D5|]. split; [exact T6|].
  destruct (name_file a) as [p|]; [|discriminate].
  destruct (os_error w WriteNameFile); [discriminate|].
  unfold Maker.emit in H9. inversion H9. reflexivity.
Qed.

(** A completed run: the archive on disk, member by member. *)
Lemma main_layout (a : arguments) (w : world) :
  fst (main a w) = Ok tt ->
  exists files f ms rs metadata description version_in_metadata text,
    get_files_to_package (input_files a) = Ok files
    /\ Maker.on_disk (snd (main a w)) = Some f
    /\ WhlFile.closed f = true
    /\ WhlFile.filelist f
       = ms ++ [(fixed_header f (WhlFile.distinfo_path f "RECORD"),
                 flat_map WhlFile.record_line
                   (rs ++ [(WhlFile.distinfo_path f "RECORD", [], [])]))]
    /\ Forall2 well_written ms rs
    /\ ms = map (member_of f)
              (input_members w (sorted_items (map_to_list files)))
            ++ [(fixed_header f (WhlFile.distinfo_path f "WHEEL"),
                 Py.encode (wheel_text (python_tag a) (abi a) (platform a)));
                (fixed_header f (WhlFile.distinfo_path f "METADATA"),
                 Py.encode text)]
            ++ map (member_of f) (input_members w (distinfo_entries a f))
    /\ Forall (fun pr => fs w (snd pr) <> None)
         (sorted_items (map_to_list files))
    /\ read_text w (metadata_file a) = Ok metadata
    /\ (if Maker.truthy (description_file a)
        then exists d, read_text w (description_file a) = Ok d
                       /\ description = Some d
        else description = None)
    /\ (if noincompatible_normalize_version a
        then version_in_metadata = version a
        else normalize_pep440 (version a) = Ok version_in_metadata)
    /\ Maker.metadata_text metadata (name a) description version_in_metadata
       = Ok text.
Proof.
  unfold main.
  destruct (get_files_to_package (input_files a)) as [files|e];
    [|discriminate].
  destruct (Maker.__init__ _ _ _ _ _ _ _ _ _ _) as [maker|e] eqn:Hi;
    [|discriminate].
  destruct (init_tags _ _ _ _ _ _ _ _ _ _ _ Hi) as (Tp & Ta & Tl).
  unfold Maker.__enter__.
  destruct (os_error w OpenArchive); [discriminate|].
  cbn [initial Maker.on_disk Maker.log app].
  set (f0 := WhlFile.__init__ (Maker.filename maker)
               (Maker._distinfo_dir maker)
               (Maker._strip_path_prefixes maker)).
  set (st1 := Maker.mkState (Some f0) None [EvOpen (Maker.filename maker)]).
  pose proof (with_body_layout a w maker
                (sorted_items (map_to_list files)) st1 f0) as L.
  destruct (with_body a w maker (sorted_items (map_to_list files)) st1)
    as [r st2]. cbn [fst snd] in *.
  unfold Maker.__exit__.
  destruct (Maker._whlfile st2) as [fz|] eqn:W; [|discriminate].
  destruct (os_error w CloseArchive); [discriminate|].
  cbn [fst snd Maker.on_disk]. intros ->.
  destruct (L st2 eq_refl eq_refl eq_refl)
    as (metadata & description & version_in_metadata & text
        & S & M & Dd & Dv & T & O).
  rewrite W in O. injection O as ->. rewrite Tp, Ta, Tl.
  set (g := before_record a w (sorted_items (map_to_list files))
              (wheel_text (python_tag a) (abi a) (platform a)) text f0).
  destruct (before_record_extends a w (sorted_items (map_to_list files))
              (wheel_text (python_tag a) (abi a) (platform a)) text f0)
    as (ms & rs & F & R & H2 & _).
  fold g in F, R.
  cbn [f0 WhlFile.__init__ WhlFile.filelist WhlFile._record app] in F, R.
  exists files,
    (WhlFile.close
       (with_distinfo g "RECORD"
          (flat_map WhlFile.record_line
             (WhlFile._record g
              ++ [(WhlFile.distinfo_path f0 "RECORD", [], [])])))),
    ms, rs, metadata, description, version_in_metadata, text.
  split; [reflexivity|]. split; [reflexivity|]. split; [reflexivity|].
  split; [rewrite <- F, <- R; reflexivity|]. split; [exact H2|].
  split; [|auto].
  rewrite <- F. unfold g, before_record, with_files, with_distinfo, with_member.
  cbn [WhlFile.filelist f0 WhlFile.__init__ app].
  rewrite <- !app_assoc. reflexivity.
Qed.

(** X13: when [main] returns without an exception, the archive it leaves
    on disk is closed and its last member is RECORD in the dist-info
    directory.  The content of RECORD is one line for each member before
    it, in the order of the members, and then the line of RECORD itself
    with an empty digest and an empty size.  WHEEL and METADATA of the
    dist-info directory are among the members before it. *)
Theorem X13_completed_run_layout (a : arguments) (w : world) :
  fst (main a w) = Ok tt ->
  exists f ms rs wheel metadata,
    Maker.on_disk (snd (main a w)) = Some f
    /\ WhlFile.closed f = true
    /\ WhlFile.filelist f
       = ms ++ [(fixed_header f (WhlFile.distinfo_path f "RECORD"),
                 flat_map WhlFile.record_line
                   (rs ++ [(WhlFile.distinfo_path f "RECORD", [], [])]))]
    /\ Forall2 well_written ms rs
    /\ In (fixed_header f (WhlFile.distinfo_path f "WHEEL"), wheel) ms
    /\ In (fixed_header f (WhlFile.distinfo_path f "METADATA"), metadata)
         ms.
Proof.
  intros H.
  destruct (main_layout a w H)
    as (files & f & ms & rs & metadata & description & version_in_metadata
        & text & _ & D & C & F & W & M & _).
  exists f, ms, rs,
    (Py.encode (wheel_text (python_tag a) (abi a) (platform a))),
    (Py.encode text).
  split; [exact D|]. split; [exact C|]. split; [exact F|].
  split; [exact W|]. rewrite M.
  split; apply in_or_app; right; [now left|right; now left].
Qed.

(** X13 at a run with one input file. *)
Lemma X13_completed_run_layout_witness :
  fst (main (sample_arguments [["pkg/a.txt"; "src/one.txt"]]) sample_world)
  = Ok tt
  /\ exists f ms rs wheel metadata,
       Maker.on_disk
         (snd (main (sample_arguments [["pkg/a.txt"; "src/one.txt"]])
                 sample_world)) = Some f
       /\ WhlFile.closed f = true
       /\ WhlFile.filelist f
          = ms ++ [(fixed_header f (WhlFile.distinfo_path f "RECORD"),
                    flat_map WhlFile.record_line
                      (rs ++ [(WhlFile.distinfo_path f "RECORD", [], [])]))]
       /\ Forall2 well_written ms rs
       /\ In (fixed_header f (WhlFile.distinfo_path f "WHEEL"), wheel) ms
       /\ In (fixed_header f (WhlFile.distinfo_path f "METADATA"), metadata)
            ms.
Proof.
  split; [vm_compute; reflexivity|].
  apply (X13_completed_run_layout
           (sample_arguments [["pkg/a.txt"; "src/one.txt"]]) sample_world).
  vm_compute. reflexivity.
Defined.

(** X21: in the archive of a completed run, WHEEL of the dist-info
    directory holds the version of the format, the generator, whether
    the platform is [any], and one tag made of the Python tag, the ABI
    and the platform joined by hyphens, each on a line of its own. *)
Theorem X21_wheel_file_content (a : arguments) (w : world) :
  fst (main a w) = Ok tt ->
  exists f,
    Maker.on_disk (snd (main a w)) = Some f
    /\ In (fixed_header f (WhlFile.distinfo_path f "WHEEL"),
           Py.encode
             ("Wheel-Version: 1.0" +:+ nl
              +:+ "Generator: bazel-wheelmaker 1.0" +:+ nl
              +:+ "Root-Is-Purelib: "
              +:+ (if String.eqb (platform a) "any" then "true" else "false")
              +:+ nl
              +:+ "Tag: " +:+ python_tag a +:+ "-" +:+ abi a +:+ "-"
              +:+ platform a +:+ nl))
         (WhlFile.filelist f).
Proof.
  intros H.
  destruct (main_layout a w H)
    as (files & f & ms & rs & metadata & description & version_in_metadata
        & text & _ & D & C & F & W & M & _).
  exists f. split; [exact D|]. rewrite F, M.
  apply in_or_app. left. apply in_or_app. right. now left.
Qed.

(** X21 at a run with one input file. *)
Lemma X21_wheel_file_content_witness :
  exists f,
    Maker.on_disk
      (snd (main (sample_arguments [["pkg/a.txt"; "src/one.txt"]])
              sample_world)) = Some f
    /\ In (fixed_header f (WhlFile.distinfo_path f "WHEEL"),
           Py.encode
             ("Wheel-Version: 1.0" +:+ nl
              +:+ "Generator: bazel-wheelmaker 1.0" +:+ nl
              +:+ "Root-Is-Purelib: true" +:+ nl
              +:+ "Tag: py3-none-any" +:+ nl))
         (WhlFile.filelist f).
Proof.
  apply (X21_wheel_file_content
           (sample_arguments [["pkg/a.txt"; "src/one.txt"]]) sample_world).
  vm_compute. reflexivity.
Defined.

(** ** Input files: pairs, order, list files *)

Lemma split_on_length c s :
  length (Py.split_on (Py.eqc c) s) = S (count_char c s).
Proof.
  induction s as [|x s IH]; [reflexivity|].
  cbn [Py.split_on count_char]. destruct (Py.eqc c x).
  - cbn [length]. now rewrite IH.
  - destruct (Py.split_on (Py.eqc c) s) as [|p ps]; [discriminate|].
    exact IH.
Qed.

Lemma fill_files_pairs : forall l files,
  match fill_files l files with
  | Ok _ => forallb (fun x => Nat.eqb (length x) 2) l = true
  | Raise e => e = ValueError
               /\ forallb (fun x => Nat.eqb (length x) 2) l = false
  end.
Proof.
  induction l as [|x l IH]; intros files; [reflexivity|].
  destruct x as [|a [|b [|c x]]]; cbn [fill_files forallb length Nat.eqb];
    try (split; reflexivity).
  apply IH.
Qed.

(** X14: the entries of [--input_file], split at [";"], are accepted by
    [get_files_to_package] exactly when each of them has one [";"];
    otherwise the call raises [ValueError]: an entry without a [";"],
    and a path that contains one, cannot be given. *)
Theorem X14_entries_need_one_separator (entries : list string) :
  match get_files_to_package (map split_semicolon entries) with
  | Ok _ => forallb one_separator entries = true
  | Raise e => e = ValueError /\ forallb one_separator entries = false
  end.
Proof.
  unfold get_files_to_package.
  assert (E : forallb (fun x => Nat.eqb (length x) 2)
                (map split_semicolon entries)
              = forallb one_separator entries).
  { induction entries as [|i l IH]; [reflexivity|].
    cbn [map forallb]. rewrite IH. f_equal.
    unfold split_semicolon, one_separator. now rewrite split_on_length. }
  rewrite <- E. apply fill_files_pairs.
Qed.

(** *** The order of [sorted] *)

Lemma ascii_compare_N (a b : ascii) :
  Ascii.compare a b = N.compare (N_of_ascii a) (N_of_ascii b).
Proof. reflexivity. Qed.

Lemma ascii_compare_eq (a b : ascii) : Ascii.compare a b = Eq -> a = b.
Proof. apply Ascii.compare_eq_iff. Qed.

Lemma ascii_compare_refl (a : ascii) : Ascii.compare a a = Eq.
Proof. rewrite ascii_compare_N. apply N.compare_refl. Qed.

Lemma ascii_compare_lt_trans (a b c : ascii) :
  Ascii.compare a b = Lt -> Ascii.compare b c = Lt -> Ascii.compare a c = Lt.
Proof.
  rewrite !ascii_compare_N, !N.compare_lt_iff. lia.
Qed.

Lemma compare_refl : forall s, String.compare s s = Eq.
Proof.
  induction s as [|c s IH]; [reflexivity|].
  cbn [String.compare]. now rewrite ascii_compare_refl.
Qed.

Lemma compare_lt_trans : forall a b c,
  String.compare a b = Lt -> String.compare b c = Lt ->
  String.compare a c = Lt.
Proof.
  induction a as [|x a IH]; intros [|y b] [|z c]; cbn [String.compare];
    try discriminate; auto.
  destruct (Ascii.compare x y) eqn:Exy; try discriminate;
    destruct (Ascii.compare y z) eqn:Eyz; try discriminate; intros H1 H2.
  - apply ascii_compare_eq in Exy, Eyz. subst.
    rewrite ascii_compare_refl. eauto.
  - apply ascii_compare_eq in Exy. subst. now rewrite Eyz.
  - apply ascii_compare_eq in Eyz. subst. now rewrite Exy.
  - now rewrite (ascii_compare_lt_trans _ _ _ Exy Eyz).
Qed.

Lemma str_lt_trans a b c :
  str_lt a b = true -> str_lt b c = true -> str_lt a c = true.
Proof.
  unfold str_lt.
  destruct (String.compare a b) eqn:E1; try discriminate.
  destruct (String.compare b c) eqn:E2; try discriminate.
  now rewrite (compare_lt_trans _ _ _ E1 E2).
Qed.

Lemma str_lt_irrefl a : str_lt a a = false.
Proof. unfold str_lt. now rewrite compare_refl. Qed.

Lemma leb_cases a b :
  String.leb a b = true <-> str_lt a b = true \/ a = b.
Proof.
  unfold String.leb, str_lt.
  destruct (String.compare a b) eqn:E.
  - apply String.compare_eq_iff in E. intuition.
  - intuition.
  - split; [discriminate|]. intros [H|H]; [discriminate|].
    subst. rewrite compare_refl in E. discriminate.
Qed.

Lemma str_total a b : str_lt a b = true \/ a = b \/ str_lt b a = true.
Proof.
  unfold str_lt. rewrite (String.compare_antisym b a).
  destruct (String.compare a b) eqn:E; cbn [CompOpp]; auto.
  apply String.compare_eq_iff in E. auto.
Qed.

Lemma item_leb_spec a b :
  item_leb a b = true
  <-> str_lt (fst a) (fst b) = true
      \/ (fst a = fst b /\ (str_lt (snd a) (snd b) = true \/ snd a = snd b)).
Proof.
  unfold item_leb. rewrite orb_true_iff, andb_true_iff, String.eqb_eq.
  now rewrite leb_cases.
Qed.

Lemma item_leb_trans : Transitive (fun a b => Is_true (item_leb a b)).
Proof.
  intros a b c H1 H2. apply Is_true_true in H1, H2. apply Is_true_true.
  apply item_leb_spec in H1, H2. apply item_leb_spec.
  destruct H1 as [H1|[E1 H1]], H2 as [H2|[E2 H2]].
  - left. eapply str_lt_trans; eauto.
  - left. now rewrite <- E2.
  - left. now rewrite E1.
  - right. split; [congruence|].
    destruct H1 as [H1|H1], H2 as [H2|H2].
    + left. eapply str_lt_trans; eauto.
    + left. now rewrite <- H2.
    + left. now rewrite H1.
    + right. congruence.
Qed.

Lemma item_leb_total : Total (fun a b => Is_true (item_leb a b)).
Proof.
  intros a b.
  destruct (str_total (fst a) (fst b)) as [H|[H|H]].
  - left. apply Is_true_true, item_leb_spec. auto.
  - destruct (str_total (snd a) (snd b)) as [K|[K|K]].
    + left. apply Is_true_true, item_leb_spec. auto.
    + left. apply Is_true_true, item_leb_spec. auto.
    + right. apply Is_true_true, item_leb_spec. auto.
  - right. apply Is_true_true, item_leb_spec. auto.
Qed.

Lemma strongly_sorted_strict (l : list (string * string)) :
  StronglySorted (fun a b => Is_true (item_leb a b)) l ->
  List.NoDup (List.map fst l) ->
  StronglySorted (fun a b => str_lt (fst a) (fst b) = true) l.
Proof.
  induction 1 as [|a l Hs IH Ha]; intros N; [constructor|].
  cbn [List.map] in N. inversion N as [|? ? Hn N']; subst.
  constructor; [auto|].
  rewrite List.Forall_forall in *. intros b Hb.
  specialize (Ha b Hb). apply Is_true_true, item_leb_spec in Ha.
  destruct Ha as [Ha|[E _]]; [exact Ha|].
  exfalso. apply Hn. rewrite E. now apply List.in_map.
Qed.

(** X15: the list [main] walks, [sorted(all_files.items())], is in
    strictly increasing order of archive path, by code point: every
    entry has a smaller archive path than all the entries after it. *)
Theorem X15_files_in_path_order (files : gmap string string) :
  StronglySorted (fun a b => str_lt (fst a) (fst b) = true)
    (sorted_items (map_to_list files)).
Proof.
  apply strongly_sorted_strict.
  - unfold sorted_items.
    apply StronglySorted_merge_sort;
      [apply item_leb_trans|apply item_leb_total].
  - apply all_files_spec.
Qed.

(** *** The order of the entries on the command line *)

Lemma last_source_in : forall l p r,
  List.NoDup (List.map fst l) ->
  (last_source p l = Some r <-> List.In (p, r) l).
Proof.
  induction l as [|[q s] l IH]; intros p r N.
  - split; [discriminate|intros []].
  - cbn [List.map fst] in N. inversion N as [|? ? Hn N']; subst.
    cbn [last_source List.In].
    destruct (last_source p l) as [x|] eqn:E.
    + pose proof (proj1 (IH p x N') E) as K.
      split.
      * intros H. right. apply IH; [exact N'|congruence].
      * intros [H|H]; [|apply IH in H; [congruence|exact N']].
        inversion H; subst. exfalso. apply Hn.
        exact (List.in_map fst _ _ K).
    + destruct (String.eqb_spec q p) as [->|Hne].
      * split.
        -- intros H. left. congruence.
        -- intros [H|H]; [congruence|].
           apply IH in H; [congruence|exact N'].
      * split; [discriminate|].
        intros [H|H]; [congruence|].
        apply IH in H; [congruence|exact N'].
Qed.

Lemma last_source_perm l1 l2 p :
  l1 ≡ₚ l2 -> List.NoDup (List.map fst l1) ->
  last_source p l1 = last_source p l2.
Proof.
  intros P N1.
  assert (N2 : List.NoDup (List.map fst l2)).
  { eapply Permutation_NoDup; [|exact N1]. now apply Permutation_map. }
  destruct (last_source p l1) as [r|] eqn:E1.
  - symmetry. apply last_source_in; [exact N2|].
    eapply Permutation_in; [exact P|]. now apply last_source_in.
  - destruct (last_source p l2) as [r|] eqn:E2; [|reflexivity].
    apply last_source_in in E2; [|exact N2].
    assert (K : List.In (p, r) l1).
    { eapply Permutation_in; [symmetry; exact P|exact E2]. }
    apply last_source_in in K; [congruence|exact N1].
Qed.

(** X16: when no archive path is given twice, the order of the input
    files does not matter: [main] does the same, and leaves the same
    archive, for any other order of the same entries. *)
Theorem X16_input_order_irrelevant
        (a : arguments) (w : world) (l1 l2 : list (string * string)) :
  l1 ≡ₚ l2 ->
  List.NoDup (List.map fst l1) ->
  main (with_input_files a (input_pairs l1)) w
  = main (with_input_files a (input_pairs l2)) w.
Proof.
  intros P N.
  destruct (get_files_lookup l1) as (files1 & E1 & L1).
  destruct (get_files_lookup l2) as (files2 & E2 & L2).
  assert (E : files1 = files2).
  { apply map_eq. intros p. rewrite L1, L2. now apply last_source_perm. }
  subst files2.
  unfold main, with_input_files. cbn [input_files]. rewrite E1, E2.
  reflexivity.
Qed.

(** X16 at two entries. *)
Lemma X16_input_order_irrelevant_witness :
  main (with_input_files (sample_arguments [])
          (input_pairs [("pkg/a.txt", "src/one.txt");
                        ("pkg/b.txt", "src/two.txt")])) sample_world
  = main (with_input_files (sample_arguments [])
            (input_pairs [("pkg/b.txt", "src/two.txt");
                          ("pkg/a.txt", "src/one.txt")])) sample_world.
Proof.
  apply (X16_input_order_irrelevant (sample_arguments []) sample_world
           [("pkg/a.txt", "src/one.txt"); ("pkg/b.txt", "src/two.txt")]
           [("pkg/b.txt", "src/two.txt"); ("pkg/a.txt", "src/one.txt")]).
  - apply perm_swap.
  - repeat constructor; simpl; intuition discriminate.
Defined.

(** ** [commonpath] *)

Lemma join_split_on c s :
  Py.join (String c "") (Py.split_on (Py.eqc c) s) = s.
Proof.
  induction s as [|x s IH]; [reflexivity|].
  cbn [Py.split_on]. destruct (Py.eqc c x) eqn:Hc.
  - apply Ascii.eqb_eq in Hc. subst x.
    destruct (Py.split_on (Py.eqc c) s) as [|p ps] eqn:E.
    + now destruct (split_on_nonnil (Py.eqc c) s).
    + change (Py.join (String c "") ("" :: p :: ps))
        with (String c "" +:+ Py.join (String c "") (p :: ps)).
      now rewrite IH.
  - destruct (Py.split_on (Py.eqc c) s) as [|p ps] eqn:E.
    + now destruct (split_on_nonnil (Py.eqc c) s).
    + destruct ps as [|q ps].
      * simpl in IH. simpl. now rewrite IH.
      * change (Py.join (String c "") (String x p :: q :: ps))
          with (String x (p +:+ String c ""
                          +:+ Py.join (String c "") (q :: ps))).
        now rewrite <- IH.
Qed.

Lemma common_components_refl : forall l, common_components l l = l.
Proof.
  induction l as [|a l IH]; [reflexivity|].
  cbn [common_components]. rewrite String.eqb_refl. now rewrite IH.
Qed.

Lemma common_components_sym : forall l1 l2,
  common_components l1 l2 = common_components l2 l1.
Proof.
  induction l1 as [|a l1 IH]; intros [|b l2]; try reflexivity.
  cbn [common_components]. rewrite (String.eqb_sym b a).
  destruct (String.eqb_spec a b) as [->|]; [|reflexivity].
  now rewrite IH.
Qed.

Lemma common_components_prefix : forall l1 l2,
  exists rest, l1 = common_components l1 l2 ++ rest.
Proof.
  induction l1 as [|a l1 IH]; intros [|b l2]; cbn [common_components];
    try (eexists; reflexivity).
  destruct (String.eqb a b); [|eexists; reflexivity].
  destruct (IH l2) as (rest & E). exists rest.
  cbn [app]. now rewrite <- E.
Qed.

Lemma join_app sep : forall l1 l2,
  l1 <> [] -> l2 <> [] ->
  Py.join sep (l1 ++ l2) = Py.join sep l1 +:+ sep +:+ Py.join sep l2.
Proof.
  induction l1 as [|a l1 IH]; intros l2 H1 H2; [congruence|].
  destruct l1 as [|b l1].
  - destruct l2 as [|c l2]; [congruence|]. reflexivity.
  - change (Py.join sep ((a :: b :: l1) ++ l2))
      with (a +:+ sep +:+ Py.join sep ((b :: l1) ++ l2)).
    rewrite IH by congruence.
    change (Py.join sep (a :: b :: l1))
      with (a +:+ sep +:+ Py.join sep (b :: l1)).
    now rewrite !app_assoc_s.
Qed.

(** X17: [commonpath] of a path with itself is the path; the order of
    the two paths does not matter; and the result is the first path cut
    at a component boundary: what follows it in the first path is
    nothing, or starts with the separator, unless the result is
    empty. *)
Theorem X17_commonpath_component_prefix (path1 path2 : string) :
  commonpath path1 path1 = path1
  /\ commonpath path1 path2 = commonpath path2 path1
  /\ exists rest,
       path1 = commonpath path1 path2 +:+ rest
       /\ (rest = "" \/ commonpath path1 path2 = ""
           \/ exists r, rest = String os_path_sep r).
Proof.
  unfold commonpath. split; [|split].
  - rewrite common_components_refl. apply join_split_on.
  - now rewrite common_components_sym.
  - set (l1 := Py.split_on (Py.eqc os_path_sep) path1).
    set (l2 := Py.split_on (Py.eqc os_path_sep) path2).
    destruct (common_components_prefix l1 l2) as (rest & E).
    pose proof (join_split_on os_path_sep path1) as J.
    fold l1 in J. rewrite E in J.
    destruct (common_components l1 l2) as [|a c] eqn:Ec.
    + exists path1. split; [reflexivity|]. right. now left.
    + destruct rest as [|b rest].
      * exists "". rewrite app_nil_r in J. rewrite J.
        split; [now rewrite app_nil_r_s|]. now left.
      * rewrite join_app in J by congruence.
        exists (String os_path_sep "" +:+ Py.join (String os_path_sep "")
                                             (b :: rest)).
        split; [now rewrite J|]. right. right.
        eexists. reflexivity.
Qed.

(** ** Build stamps *)

Lemma split_once_absent sep : forall s,
  Py.mem sep s = false -> split_once sep s = [s].
Proof.
  induction s as [|c s IH]; [reflexivity|].
  cbn [Py.mem split_once]. unfold Py.eqc. rewrite (Ascii.eqb_sym c sep).
  destruct (Ascii.eqb sep c); [discriminate|]. cbn [orb].
  intros H. now rewrite (IH H).
Qed.

Lemma split_once_present sep : forall s,
  Py.mem sep s = true -> exists key value, split_once sep s = [key; value].
Proof.
  induction s as [|c s IH]; [discriminate|].
  cbn [Py.mem split_once]. unfold Py.eqc. rewrite (Ascii.eqb_sym c sep).
  destruct (Ascii.eqb sep c); cbn [orb].
  - intros _. now exists "", s.
  - intros H. destruct (IH H) as (key & value & E). rewrite E.
    now exists (String c key), value.
Qed.

Lemma str_replace_absent c old new : forall s,
  Py.mem c s = false -> str_replace (String c old) new s = s.
Proof.
  unfold str_replace.
  induction s as [|x s IH]; [reflexivity|].
  cbn [Py.mem str_replace_from String.prefix]. unfold Py.eqc.
  destruct (Ascii.eqb_spec c x) as [->|Hne]; [discriminate|]. cbn [orb].
  intros H. destruct (ascii_dec c x) as [E|_]; [contradiction|].
  now rewrite (IH H).
Qed.

Lemma stamp_lines_result : forall lines argument,
  match stamp_lines lines argument with
  | Ok r => forallb stamp_line_ok lines = true
            /\ (Py.mem "{" argument = false -> r = argument)
  | Raise e => e = ValueError /\ forallb stamp_line_ok lines = false
  end.
Proof.
  intros lines. induction lines as [|line rest IH]; intros argument.
  - cbn. auto.
  - cbn [stamp_lines forallb]. unfold stamp_line_ok at 1 3.
    destruct (Maker.nonempty line); cbn [negb orb andb]; [|apply IH].
    destruct (Py.mem " " line) eqn:Hm.
    + destruct (split_once_present " " line Hm) as (key & value & ->).
      cbn [andb]. cbv zeta.
      specialize (IH (str_replace ("{" +:+ key +:+ "}") value argument)).
      destruct (stamp_lines rest _) as [r|e]; [|exact IH].
      destruct IH as [F K]. split; [exact F|]. intros H.
      change ("{" +:+ key +:+ "}") with (String "{" (key +:+ "}")) in K.
      rewrite (str_replace_absent _ _ _ _ H) in K. auto.
    + rewrite (split_once_absent " " line Hm). cbn [andb]. auto.
Qed.

(** X18: with both status files readable, [resolve_argument_stamp]
    raises [ValueError] exactly when some line of them is not empty and
    has no space; otherwise it returns, and an argument without ["{"]
    is returned as it was given. *)
Theorem X18_stamps_need_key_and_value
        (w : world) (argument volatile_status_stamp stable_status_stamp
                     volatile stable : string) :
  texts w volatile_status_stamp = Some volatile ->
  texts w stable_status_stamp = Some stable ->
  match resolve_argument_stamp w argument volatile_status_stamp
          stable_status_stamp with
  | Ok r =>
      forallb stamp_line_ok (splitlines volatile ++ splitlines stable) = true
      /\ (Py.mem "{" argument = false -> r = argument)
  | Raise e =>
      e = ValueError
      /\ forallb stamp_line_ok (splitlines volatile ++ splitlines stable)
         = false
  end.
Proof.
  intros Hv Hs. unfold resolve_argument_stamp, read_text.
  rewrite Hv, Hs. cbn. apply stamp_lines_result.
Qed.

(** X18 at a name with a stamp, and two status files with three keys
    and an empty line. *)
Lemma X18_stamps_need_key_and_value_witness :
  match resolve_argument_stamp stamp_world "pkg-{STABLE_VERSION}"
          "volatile-status.txt" "stable-status.txt" with
  | Ok r =>
      forallb stamp_line_ok
        (splitlines ("BUILD_TIMESTAMP 1700000000" +:+ nl +:+ nl)
         ++ splitlines ("STABLE_VERSION 1.2.3" +:+ nl
                        +:+ "STABLE_NOTE built on host" +:+ nl)) = true
      /\ (Py.mem "{" "pkg-{STABLE_VERSION}" = false
          -> r = "pkg-{STABLE_VERSION}")
  | Raise e =>
      e = ValueError
      /\ forallb stamp_line_ok
           (splitlines ("BUILD_TIMESTAMP 1700000000" +:+ nl +:+ nl)
            ++ splitlines ("STABLE_VERSION 1.2.3" +:+ nl
                           +:+ "STABLE_NOTE built on host" +:+ nl)) = false
  end.
Proof.
  apply (X18_stamps_need_key_and_value stamp_world "pkg-{STABLE_VERSION}"
           "volatile-status.txt" "stable-status.txt");
    reflexivity.
Defined.

(** ** List files *)

Lemma splitlines_line rest : forall l,
  Py.all (fun c => negb (is_linebreak c)) l = true ->
  splitlines_from false (l +:+ nl +:+ rest)
  = l :: splitlines_from false rest.
Proof.
  induction l as [|c l IH]; intros H.
  - reflexivity.
  - cbn [Py.all] in H. apply andb_true_iff in H as [Hc Hl].
    change (String c l +:+ nl +:+ rest) with (String c (l +:+ nl +:+ rest)).
    cbn [splitlines_from andb].
    destruct (is_linebreak c); [discriminate|].
    now rewrite (IH Hl).
Qed.

Lemma path_char_line s :
  Py.all path_char s = true ->
  Py.all (fun c => negb (is_linebreak c)) s = true.
Proof.
  apply all_impl. intros c H. unfold path_char in H.
  now apply andb_true_iff in H.
Qed.

Lemma split_semicolon_pair package_path real_path :
  Py.all path_char package_path = true ->
  Py.all path_char real_path = true ->
  split_semicolon (package_path +:+ ";" +:+ real_path)
  = [package_path; real_path].
Proof.
  intros Hp Hr. unfold split_semicolon.
  apply (split_join path_char (Py.eqc ";") ";" [package_path; real_path]).
  - intros x H. unfold path_char in H. apply andb_true_iff in H as [_ H].
    now destruct (Py.eqc ";" x).
  - reflexivity.
  - discriminate.
  - repeat constructor; assumption.
Qed.

Lemma list_file_lines : forall pairs,
  Forall (fun pr => Py.all path_char (fst pr) = true
                    /\ Py.all path_char (snd pr) = true) pairs ->
  map split_semicolon (splitlines (list_file_text pairs))
  = input_pairs pairs.
Proof.
  unfold splitlines.
  induction 1 as [|[p r] pairs [Hp Hr] _ IH]; [reflexivity|].
  cbn [list_file_text fst snd] in *.
  replace (p +:+ ";" +:+ r +:+ nl +:+ list_file_text pairs)
    with ((p +:+ ";" +:+ r) +:+ nl +:+ list_file_text pairs)
    by now rewrite !app_assoc_s.
  rewrite splitlines_line.
  - cbn [map]. rewrite IH. now rewrite split_semicolon_pair.
  - rewrite !all_app. rewrite (path_char_line _ Hp), (path_char_line _ Hr).
    reflexivity.
Qed.

(** X19: a list file with one line [package_path;real_path] for each
    pair, each line ended by a line feed, gives these pairs back, in
    order and after the entries of [--input_file], when the paths
    contain no [";"] and no line boundary. *)
Theorem X19_input_file_list_round_trip
        (ns : Argparse.Namespace) (w : world) (file : string)
        (pairs : list (string * string)) :
  Forall (fun pr => Py.all path_char (fst pr) = true
                    /\ Py.all path_char (snd pr) = true) pairs ->
  Argparse.input_file_list ns = Some [file] ->
  texts w file = Some (list_file_text pairs) ->
  input_files_of ns w
  = Ok (split_pairs (Argparse.input_file ns) ++ input_pairs pairs).
Proof.
  intros Hp Hl Ht. unfold input_files_of. rewrite Hl.
  cbn [read_input_file_lists read_text]. rewrite Ht. cbn.
  rewrite app_nil_r. now rewrite (list_file_lines _ Hp).
Qed.

(** X19 at a list file with two entries, after one entry of the command
    line. *)
Lemma X19_input_file_list_round_trip_witness :
  input_files_of list_namespace stamp_world
  = Ok (split_pairs (Argparse.input_file list_namespace)
        ++ input_pairs [("pkg/a.txt", "src/one.txt");
                        ("pkg/b.txt", "src/two.txt")]).
Proof.
  apply (X19_input_file_list_round_trip list_namespace stamp_world
           "files.txt"
           [("pkg/a.txt", "src/one.txt"); ("pkg/b.txt", "src/two.txt")]).
  - repeat constructor.
  - reflexivity.
  - reflexivity.
Defined.

(** ** The digest of a RECORD entry *)

Lemma list_ind3 {A : Type} (P : list A -> Prop) :
  P [] -> (forall x, P [x]) -> (forall x y, P [x; y]) ->
  (forall x y z l, P l -> P (x :: y :: z :: l)) ->
  forall l, P l.
Proof.
  intros H0 H1 H2 H3 l.
  assert (H : P l /\ (forall x, P (x :: l)) /\ (forall x y, P (x :: y :: l))).
  { induction l as [|a l (Ha & Hb & Hc)]; [auto|].
    split; [apply Hb|]. split; [intros x; apply Hc|].
    intros x y. apply H3. exact Ha. }
  apply H.
Qed.

Lemma sextet_urlsafe x : urlsafe_byte (Base64.sextet x) = true.
Proof.
  unfold Base64.sextet.
  assert (H : (Z.to_nat (x mod 64) < 64)%nat).
  { pose proof (Z.mod_pos_bound x 64 eq_refl). lia. }
  revert H. generalize (Z.to_nat (x mod 64)). intros n H.
  do 64 (destruct n as [|n]; [reflexivity|]). lia.
Qed.

Lemma urlsafe_not_pad x :
  urlsafe_byte x = true -> existsb (Byte.eqb x) (Py.b "=") = false.
Proof. destruct x; intros H; solve [reflexivity|discriminate H]. Qed.

Lemma bytes_rstrip_all chars : forall l,
  Forall (fun x => existsb (Byte.eqb x) chars = true) l ->
  bytes_rstrip chars l = [].
Proof.
  induction 1 as [|x l Hx _ IH]; [reflexivity|].
  cbn [bytes_rstrip]. now rewrite IH, Hx.
Qed.

Lemma bytes_rstrip_none chars : forall l,
  Forall (fun x => existsb (Byte.eqb x) chars = false) l ->
  bytes_rstrip chars l = l.
Proof.
  induction 1 as [|x l Hx _ IH]; [reflexivity|].
  cbn [bytes_rstrip]. rewrite IH, Hx. now destruct l.
Qed.

Lemma bytes_rstrip_tail chars tail :
  Forall (fun x => existsb (Byte.eqb x) chars = true) tail ->
  forall body,
    bytes_rstrip chars (body ++ tail) = bytes_rstrip chars body.
Proof.
  intros Ht. induction body as [|x body IH].
  - cbn [app bytes_rstrip]. now apply bytes_rstrip_all.
  - cbn [app bytes_rstrip]. now rewrite IH.
Qed.

(** The encoding of [data]: four characters of the alphabet for every
    three bytes, then two or three and the padding for what is left. *)
Lemma urlsafe_b64encode_shape : forall data,
  exists body pads,
    Base64.urlsafe_b64encode data = body ++ pads
    /\ Forall (fun x => urlsafe_byte x = true) body
    /\ Forall (fun x => existsb (Byte.eqb x) (Py.b "=") = true) pads
    /\ length body = (4 * length data + 2) / 3.
Proof.
  induction data as [|x|x y|x y z data IH] using list_ind3.
  - exists [], []. repeat split; constructor.
  - eexists [_; _], [_; _]. split; [reflexivity|].
    split; [repeat constructor; apply sextet_urlsafe|].
    split; [repeat constructor|reflexivity].
  - eexists [_; _; _], [_]. split; [reflexivity|].
    split; [repeat constructor; apply sextet_urlsafe|].
    split; [repeat constructor|reflexivity].
  - destruct IH as (body & pads & E & Hb & Hp & Hl).
    eexists (_ :: _ :: _ :: _ :: body), pads.
    split; [cbn [Base64.urlsafe_b64encode app]; rewrite E; reflexivity|].
    split; [repeat constructor; try apply sextet_urlsafe; exact Hb|].
    split; [exact Hp|].
    cbn [length]. rewrite Hl.
    generalize (length data). intros n.
    replace (4 * S (S (S n)) + 2) with ((4 * n + 2) + 4 * 3) by lia.
    rewrite Nat.div_add by lia. lia.
Qed.

Lemma sha256_digest_length msg : length (Hashlib.sha256_digest msg) = 32.
Proof. unfold Hashlib.sha256_digest. now rewrite !length_app. Qed.

(** X20: the digest [_serialize_digest] gives for a RECORD entry is
    [sha256=] followed by 43 bytes of the URL-safe base64 alphabet,
    whatever was hashed: it has no padding, no comma and no line
    feed. *)
Theorem X20_serialize_digest_shape (hash : Hashlib.sha256_obj) :
  exists body,
    WhlFile._serialize_digest hash = Py.b "sha256=" ++ body
    /\ length body = 43
    /\ Forall (fun x => urlsafe_byte x = true) body.
Proof.
  unfold WhlFile._serialize_digest, Hashlib.digest.
  destruct (urlsafe_b64encode_shape (Hashlib.sha256_digest (Hashlib.fed hash)))
    as (body & pads & E & Hb & Hp & Hl).
  rewrite sha256_digest_length in Hl.
  exists body. rewrite E, (bytes_rstrip_tail _ _ Hp).
  rewrite bytes_rstrip_none.
  - split; [reflexivity|]. split; [exact Hl|exact Hb].
  - eapply List.Forall_impl; [|exact Hb]. apply urlsafe_not_pad.
Qed.

(* ===================================================================== *)
(** ** C1: entries with the same archive path                             *)
(* ===================================================================== *)

(** C1, as stated, fails: when [pkg/a.txt] is given twice, with the
    sources [src/one.txt] and [src/two.txt], the run completes with one
    member of that name, holding the bytes of the second source, and one
    RECORD entry for it. *)
Lemma C1_duplicate_path_written_once :
  fst duplicate_run = Ok tt
  /\ option_map member_names (Maker.on_disk (snd duplicate_run))
     = Some ["pkg/a.txt"; "my_pkg-1.0.dist-info/WHEEL";
             "my_pkg-1.0.dist-info/METADATA"; "my_pkg-1.0.dist-info/RECORD"]
  /\ option_map (members_named "pkg/a.txt") (Maker.on_disk (snd duplicate_run))
     = Some [Py.b "two"]
  /\ option_map record_paths (Maker.on_disk (snd duplicate_run))
     = Some ["pkg/a.txt"; "my_pkg-1.0.dist-info/WHEEL";
             "my_pkg-1.0.dist-info/METADATA"; "my_pkg-1.0.dist-info/RECORD"]
  /\ option_map (members_named "my_pkg-1.0.dist-info/RECORD")
       (Maker.on_disk (snd duplicate_run))
     = Some [Py.b ("pkg/a.txt,sha256=P8TM_nRYcOLA2Z9x8w_wZWyN7dQcwdfT03aw2-aF4vM,3"
                   +:+ nl
                   +:+ "my_pkg-1.0.dist-info/WHEEL,sha256=sobxWSyDDkdg_rinUth-jxhXHqoNqlmNMJY3aTZn2Us,91"
                   +:+ nl
                   +:+ "my_pkg-1.0.dist-info/METADATA,sha256=o7ojfdrU_AWLtyjEFKFkSmU7bgGlAamc6JkhvXXbvJ0,59"
                   +:+ nl
                   +:+ "my_pkg-1.0.dist-info/RECORD,," +:+ nl)].
Proof. vm_compute. repeat split. Qed.

(** C1, amended.  Let the input files of [main] be the entries [l].
    The list [all] that [main] walks has every archive path of [l]
    once, paired with the source of the last entry given for it, in
    increasing order of archive path.  When the run completes, every
    source of [all] exists, and the members of the archive are, in
    order: the files at and below the sources of [all], entry by entry
    and each once; WHEEL; METADATA; the files at and below the sources
    of the entry points and of the extra files of the dist-info
    directory; RECORD.  No member is written besides these. *)
Theorem C1_one_entry_per_path_last_wins
        (a : arguments) (w : world) (l : list (string * string)) :
  input_files a = input_pairs l ->
  exists all,
    List.NoDup (List.map fst all)
    /\ (forall p r, List.In (p, r) all <-> last_source p l = Some r)
    /\ StronglySorted (fun x y => str_lt (fst x) (fst y) = true) all
    /\ (fst (main a w) = Ok tt ->
        exists f text record,
          Maker.on_disk (snd (main a w)) = Some f
          /\ Forall (fun pr => fs w (snd pr) <> None) all
          /\ WhlFile.filelist f
             = map (member_of f) (input_members w all)
               ++ [(fixed_header f (WhlFile.distinfo_path f "WHEEL"),
                    Py.encode
                      (wheel_text (python_tag a) (abi a) (platform a)));
                   (fixed_header f (WhlFile.distinfo_path f "METADATA"),
                    Py.encode text)]
               ++ map (member_of f)
                    (input_members w (distinfo_entries a f))
               ++ [(fixed_header f (WhlFile.distinfo_path f "RECORD"),
                    record)]).
Proof.
  intros Hl.
  destruct (get_files_lookup l) as (files & E & L).
  destruct (all_files_spec files) as [N I].
  exists (sorted_items (map_to_list files)).
  split; [exact N|]. split; [intros p r; rewrite <- L; apply I|].
  split.
  { apply strongly_sorted_strict; [|exact N].
    unfold sorted_items.
    apply StronglySorted_merge_sort;
      [apply item_leb_trans|apply item_leb_total]. }
  intros H.
  destruct (main_layout a w H)
    as (files' & f & ms & rs & metadata & description & version_in_metadata
        & text & G & D & C & F & W & M & S & _).
  rewrite Hl, E in G. injection G as <-.
  exists f, text,
    (flat_map WhlFile.record_line
       (rs ++ [(WhlFile.distinfo_path f "RECORD", [], [])])).
  split; [exact D|]. split; [exact S|].
  rewrite F, M. rewrite <- !app_assoc. reflexivity.
Qed.

(** C1 at the archive path [pkg/a.txt] given twice. *)
Lemma C1_one_entry_per_path_last_wins_witness :
  exists all,
    List.NoDup (List.map fst all)
    /\ (forall p r,
           List.In (p, r) all
           <-> last_source p [("pkg/a.txt", "src/one.txt");
                              ("pkg/a.txt", "src/two.txt")] = Some r)
    /\ StronglySorted (fun x y => str_lt (fst x) (fst y) = true) all
    /\ (fst duplicate_run = Ok tt ->
        exists f text record,
          Maker.on_disk (snd duplicate_run) = Some f
          /\ Forall (fun pr => fs sample_world (snd pr) <> None) all
          /\ WhlFile.filelist f
             = map (member_of f) (input_members sample_world all)
               ++ [(fixed_header f (WhlFile.distinfo_path f "WHEEL"),
                    Py.encode (wheel_text "py3" "none" "any"));
                   (fixed_header f (WhlFile.distinfo_path f "METADATA"),
                    Py.encode text)]
               ++ map (member_of f)
                    (input_members sample_world
                       (distinfo_entries
                          (sample_arguments [["pkg/a.txt"; "src/one.txt"];
                                             ["pkg/a.txt"; "src/two.txt"]])
                          f))
               ++ [(fixed_header f (WhlFile.distinfo_path f "RECORD"),
                    record)]).
Proof.
  apply (C1_one_entry_per_path_last_wins
           (sample_arguments [["pkg/a.txt"; "src/one.txt"];
                              ["pkg/a.txt"; "src/two.txt"]])
           sample_world
           [("pkg/a.txt", "src/one.txt"); ("pkg/a.txt", "src/two.txt")]).
  reflexivity.
Defined.

(* ===================================================================== *)
(** ** C2: when the name file is written                                  *)
(* ===================================================================== *)



(* ===================================================================== *)
(** ** C4: the [Name: ] lines of METADATA                                 *)
(* ===================================================================== *)

(** C4, as stated, fails: with two [Name: ] lines and the name [My.Pkg],
    both lines are rewritten, and to the name as given, while the
    specification rewrites the first only, to [my-pkg].  The METADATA
    member of a run shows the same. *)
Lemma C4_every_name_line_gets_raw_name :
  Maker.metadata_text ("Name: first" +:+ nl +:+ "Name: second" +:+ nl)
    "My.Pkg" None "1.0"
  = Ok ("Name: My.Pkg" +:+ nl +:+ "Name: My.Pkg" +:+ nl
        +:+ "Version: 1.0" +:+ nl +:+ nl +:+ "UNKNOWN" +:+ nl)
  /\ spec_metadata_head "My.Pkg"
       ("Name: first" +:+ nl +:+ "Name: second" +:+ nl)
     = "Name: my-pkg" +:+ nl +:+ "Name: second" +:+ nl
  /\ option_map (members_named "my_pkg-1.0.dist-info/METADATA")
       (Maker.on_disk (snd duplicate_run))
     = Some [Py.b ("Name: My.Pkg" +:+ nl +:+ "Summary: s" +:+ nl
                   +:+ "Name: My.Pkg" +:+ nl +:+ "Version: 1.0" +:+ nl
                   +:+ nl +:+ "UNKNOWN" +:+ nl)].
Proof. vm_compute. repeat split. Qed.

(** C4, amended.  For a name without a backslash, the METADATA text is
    the given metadata with every line that starts with [Name: ]
    replaced by [Name: ] and the name as passed, then the [Version: ]
    line, an empty line, and the description or [UNKNOWN].  And [main]
    passes the name of the command line, not normalized: when the name
    has no backslash and the run completes, the archive has the member
    METADATA of the dist-info directory with that text, made from the
    metadata file, the name as given, the description file if there is
    one, and the version, normalized unless that is switched off. *)
Theorem C4_every_name_line_rewritten (a : arguments) (w : world) :
  (forall metadata name description version,
      Py.mem backslash name = false ->
      Maker.metadata_text metadata name description version
      = Ok (metadata_rewritten metadata name description version))
  /\ (Py.mem backslash (name a) = false ->
      fst (main a w) = Ok tt ->
      exists f metadata description version_in_metadata,
        Maker.on_disk (snd (main a w)) = Some f
        /\ read_text w (metadata_file a) = Ok metadata
        /\ (if Maker.truthy (description_file a)
            then exists d, read_text w (description_file a) = Ok d
                           /\ description = Some d
            else description = None)
        /\ (if noincompatible_normalize_version a
            then version_in_metadata = version a
            else normalize_pep440 (version a) = Ok version_in_metadata)
        /\ In (fixed_header f (WhlFile.distinfo_path f "METADATA"),
               Py.encode
                 (metadata_rewritten metadata (name a) description
                    version_in_metadata))
             (WhlFile.filelist f)).
Proof.
  split.
  - intros metadata name description version H.
    now apply metadata_text_spec.
  - intros Hn H.
    destruct (main_layout a w H)
      as (files & f & ms & rs & metadata & description & version_in_metadata
          & text & _ & D & C & F & W & M & _ & Rm & Rd & Rv & T).
    rewrite (metadata_text_spec _ _ _ _ Hn) in T. injection T as <-.
    exists f, metadata, description, version_in_metadata.
    split; [exact D|]. split; [exact Rm|]. split; [exact Rd|].
    split; [exact Rv|].
    rewrite F, M. apply in_or_app. left. apply in_or_app. right.
    right. now left.
Qed.

(** C4 at a run whose metadata file has two [Name: ] lines. *)
Lemma C4_every_name_line_rewritten_witness :
  exists f metadata description version_in_metadata,
    Maker.on_disk (snd duplicate_run) = Some f
    /\ read_text sample_world (Some "METADATA.in") = Ok metadata
    /\ description = None
    /\ normalize_pep440 "1.0" = Ok version_in_metadata
    /\ In (fixed_header f (WhlFile.distinfo_path f "METADATA"),
           Py.encode
             (metadata_rewritten metadata "My.Pkg" description
                version_in_metadata))
         (WhlFile.filelist f).
Proof.
  apply (proj2 (C4_every_name_line_rewritten
                  (sample_arguments [["pkg/a.txt"; "src/one.txt"];
                                     ["pkg/a.txt"; "src/two.txt"]])
                  sample_world)).
  - reflexivity.
  - vm_compute. reflexivity.
Defined.

(* ===================================================================== *)
(** ** The two embeddings of [normalize_pep440]                           *)
(* ===================================================================== *)

(** On the sample versions the embedding on code points gives what the
    embedding on [string] gives. *)
Example embeddings_agree_on_samples :
  map (fun v => Wide.normalize_pep440 (Wide.w v)) sample_versions
  = map (fun v => Some (as_code_points (normalize_pep440 v)))
      sample_versions.
Proof. vm_compute. reflexivity. Qed.

